(** * CLS backend: record access helper, profile aggregate writer and
      authorization gate, embedded from the JavaScript sources.

    Layout of the development:
    - [Js]      : the JavaScript values that flow through request bodies,
                  bind parameters and result rows;
    - [Sql]     : the relational store and the statements the code issues;
    - [Driver]  : the pooled connection (mysql2/promise) as a state and
                  exception monad with an explicit fault schedule;
    - [DatabaseService], [Controllers], [Middleware] : the code under
      [backend/services], [backend/controllers] and [backend/middleware];
    - the theorems, one block per property. *)

From Stdlib Require Import ZArith String Ascii List Bool Lia.
From Stdlib Require Import QArith Qround.
From stdpp Require Import base option list gmap strings fin_maps.

Local Open Scope string_scope.
Local Open Scope list_scope.
Local Open Scope Z_scope.

(* ===================================================================== *)
(** ** JavaScript values *)
(* ===================================================================== *)

Module Js.

(** Scalar values of a parsed JSON body, plus [undefined] for an absent
    property.  Numbers are the integers (ids, counts). *)
Inductive jsval : Type :=
| JUndefined
| JNull
| JBool (b : bool)
| JNum (z : Z)
| JStr (s : string).

#[global] Instance jsval_eq_dec : EqDecision jsval.
Proof. solve_decision. Defined.

(** [!v] is [negb (truthy v)]. *)
Definition truthy (v : jsval) : bool :=
  match v with
  | JUndefined | JNull => false
  | JBool b => b
  | JNum z => negb (z =? 0)
  | JStr s => negb (String.eqb s "")
  end.

(** [a === b] on scalars. *)
Definition strict_eq (a b : jsval) : bool := bool_decide (a = b).

(** [a || b] *)
Definition js_or (a b : jsval) : jsval := if truthy a then a else b.

(** *** [parseInt(s)] without a radix argument.
    Leading white space is skipped, a sign is accepted, a [0x]/[0X] prefix
    selects radix 16, and the longest prefix of digits is read; [None]
    stands for [NaN]. *)

Definition is_space (a : ascii) : bool :=
  let n := nat_of_ascii a in
  (Nat.eqb n 32 || Nat.eqb n 9 || Nat.eqb n 10 || Nat.eqb n 11
   || Nat.eqb n 12 || Nat.eqb n 13)%bool.

Fixpoint skip_space (s : string) : string :=
  match s with
  | String a r => if is_space a then skip_space r else s
  | EmptyString => s
  end.

Definition digit_value (radix : Z) (a : ascii) : option Z :=
  let n := Z.of_nat (nat_of_ascii a) in
  let d :=
    if (48 <=? n) && (n <=? 57) then Some (n - 48)
    else if (97 <=? n) && (n <=? 122) then Some (n - 87)
    else if (65 <=? n) && (n <=? 90) then Some (n - 55)
    else None in
  match d with
  | Some k => if k <? radix then Some k else None
  | None => None
  end.

Fixpoint read_digits (radix : Z) (s : string) (acc : option Z) : option Z :=
  match s with
  | String a r =>
      match digit_value radix a with
      | Some d => read_digits radix r (Some (radix * default 0 acc + d))
      | None => acc
      end
  | EmptyString => acc
  end.

Definition read_sign (s : string) : Z * string :=
  match s with
  | String "-" r => (-1, r)
  | String "+" r => (1, r)
  | _ => (1, s)
  end.

Definition read_radix (s : string) : Z * string :=
  match s with
  | String "0" (String "x" r) => (16, r)
  | String "0" (String "X" r) => (16, r)
  | _ => (10, s)
  end.

Definition parseInt (s : string) : option Z :=
  let '(sign, s1) := read_sign (skip_space s) in
  let '(radix, s2) := read_radix s1 in
  (fun n => sign * n) <$> read_digits radix s2 None.

(** [a !== n] where [n] is a number or [NaN]: strict inequality holds as
    soon as [a] is not a number, or [n] is [NaN], or the numbers differ. *)
Definition strict_neq_num (a : jsval) (n : option Z) : bool :=
  match a, n with
  | JNum x, Some y => negb (x =? y)
  | _, _ => true
  end.

End Js.
Export Js.

(* ===================================================================== *)
(** ** The relational store and the statements issued against it *)
(* ===================================================================== *)

Module Sql.

(** A row maps column names to values ([JNull] is SQL NULL); a table is
    the list of its rows; the store maps table names to tables. *)
Abbreviation row := (gmap string jsval).
Abbreviation table := (list (gmap string jsval)).
Abbreviation Store := (gmap string (list (gmap string jsval))).

Definition rows_of (db : Store) (t : string) : table := default [] (db !! t).

(** [r.c] as JavaScript reads a result row. *)
Definition col (r : row) (c : string) : jsval := default JUndefined (r !! c).

(** Integer columns of the schema (ids and foreign keys); every other
    column holds text. *)
Definition int_columns : list string :=
  ["id"; "surveyor_id"; "subcategory_id"; "county_id"; "category_id"].

Definition is_int_column (c : string) : bool := bool_decide (c ∈ int_columns).

(** Tables whose [id] is generated by the store on insert. *)
Definition auto_increment : list string :=
  ["surveyors"; "counties"; "service_categories"; "service_subcategories"].

(** The store's numeric reading of a text value: the decimal prefix,
    0 when there is none. *)
Definition sql_int (s : string) : Z :=
  let '(sign, s1) := read_sign (skip_space s) in
  default 0 ((fun n => sign * n) <$> read_digits 10 s1 None).

(** A value as the column [c] holds or compares it. *)
Definition to_column (c : string) (v : jsval) : jsval :=
  match v with
  | JUndefined => JNull
  | JBool b => JNum (Z.b2z b)
  | JStr s => if is_int_column c then JNum (sql_int s) else v
  | _ => v
  end.

(** [c = ?]: never true when either side is NULL. *)
Definition col_eqb (c : string) (stored v : jsval) : bool :=
  match stored, to_column c v with
  | JNull, _ | _, JNull => false
  | a, b => bool_decide (a = b)
  end.

(** Conditions of a WHERE clause, each with its placeholders:
    [c = ?] and [c IN (?, ..., ?)] with [n] placeholders. *)
Inductive cond : Type :=
| CEq (c : string)
| CIn (c : string) (n : nat).

(** The statement shapes the code builds.  [Select] carries the optional
    ORDER BY text and whether it ends in [LIMIT ? OFFSET ?];
    [Insert] is [VALUES (?, ..., ?)], [InsertValues] is [VALUES ?];
    [SelectUserSubservices] and [SelectUserCounties] are the two joins of
    the profile page, each with one placeholder for the surveyor id;
    [Unparsable] is a text the store cannot parse. *)
Inductive sql : Type :=
| Select (cols : list string) (tbl : string) (wh : list cond)
         (order : option string) (limit : bool)
| SelectCount (tbl : string) (wh : list cond)
| Select1 (tbl : string) (wh : list cond)
| Insert (tbl : string) (cols : list string)
| InsertValues (tbl : string) (cols : list string)
| Update (tbl : string) (sets : list string) (wh : list cond)
| Delete (tbl : string) (wh : list cond)
| SelectUserSubservices
| SelectUserCounties
| Unparsable.

(** A bind parameter: a scalar, or an array of arrays (rows). *)
Inductive param : Type :=
| PVal (v : jsval)
| PRows (rs : list (list jsval)).

(** What the driver hands back as the first component of its result:
    the rows of a SELECT, or the header of a write. *)
Inductive result : Type :=
| Rows (rs : table)
| Header (affectedRows insertId : Z).

(** ORDER BY is the store's business: any reordering of the rows. *)
Class SqlOrder : Type := {
  order_by : string -> table -> table;
  order_by_perm : forall o t, order_by o t ≡ₚ t
}.

Definition scalars (ps : list param) : option (list jsval) :=
  mapM (fun p => match p with PVal v => Some v | PRows _ => None end) ps.

Definition eval_cond (k : cond) (ps : list jsval)
  : option ((row -> bool) * list jsval) :=
  match k with
  | CEq c =>
      match ps with
      | v :: ps' => Some (fun r => col_eqb c (col r c) v, ps')
      | [] => None
      end
  | CIn c n =>
      if ((0 <? n) && (n <=? length ps))%nat
      then Some (fun r => existsb (col_eqb c (col r c)) (take n ps), drop n ps)
      else None
  end.

Fixpoint eval_where (wh : list cond) (ps : list jsval)
  : option ((row -> bool) * list jsval) :=
  match wh with
  | [] => Some (fun _ => true, ps)
  | k :: wh' =>
      '(p, ps1) ← eval_cond k ps;
      '(q, ps2) ← eval_where wh' ps1;
      Some (fun r => p r && q r, ps2)
  end.

Definition project (cols : list string) (r : row) : row :=
  if bool_decide (cols = ["*"]) then r
  else list_to_map ((fun c => (c, col r c)) <$> cols).

Definition max_id (t : table) : Z :=
  foldr (fun r m => match col r "id" with JNum i => Z.max i m | _ => m end) 0 t.

(** The row an INSERT stores, and the id it generated (0 when none). *)
Definition new_row (tbl : string) (t : table) (cols : list string)
  (vals : list jsval) : row * Z :=
  let r : row := list_to_map (zip_with (fun c v => (c, to_column c v)) cols vals) in
  if bool_decide (tbl ∈ auto_increment) && bool_decide (r !! "id" = None)
  then (<["id" := JNum (1 + max_id t)]> r, 1 + max_id t)
  else (r, 0).

Fixpoint insert_rows (tbl : string) (t : table) (cols : list string)
  (rs : list (list jsval)) : table * list Z :=
  match rs with
  | [] => (t, [])
  | vals :: rs' =>
      let '(r, i) := new_row tbl t cols vals in
      let '(t', ids) := insert_rows tbl (t ++ [r]) cols rs' in
      (t', i :: ids)
  end.

Definition set_columns (sets : list string) (vals : list jsval) (r : row) : row :=
  foldr (fun '(c, v) acc => <[c := to_column c v]> acc) r (zip sets vals).

Section Run.
Context `{SqlOrder}.

(** The windows of [LIMIT l OFFSET o]. *)
Definition window (limit : bool) (ps : list jsval) (rs : table) : option table :=
  if limit then
    match ps with
    | [JNum l; JNum o] =>
        if (0 <=? l) && (0 <=? o)
        then Some (take (Z.to_nat l) (drop (Z.to_nat o) rs))
        else None
    | _ => None
    end
  else
    match ps with
    | [] => Some rs
    | _ => None
    end.

(** A statement run with scalar parameters; [None] when the store rejects
    it (wrong number or kind of parameters). *)
Definition run_scalar (q : sql) (ps : list jsval) (db : Store)
  : option (result * Store) :=
  match q with
  | Select cols tbl wh order limit =>
      '(p, ps1) ← eval_where wh ps;
      let matching := List.filter p (rows_of db tbl) in
      let ordered := match order with
                     | Some o => order_by o matching
                     | None => matching
                     end in
      rs ← window limit ps1 ordered;
      Some (Rows (project cols <$> rs), db)
  | SelectCount tbl wh =>
      '(p, ps1) ← eval_where wh ps;
      if bool_decide (ps1 = []) then
        let n := Z.of_nat (length (List.filter p (rows_of db tbl))) in
        Some (Rows [ {[ "total" := JNum n ]} ], db)
      else None
  | Select1 tbl wh =>
      '(p, ps1) ← eval_where wh ps;
      if bool_decide (ps1 = []) then
        Some (Rows (take 1 ((fun _ => {[ "1" := JNum 1 ]}) <$>
                            List.filter p (rows_of db tbl))), db)
      else None
  | Insert tbl cols =>
      if (length ps =? length cols)%nat then
        let '(r, i) := new_row tbl (rows_of db tbl) cols ps in
        Some (Header 1 i, <[tbl := rows_of db tbl ++ [r]]> db)
      else None
  | InsertValues _ _ | Unparsable => None
  | SelectUserSubservices =>
      match ps with
      | [u] =>
          let joined : table :=
            ss ← List.filter (fun r : row => col_eqb "surveyor_id" (col r "surveyor_id") u)
                             (rows_of db "surveyors_services");
            ssc ← List.filter (fun r : row => col_eqb "id" (col r "id") (col ss "subcategory_id"))
                              (rows_of db "service_subcategories");
            sc ← List.filter (fun r : row => col_eqb "id" (col r "id") (col ssc "category_id"))
                             (rows_of db "service_categories");
            [ ({[ "subservice_name" := col ssc "name";
                  "main_service_category_name" := col sc "name" ]} : row) ] in
          Some (Rows (order_by "sc.name, ssc.name" joined), db)
      | _ => None
      end
  | SelectUserCounties =>
      match ps with
      | [u] =>
          let joined : table :=
            c ← rows_of db "counties";
            sc ← List.filter (fun r : row =>
                                col_eqb "county_id" (col r "county_id") (col c "id")
                                && col_eqb "surveyor_id" (col r "surveyor_id") u)
                             (rows_of db "surveyors_counties");
            [ ({[ "county_name" := col c "name" ]} : row) ] in
          Some (Rows (order_by "c.name" joined), db)
      | _ => None
      end
  | Update tbl sets wh =>
      '(p, ps1) ← eval_where wh (drop (length sets) ps);
      if bool_decide (ps1 = []) && (length sets <=? length ps)%nat then
        let t := rows_of db tbl in
        let t' := (fun r : row => if (p r : bool) then set_columns sets (take (length sets) ps) r
                            else r) <$> t in
        Some (Header (Z.of_nat (length (List.filter p t))) 0, <[tbl := t']> db)
      else None
  | Delete tbl wh =>
      '(p, ps1) ← eval_where wh ps;
      if bool_decide (ps1 = []) then
        let t := rows_of db tbl in
        Some (Header (Z.of_nat (length (List.filter p t))) 0,
              <[tbl := List.filter (fun r : row => negb (p r)) t]> db)
      else None
  end.

(** A prepared statement takes scalar parameters only. *)
Definition run_prepared (q : sql) (ps : list param) (db : Store)
  : option (result * Store) :=
  vs ← scalars ps; run_scalar q vs db.

(** [INSERT ... VALUES ?] with one array-of-rows parameter, as the text
    protocol expands it. *)
Definition run_values (q : sql) (rs : list (list jsval)) (db : Store)
  : option (result * Store) :=
  match q with
  | InsertValues tbl cols =>
      if forallb (fun vals : list jsval => (length vals =? length cols)%nat) rs
         && (0 <? length rs)%nat
      then
        let '(t', ids) := insert_rows tbl (rows_of db tbl) cols rs in
        Some (Header (Z.of_nat (length rs)) (default 0 (head ids)), <[tbl := t']> db)
      else None
  | _ => None
  end.

End Run.

End Sql.
Export Sql.

(* ===================================================================== *)
(** ** The pooled connection *)
(* ===================================================================== *)

Module Driver.

(** Thrown values. *)
Inductive exn : Type :=
| StoreError (code : string)   (* raised by the pool, the connection or the store *)
| TypeError (msg : string)
| JsonWebTokenError (msg : string)
| TokenExpiredError (msg : string)
| Error (msg : string).

Definition error_message (e : exn) : string :=
  match e with
  | StoreError m | TypeError m | JsonWebTokenError m | TokenExpiredError m
  | Error m => m
  end.

Inductive call : Type :=
| GetConnection | BeginTransaction | Execute | Query | Commit | Rollback | Release.

(** What an observer of the pool and of the console sees, most recent
    first.  [Call k c ok]: call [k] on connection [c] returned ([ok]) or
    threw. *)
Inductive event : Type :=
| Call (k : call) (c : nat) (ok : bool)
| ConsoleError (msg : string)
| ConsoleWarn (msg : string).

#[global] Instance call_eq_dec : EqDecision call.
Proof. solve_decision. Defined.
#[global] Instance event_eq_dec : EqDecision event.
Proof. solve_decision. Defined.

(** The world a request runs in.
    - [committed]: the store as every other reader sees it;
    - [session]: the working copy of the transaction open on the
      connection in use, if any;
    - [faults]: the fault schedule; each call that reaches the pool or the
      store consumes its head and throws when it is [true] (an exhausted
      schedule means no further fault).  Constraint violations of the store
      (duplicate key, missing referenced row) are faults of this kind;
    - [trace]: the events so far;
    - [next_conn]: the handle the next acquisition returns. *)
Record World : Type := mkWorld {
  committed : Store;
  session : option Store;
  faults : list bool;
  trace : list event;
  next_conn : nat
}.

Definition fresh_world (db : Store) (fs : list bool) : World :=
  mkWorld db None fs [] 0.

(** An [async] function seen from its caller: it ends in a value or in a
    rejection, and changes the world. *)
Definition Async (A : Type) : Type := World -> (exn + A) * World.

(** The body of a function with local variables of type [L]. *)
Definition M (L A : Type) : Type := L -> World -> (exn + A) * L * World.

Definition ret {L A} (a : A) : M L A := fun l w => (inr a, l, w).

Definition throw {L A} (e : exn) : M L A := fun l w => (inl e, l, w).

Definition bind {L A B} (m : M L A) (k : A -> M L B) : M L B :=
  fun l w =>
    match m l w with
    | (inr a, l', w') => k a l' w'
    | (inl e, l', w') => (inl e, l', w')
    end.

#[global] Instance M_ret {L} : MRet (M L) := fun A => ret.
#[global] Instance M_bind {L} : MBind (M L) := fun A B k m => bind m k.

(** [try { body } catch (e) { handler e }] *)
Definition try_catch {L A} (body : M L A) (handler : exn -> M L A) : M L A :=
  fun l w =>
    match body l w with
    | (inl e, l', w') => handler e l' w'
    | r => r
    end.

(** [... finally { fin }]: [fin] always runs; its own throw wins. *)
Definition finally {L A} (m : M L A) (fin : M L unit) : M L A :=
  fun l w =>
    match m l w with
    | (r, l', w') =>
        match fin l' w' with
        | (inl e, l'', w'') => (inl e, l'', w'')
        | (inr _, l'', w'') => (r, l'', w'')
        end
    end.

Definition get_local {L} : M L L := fun l w => (inr l, l, w).
Definition set_local {L} (l : L) : M L unit := fun _ w => (inr tt, l, w).

(** [await f]: run an async function from inside a body. *)
Definition await {L A} (f : Async A) : M L A :=
  fun l w => match f w with (r, w') => (r, l, w') end.

(** An async function whose body starts with locals [init]. *)
Definition async {L A} (init : L) (body : M L A) : Async A :=
  fun w => match body init w with (r, _, w') => (r, w') end.

Definition log (e : event) (w : World) : World :=
  mkWorld (committed w) (session w) (faults w) (e :: trace w) (next_conn w).

(** Consume the head of the fault schedule. *)
Definition pop_fault (w : World) : bool * World :=
  (hd false (faults w),
   mkWorld (committed w) (session w) (tl (faults w)) (trace w) (next_conn w)).

Definition set_session (s : option Store) (w : World) : World :=
  mkWorld (committed w) s (faults w) (trace w) (next_conn w).

Definition set_committed (db : Store) (w : World) : World :=
  mkWorld db (session w) (faults w) (trace w) (next_conn w).

(** The store the connection currently reads and writes. *)
Definition current (w : World) : Store := default (committed w) (session w).

Definition write (db : Store) (w : World) : World :=
  match session w with
  | Some _ => set_session (Some db) w
  | None => set_committed db w
  end.

(** [pool.getConnection()] *)
Definition getConnection : Async nat :=
  fun w =>
    let '(bad, w1) := pop_fault w in
    let c := next_conn w1 in
    if bad then (inl (StoreError "ECONNREFUSED"), log (Call GetConnection c false) w1)
    else (inr c,
          log (Call GetConnection c true)
              (mkWorld (committed w1) (session w1) (faults w1) (trace w1) (S c))).

(** [connection.beginTransaction()]; beginning a transaction commits a
    pending one. *)
Definition beginTransaction (c : nat) : Async unit :=
  fun w =>
    let '(bad, w1) := pop_fault w in
    if bad then (inl (StoreError "PROTOCOL_CONNECTION_LOST"), log (Call BeginTransaction c false) w1)
    else
      let db := current w1 in
      (inr tt, log (Call BeginTransaction c true) (set_session (Some db) (set_committed db w1))).

Definition has_undefined (ps : list param) : bool :=
  existsb (fun p => match p with PVal JUndefined => true | _ => false end) ps.

Section Statements.
Context `{SqlOrder}.

(** [connection.execute(sql, params)] (prepared statement).  The driver
    refuses a parameter list that contains [undefined] before anything is
    sent: "Bind parameters must not contain undefined. To pass SQL NULL
    specify JS null". *)
Definition execute (c : nat) (q : sql) (ps : list param) : Async result :=
  fun w =>
    if has_undefined ps
    then (inl (TypeError "Bind parameters must not contain undefined. To pass SQL NULL specify JS null"),
          log (Call Execute c false) w)
    else
      let '(bad, w1) := pop_fault w in
      if bad then (inl (StoreError "ER_STORE"), log (Call Execute c false) w1)
      else
        match run_prepared q ps (current w1) with
        | Some (r, db) => (inr r, log (Call Execute c true) (write db w1))
        | None => (inl (StoreError "ER_PARSE_ERROR"), log (Call Execute c false) w1)
        end.

(** [connection.query(sql, [rows])] (text protocol): the array of rows
    is expanded into the VALUES list. *)
Definition query (c : nat) (q : sql) (rows : list (list jsval)) : Async result :=
  fun w =>
    let '(bad, w1) := pop_fault w in
    if bad then (inl (StoreError "ER_STORE"), log (Call Query c false) w1)
    else
      match run_values q rows (current w1) with
      | Some (r, db) => (inr r, log (Call Query c true) (write db w1))
      | None => (inl (StoreError "ER_PARSE_ERROR"), log (Call Query c false) w1)
      end.

End Statements.

(** [connection.commit()] *)
Definition commit (c : nat) : Async unit :=
  fun w =>
    let '(bad, w1) := pop_fault w in
    if bad then (inl (StoreError "PROTOCOL_CONNECTION_LOST"), log (Call Commit c false) w1)
    else (inr tt, log (Call Commit c true) (set_session None (set_committed (current w1) w1))).

(** [connection.rollback()]; a rollback that throws has lost the
    session, and the store drops the uncommitted work with it. *)
Definition rollback (c : nat) : Async unit :=
  fun w =>
    let '(bad, w1) := pop_fault w in
    if bad then (inl (StoreError "PROTOCOL_CONNECTION_LOST"),
                 log (Call Rollback c false) (set_session None w1))
    else (inr tt, log (Call Rollback c true) (set_session None w1)).

(** [connection.release()] *)
Definition release (c : nat) : Async unit :=
  fun w => (inr tt, log (Call Release c true) w).

Definition console_error {L} (msg : string) : M L unit :=
  fun l w => (inr tt, l, log (ConsoleError msg) w).

Definition console_warn {L} (msg : string) : M L unit :=
  fun l w => (inr tt, l, log (ConsoleWarn msg) w).

(** Accessors on a driver result as the code uses them. *)
Definition result_rows (r : result) : table :=
  match r with Rows rs => rs | Header _ _ => [] end.

Definition insertId (r : result) : jsval :=
  match r with Header _ i => JNum i | Rows _ => JUndefined end.

Definition affectedRows (r : result) : jsval :=
  match r with Header n _ => JNum n | Rows _ => JUndefined end.

(** [const [x] = v]: the first element of an array, [undefined] for an
    empty one; a write header is not iterable. *)
Definition first_of {L} (r : result) : M L (option row) :=
  match r with
  | Rows rs => ret (head rs)
  | Header _ _ => throw (TypeError "object is not iterable")
  end.

End Driver.
Export Driver.

(* ===================================================================== *)
(** ** backend/services/databaseService.js *)
(* ===================================================================== *)

Module DatabaseService.

(** A JavaScript object literal: its own properties in insertion order. *)
Abbreviation object := (list (string * jsval)).

Definition keys (o : list (string * jsval)) : list string := fst <$> o.
Definition values (o : list (string * jsval)) : list jsval := snd <$> o.

(** [if (connection) connection.release();] on the local [connection]. *)
Definition release_connection : M (option nat) unit :=
  connection ← get_local;
  match connection with
  | Some c => await (release c)
  | None => mret tt
  end.

(** A JavaScript number that is the outcome of [Math.ceil(a / b)] or is
    compared with one. *)
Inductive jsnumber : Type :=
| Int (z : Z)
| Infinity
| NaN.

(** [Math.ceil(total / limit)] on integers: the ceiling of the exact
    quotient; a zero divisor gives [Infinity] (or [NaN] for 0/0), and a
    [total] that is not a number gives [NaN]. *)
Definition ceil_div (total : jsval) (limit : Z) : jsnumber :=
  match total with
  | JNum t =>
      if limit =? 0 then (if t =? 0 then NaN else Infinity)
      else Int (Qceiling (inject_Z t / inject_Z limit))
  | _ => NaN
  end.

(** [page < n] *)
Definition lt_number (page : Z) (n : jsnumber) : bool :=
  match n with
  | Int z => page <? z
  | Infinity => true
  | NaN => false
  end.

Record Pagination : Type := mkPagination {
  page : Z;
  limit : Z;
  total : jsval;
  totalPages : jsnumber;
  hasNext : bool;
  hasPrev : bool
}.

Record Page : Type := mkPage {
  data : table;
  pagination : Pagination
}.

Record PaginateOptions : Type := mkOptions {
  where_ : option (list (string * jsval));
  orderBy : option string;
  columns : option (list string)
}.

Definition no_options : PaginateOptions := mkOptions None None None.

Section Service.
Context `{SqlOrder}.

Definition executeQuery (q : sql) (params : list param) : Async result :=
  async None (
    finally
      (try_catch
         (c ← await getConnection;
          set_local (Some c);;
          results ← await (execute c q params);
          mret results)
         (fun error =>
            console_error "Database query error:";;
            throw error))
      release_connection).

Definition executeTransaction {A} (callback : nat -> Async A) : Async A :=
  async None (
    finally
      (try_catch
         (c ← await getConnection;
          set_local (Some c);;
          await (beginTransaction c);;
          result ← await (callback c);
          await (commit c);;
          mret result)
         (fun error =>
            connection ← get_local;
            match connection with
            | Some c => await (rollback c)
            | None => mret tt
            end;;
            console_error "Transaction error:";;
            throw error))
      release_connection).

Definition findById (table : string) (id : jsval) (cols : list string)
  : Async (option row) :=
  async tt (
    results ← await (executeQuery (Select cols table [CEq "id"] None false) [PVal id]);
    mret (if (0 <? length (result_rows results))%nat
          then head (result_rows results) else None)).

Definition findByField (table field : string) (value : jsval) (cols : list string)
  : Async result :=
  async tt (
    await (executeQuery (Select cols table [CEq field] None false) [PVal value])).

Definition insert (table : string) (data : list (string * jsval))
  : Async (option row) :=
  async tt (
    let fields := keys data in
    let vals := values data in
    results ← await (executeQuery (Insert table fields) (PVal <$> vals));
    result ← first_of results;
    mret result).

Definition updateById (table : string) (id : jsval) (data : list (string * jsval))
  : Async (option row) :=
  async tt (
    let fields := keys data in
    let vals := values data in
    results ← await (executeQuery (Update table fields [CEq "id"])
                                  (PVal <$> (vals ++ [id])));
    result ← first_of results;
    mret result).

Definition deleteById (table : string) (id : jsval) : Async (option row) :=
  async tt (
    results ← await (executeQuery (Delete table [CEq "id"]) [PVal id]);
    result ← first_of results;
    mret result).

Definition existsByField (table field : string) (value : jsval) : Async bool :=
  async tt (
    results ← await (executeQuery (Select1 table [CEq field]) [PVal value]);
    mret ((0 <? length (result_rows results))%nat)).

(** The WHERE text [paginate] builds: none without [where]; with an
    object, its keys joined by AND, which for an empty object is the bare
    word WHERE. *)
Definition where_conditions (where_ : option (list (string * jsval)))
  : option (list cond) :=
  match where_ with
  | None => Some []
  | Some o => if bool_decide (keys o = []) then None else Some (CEq <$> keys o)
  end.

Definition where_params (where_ : option (list (string * jsval))) : list jsval :=
  match where_ with
  | None => []
  | Some o => values o
  end.

Definition paginate (table : string) (page limit : Z) (options : PaginateOptions)
  : Async Page :=
  async tt (
    let cols := default ["*"] (columns options) in
    let offset := (page - 1) * limit in
    let params := where_params (where_ options) in
    let orderClause :=
      match orderBy options with
      | Some o => if String.eqb o "" then None else Some o
      | None => None
      end in
    let countQuery :=
      match where_conditions (where_ options) with
      | Some conds => SelectCount table conds
      | None => Unparsable
      end in
    countResult ← await (executeQuery countQuery (PVal <$> params));
    match head (result_rows countResult) with
    | None => throw (TypeError "Cannot read properties of undefined (reading 'total')")
    | Some first =>
        let total := col first "total" in
        let dataQuery :=
          match where_conditions (where_ options) with
          | Some conds => Select cols table conds orderClause true
          | None => Unparsable
          end in
        data ← await (executeQuery dataQuery
                                   (PVal <$> (params ++ [JNum limit; JNum offset])));
        mret (mkPage (result_rows data)
                (mkPagination page limit total
                   (ceil_div total limit)
                   (lt_number page (ceil_div total limit))
                   (1 <? page)))
    end).

Definition batchInsert (table : string) (records : option (list (list (string * jsval))))
  : Async (option row) :=
  async tt (
    match records with
    | None | Some [] =>
        mret (Some ({[ "affectedRows" := JNum 0; "insertId" := JNull ]} : row))
    | Some (first :: rest) =>
        let fields := keys first in
        let vals := values <$> (first :: rest) in
        results ← await (executeQuery (InsertValues table fields) [PRows vals]);
        result ← first_of results;
        mret result
    end).

End Service.

End DatabaseService.

(* ===================================================================== *)
(** ** Requests, responses and the external libraries *)
(* ===================================================================== *)

Module Http.

(** An Express request as the handlers read it: route parameters are
    strings, scalar body fields are JSON scalars, and the body fields
    that carry lists ([mainServices], [subservices], [counties]) are
    arrays of names; [req_user] is what the authentication middleware
    attached, as [(id, email)]; [validation] holds the errors the
    validation chains recorded so far, as [(field, message)]. *)
Record Request : Type := mkRequest {
  params : gmap string string;
  body : gmap string jsval;
  body_arrays : gmap string (list string);
  authorization : option string;
  req_user : option (jsval * jsval);
  validation : list (string * string)
}.

(** [req.params.k] *)
Definition req_param (req : Request) (k : string) : jsval :=
  from_option JStr JUndefined (params req !! k).

(** [req.body.k] for a scalar field *)
Definition field (req : Request) (k : string) : jsval :=
  default JUndefined (body req !! k).

(** [req.body.k] for a list field; [None] when absent *)
Definition array_field (req : Request) (k : string) : option (list string) :=
  body_arrays req !! k.

(** [res.status(s).json({message, ...})]: the scalar properties and the
    array properties of the JSON body. *)
Record Response : Type := mkResponse {
  status : Z;
  message : string;
  properties : list (string * jsval);
  arrays : list (string * list jsval)
}.

Definition respond {L} (s : Z) (msg : string) : M L Response :=
  mret (mkResponse s msg [] []).

(** bcryptjs: salted hashing and comparison are the library's. *)
Class Bcrypt : Type := {
  bcrypt_hash : string -> string;
  bcrypt_compare : string -> string -> bool
}.

(** jsonwebtoken as the environment configures it: [JWT_EXPIRES_IN] is
    [process.env.JWT_EXPIRES_IN] ([None] when unset), [jwt_sign] signs
    with the secret and the options of the environment, and [jwt_verify]
    yields the payload [(userId, email)] or throws [JsonWebTokenError] /
    [TokenExpiredError]. *)
Class Jwt : Type := {
  JWT_EXPIRES_IN : option string;
  jwt_sign : jsval -> jsval -> string;
  jwt_verify : string -> exn + (jsval * jsval)
}.

End Http.
Export Http.

(* ===================================================================== *)
(** ** backend/controllers *)
(* ===================================================================== *)

Module Controllers.
Import DatabaseService.

Section Handlers.
Context `{SqlOrder} `{Bcrypt} `{Jwt}.

(** [bcrypt.hash(password, await bcrypt.genSalt(10))]; the library
    rejects anything but a string. *)
Definition hashPassword (password : jsval) : Async jsval :=
  fun w =>
    match password with
    | JStr s => (inr (JStr (bcrypt_hash s)), w)
    | _ => (inl (Error "Illegal arguments"), w)
    end.

(** [bcrypt.compare(plain, hashed)] *)
Definition compare (plain hashed : jsval) : Async bool :=
  fun w =>
    match plain, hashed with
    | JStr p, JStr h => (inr (bcrypt_compare p h), w)
    | _, _ => (inl (Error "Illegal arguments"), w)
    end.

(** [if (connection) await connection.rollback();] *)
Definition rollback_connection : M (option nat) unit :=
  connection ← get_local;
  match connection with
  | Some c => await (rollback c)
  | None => mret tt
  end.

Definition server_error (msg : string) (error : exn) : M (option nat) Response :=
  mret (mkResponse 500 msg [("error", JStr (error_message error))] []).

(** *** authController.js *)

Definition loginUser (req : Request) : Async Response :=
  async None (
    finally
      (try_catch
         (let email := field req "email" in
          let password := field req "password" in
          if negb (truthy email) || negb (truthy password) then
            respond 400 "Email and password are required."
          else
            c ← await getConnection;
            set_local (Some c);;
            users ← await (execute c (Select ["id"; "email"; "password"] "surveyors"
                                             [CEq "email"] None false)
                                   [PVal email]);
            match head (result_rows users) with
            | None => respond 401 "Invalid credentials: Email not found."
            | Some user =>
                isMatch ← await (compare password (col user "password"));
                if negb isMatch then
                  respond 401 "Invalid credentials: Incorrect password."
                else
                  let token := jwt_sign (col user "id") (col user "email") in
                  mret (mkResponse 200 "Login successful!"
                          [("user.id", col user "id"); ("user.email", col user "email");
                           ("token", JStr token);
                           ("expiresIn",
                            js_or (from_option JStr JUndefined JWT_EXPIRES_IN) (JStr "24h"))]
                          [])
            end)
         (fun error =>
            console_error "Login error:";;
            server_error "Server error during login." error))
      release_connection).

(** *** registrationController.js *)

Definition defaultCountyNames : list string := ["Boulder"; "Broomfield"; "Gilpin"].

Definition registerUser (req : Request) : Async Response :=
  async None (
    finally
      (try_catch
         (let firstName := field req "firstName" in
          let lastName := field req "lastName" in
          let companyName := field req "companyName" in
          let email := field req "email" in
          let password := field req "password" in
          let confirmPassword := field req "confirmPassword" in
          let phone := field req "phone" in
          let address := field req "address" in
          let city := field req "city" in
          let state := field req "state" in
          let zipCode := field req "zipCode" in
          if negb (truthy email) || negb (truthy password) || negb (truthy confirmPassword)
             || negb (truthy firstName) || negb (truthy lastName) || negb (truthy address)
             || negb (truthy city) || negb (truthy state) || negb (truthy zipCode)
          then respond 400 "All required fields must be provided."
          else if negb (strict_eq password confirmPassword)
          then respond 400 "Passwords do not match."
          else
            c ← await getConnection;
            set_local (Some c);;
            await (beginTransaction c);;
            existingUsers ← await (execute c (Select ["id"] "surveyors" [CEq "email"] None false)
                                           [PVal email]);
            if (0 <? length (result_rows existingUsers))%nat then
              await (rollback c);;
              respond 409 "User with that email already exists."
            else
              hashedPassword ← await (hashPassword password);
              surveyorResult ← await (execute c
                (Insert "surveyors"
                   ["first_name"; "last_name"; "address"; "town"; "state"; "zip_code";
                    "phone"; "email"; "password"; "company_name"])
                [PVal firstName; PVal lastName; PVal address; PVal city; PVal state;
                 PVal zipCode; PVal phone; PVal email; PVal hashedPassword;
                 PVal (js_or companyName JNull)]);
              let surveyorId := insertId surveyorResult in
              defaultCounties ← await (execute c
                (Select ["id"; "name"] "counties" [CIn "name" 3] None false)
                ((fun n => PVal (JStr n)) <$> defaultCountyNames));
              let surveyorCountiesInserts :=
                (fun county : row => [surveyorId; col county "id"])
                  <$> result_rows defaultCounties in
              (if (0 <? length surveyorCountiesInserts)%nat then
                 _ ← await (query c (InsertValues "surveyors_counties"
                                       ["surveyor_id"; "county_id"])
                                  surveyorCountiesInserts);
                 mret tt
               else
                 console_warn "Could not find default counties (Boulder, Broomfield, Gilpin) in the database. No counties assigned.");;
              await (commit c);;
              mret (mkResponse 201 "User registered successfully!"
                      [("user.id", surveyorId); ("user.email", email);
                       ("user.firstName", firstName); ("user.lastName", lastName);
                       ("user.companyName", companyName)] []))
         (fun error =>
            rollback_connection;;
            console_error "Registration error:";;
            server_error "Server error during registration." error))
      release_connection).

(** *** userProfileController.js *)

(** The order in which a [Set] yields what was added to it. *)
Definition distinct (l : list jsval) : list jsval :=
  foldl (fun acc x => if bool_decide (x ∈ acc) then acc else acc ++ [x]) [] l.

Definition getUserProfile (req : Request) : Async Response :=
  async None (
    finally
      (try_catch
         (let userId := req_param req "id" in
          if negb (truthy userId) then respond 400 "User ID is required."
          else
            c ← await getConnection;
            set_local (Some c);;
            surveyorRows ← await (execute c
              (Select ["id"; "first_name"; "last_name"; "company_name"; "email"; "phone";
                       "address"; "town"; "state"; "zip_code"]
                      "surveyors" [CEq "id"] None false)
              [PVal userId]);
            match head (result_rows surveyorRows) with
            | None => respond 404 "User not found."
            | Some surveyor =>
                subserviceRecords ← await (execute c SelectUserSubservices [PVal userId]);
                let servicesProvided :=
                  distinct ((fun r : row => col r "main_service_category_name")
                              <$> result_rows subserviceRecords) in
                let subservicesProvided :=
                  (fun r : row => col r "subservice_name") <$> result_rows subserviceRecords in
                countiesRows ← await (execute c SelectUserCounties [PVal userId]);
                let countiesProvided :=
                  (fun r : row => col r "county_name") <$> result_rows countiesRows in
                mret (mkResponse 200 ""
                        ((fun k => (k, col surveyor k)) <$>
                           ["id"; "first_name"; "last_name"; "company_name"; "email";
                            "phone"; "address"; "town"; "state"; "zip_code"])
                        [("services_provided", servicesProvided);
                         ("subservices_provided", subservicesProvided);
                         ("counties_provided", countiesProvided)])
            end)
         (fun error =>
            console_error "Get User Profile error:";;
            server_error "Server error fetching user profile." error))
      release_connection).

Definition updateUserInfo (req : Request) : Async Response :=
  async None (
    finally
      (try_catch
         (let userId := req_param req "id" in
          let firstName := field req "firstName" in
          let lastName := field req "lastName" in
          let companyName := field req "companyName" in
          let email := field req "email" in
          let phone := field req "phone" in
          let address := field req "address" in
          let city := field req "city" in
          let state := field req "state" in
          let zipCode := field req "zipCode" in
          if negb (truthy userId) then respond 400 "User ID is required."
          else
            c ← await getConnection;
            set_local (Some c);;
            await (beginTransaction c);;
            result ← await (execute c
              (Update "surveyors"
                 ["first_name"; "last_name"; "company_name"; "email"; "phone"; "address";
                  "town"; "state"; "zip_code"]
                 [CEq "id"])
              [PVal firstName; PVal lastName; PVal (js_or companyName JNull); PVal email;
               PVal (js_or phone JNull); PVal address; PVal city; PVal state; PVal zipCode;
               PVal userId]);
            if strict_eq (affectedRows result) (JNum 0) then
              await (rollback c);;
              respond 404 "User not found or no changes made."
            else
              await (commit c);;
              respond 200 "User information updated successfully.")
         (fun error =>
            rollback_connection;;
            console_error "Update User Info error:";;
            server_error "Server error updating user information." error))
      release_connection).

Definition changeUserPassword (req : Request) : Async Response :=
  async None (
    finally
      (try_catch
         (let userId := req_param req "id" in
          let currentPassword := field req "currentPassword" in
          let newPassword := field req "newPassword" in
          if negb (truthy userId) || negb (truthy currentPassword) || negb (truthy newPassword)
          then respond 400 "User ID, current password, and new password are required."
          else
            c ← await getConnection;
            set_local (Some c);;
            await (beginTransaction c);;
            userRows ← await (execute c (Select ["password"] "surveyors" [CEq "id"] None false)
                                      [PVal userId]);
            match head (result_rows userRows) with
            | None =>
                await (rollback c);;
                respond 404 "User not found."
            | Some first =>
                let hashedPassword := col first "password" in
                isMatch ← await (compare currentPassword hashedPassword);
                if negb isMatch then
                  await (rollback c);;
                  respond 401 "Incorrect current password."
                else
                  newHashedPassword ← await (hashPassword newPassword);
                  result ← await (execute c (Update "surveyors" ["password"] [CEq "id"])
                                          [PVal newHashedPassword; PVal userId]);
                  if strict_eq (affectedRows result) (JNum 0) then
                    await (rollback c);;
                    respond 500 "Password update failed. No rows affected."
                  else
                    await (commit c);;
                    respond 200 "Password updated successfully."
            end)
         (fun error =>
            rollback_connection;;
            console_error "Change Password error:";;
            server_error "Server error changing password." error))
      release_connection).

(** Replace-all writes: the user's rows are deleted, the names of the
    body are resolved to ids, and the resolved pairs are inserted. *)
Definition updateUserServices (req : Request) : Async Response :=
  async None (
    finally
      (try_catch
         (let userId := req_param req "id" in
          let subservices := array_field req "subservices" in
          if negb (truthy userId) then respond 400 "User ID is required."
          else
            c ← await getConnection;
            set_local (Some c);;
            await (beginTransaction c);;
            _ ← await (execute c (Delete "surveyors_services" [CEq "surveyor_id"])
                               [PVal userId]);
            subcategoryIds ←
              match subservices with
              | Some (n :: ns) =>
                  rows ← await (execute c
                    (Select ["id"] "service_subcategories"
                            [CIn "name" (length (n :: ns))] None false)
                    ((fun s => PVal (JStr s)) <$> (n :: ns)));
                  mret ((fun r : row => col r "id") <$> result_rows rows)
              | _ => mret []
              end;
            (if (0 <? length subcategoryIds)%nat then
               let subcategoryInserts :=
                 (fun subcategoryId => [userId; subcategoryId]) <$> subcategoryIds in
               _ ← await (query c (InsertValues "surveyors_services"
                                     ["surveyor_id"; "subcategory_id"])
                                subcategoryInserts);
               mret tt
             else mret tt);;
            await (commit c);;
            respond 200 "User services updated successfully.")
         (fun error =>
            rollback_connection;;
            console_error "Update User Services error:";;
            server_error "Server error updating user services." error))
      release_connection).

Definition updateUserServiceAreas (req : Request) : Async Response :=
  async None (
    finally
      (try_catch
         (let userId := req_param req "id" in
          let counties := array_field req "counties" in
          if negb (truthy userId) then respond 400 "User ID is required."
          else
            c ← await getConnection;
            set_local (Some c);;
            await (beginTransaction c);;
            _ ← await (execute c (Delete "surveyors_counties" [CEq "surveyor_id"])
                               [PVal userId]);
            countyIds ←
              match counties with
              | Some (n :: ns) =>
                  rows ← await (execute c
                    (Select ["id"] "counties" [CIn "name" (length (n :: ns))] None false)
                    ((fun s => PVal (JStr s)) <$> (n :: ns)));
                  mret ((fun r : row => col r "id") <$> result_rows rows)
              | _ => mret []
              end;
            (if (0 <? length countyIds)%nat then
               let countyInserts := (fun countyId => [userId; countyId]) <$> countyIds in
               _ ← await (query c (InsertValues "surveyors_counties"
                                     ["surveyor_id"; "county_id"])
                                countyInserts);
               mret tt
             else mret tt);;
            await (commit c);;
            respond 200 "User service areas updated successfully.")
         (fun error =>
            rollback_connection;;
            console_error "Update User Service Areas error:";;
            server_error "Server error updating user service areas." error))
      release_connection).

Definition deleteUser (req : Request) : Async Response :=
  async None (
    finally
      (try_catch
         (let userId := req_param req "id" in
          if negb (truthy userId) then respond 400 "User ID is required."
          else
            c ← await getConnection;
            set_local (Some c);;
            await (beginTransaction c);;
            _ ← await (execute c (Delete "surveyors_services" [CEq "surveyor_id"])
                               [PVal userId]);
            _ ← await (execute c (Delete "surveyors_counties" [CEq "surveyor_id"])
                               [PVal userId]);
            result ← await (execute c (Delete "surveyors" [CEq "id"]) [PVal userId]);
            if strict_eq (affectedRows result) (JNum 0) then
              await (rollback c);;
              respond 404 "User not found or already deleted."
            else
              await (commit c);;
              respond 200 "User account deleted successfully.")
         (fun error =>
            rollback_connection;;
            console_error "Delete User error:";;
            server_error "Server error deleting user account." error))
      release_connection).

End Handlers.

End Controllers.

(* ===================================================================== *)
(** ** backend/middleware and backend/routes *)
(* ===================================================================== *)

Module Middleware.
Import DatabaseService Controllers.

(** A middleware answers the request itself or calls [next()] with the
    request as it left it. *)
Definition middleware : Type := Request -> Async (Response + Request).

Definition next (req : Request) : Response + Request := inr req.

(** The middlewares of a route in order, then its handler. *)
Fixpoint run_route (mws : list middleware) (handler : Request -> Async Response)
  (req : Request) : Async Response :=
  match mws with
  | [] => handler req
  | mw :: rest =>
      fun w =>
        match mw req w with
        | (inr (inr req'), w') => run_route rest handler req' w'
        | (inr (inl res), w') => (inr res, w')
        | (inl e, w') => (inl e, w')
        end
  end.

(** *** middleware/auth.js *)

(** [s.split(' ')] *)
Fixpoint split_space (s : string) (cur : string) : list string :=
  match s with
  | EmptyString => [cur]
  | String a r =>
      if Ascii.eqb a " " then cur :: split_space r ""
      else split_space r (cur +:+ String a "")
  end.

(** [authHeader && authHeader.split(' ')[1]], [None] when falsy. *)
Definition bearer_token (authHeader : option string) : option string :=
  match authHeader with
  | Some h =>
      if String.eqb h "" then None
      else match split_space h "" !! 1%nat with
           | Some t => if String.eqb t "" then None else Some t
           | None => None
           end
  | None => None
  end.

Definition code_response (s : Z) (msg code : string) : Response :=
  mkResponse s msg [("code", JStr code)] [].

Definition set_user (req : Request) (u : jsval * jsval) : Request :=
  mkRequest (params req) (body req) (body_arrays req) (authorization req) (Some u)
            (validation req).

Section Auth.
Context `{SqlOrder} `{Jwt}.

Definition authenticateToken : middleware := fun req =>
  async None (
    try_catch
      (match bearer_token (authorization req) with
       | None => mret (inl (code_response 401 "Access token required" "MISSING_TOKEN"))
       | Some token =>
           decoded ← match jwt_verify token with
                     | inl e => throw e
                     | inr d => mret d
                     end;
           finally
             (c ← await getConnection;
              set_local (Some c);;
              users ← await (execute c (Select ["id"; "email"] "surveyors" [CEq "id"] None false)
                                     [PVal (fst decoded)]);
              if (length (result_rows users) =? 0)%nat then
                mret (inl (code_response 401 "User not found" "USER_NOT_FOUND"))
              else
                mret (next (set_user req (fst decoded, snd decoded))))
             release_connection
       end)
      (fun error =>
         match error with
         | JsonWebTokenError _ =>
             mret (inl (code_response 403 "Invalid token" "INVALID_TOKEN"))
         | TokenExpiredError _ =>
             mret (inl (code_response 401 "Token expired" "TOKEN_EXPIRED"))
         | _ =>
             console_error "Authentication error:";;
             mret (inl (code_response 500 "Authentication error" "AUTH_ERROR"))
         end)).

Definition optionalAuth : middleware := fun req =>
  async None (
    try_catch
      (match bearer_token (authorization req) with
       | Some token =>
           decoded ← match jwt_verify token with
                     | inl e => throw e
                     | inr d => mret d
                     end;
           finally
             (c ← await getConnection;
              set_local (Some c);;
              users ← await (execute c (Select ["id"; "email"] "surveyors" [CEq "id"] None false)
                                     [PVal (fst decoded)]);
              if (0 <? length (result_rows users))%nat then
                mret (next (set_user req (fst decoded, snd decoded)))
              else mret (next req))
             release_connection
       | None => mret (next req)
       end)
      (fun _ => mret (next req))).

(** [req.user?.id !== parseInt(req.params.id)] answers 403. *)
Definition checkResourceOwnership : middleware := fun req w =>
  let userIdFromToken :=
    match req_user req with
    | Some user => fst user
    | None => JUndefined
    end in
  let userIdFromParams :=
    match req_param req "id" with
    | JStr s => parseInt s
    | _ => None
    end in
  if strict_neq_num userIdFromToken userIdFromParams then
    (inr (inl (code_response 403 "Access denied: You can only access your own resources"
                 "ACCESS_DENIED")), w)
  else (inr (next req), w).

Definition authenticateAndOwnResource : list middleware :=
  [authenticateToken; checkResourceOwnership].

End Auth.

(** *** middleware/validation.js *)

(** express-validator's sanitizers and validators are the library's. *)
Class ExpressValidator : Type := {
  trim : jsval -> jsval;
  normalizeEmail : jsval -> jsval;
  isLength : option nat -> option nat -> jsval -> bool;
  isEmail : jsval -> bool;
  isMobilePhone : jsval -> bool;
  matches_case_digit : jsval -> bool;
  isInt_min1 : jsval -> bool;
  notEmpty : jsval -> bool
}.

(** One link of a validation chain. *)
Inductive step : Type :=
| Sanitize (f : jsval -> jsval)
| Validate (check : jsval -> bool) (msg : string)
| Custom (check : jsval -> Request -> bool) (msg : string).

Inductive location : Type := InBody | InParam.

(** [body(name)] or [param(name)], possibly [.optional()], then its links. *)
Record chain : Type := mkChain {
  chain_location : location;
  chain_field : string;
  chain_optional : bool;
  chain_steps : list step
}.

Definition read (loc : location) (name : string) (req : Request) : jsval :=
  match loc with
  | InBody => field req name
  | InParam => req_param req name
  end.

Definition store_sanitized (loc : location) (name : string) (v : jsval) (req : Request)
  : Request :=
  match loc with
  | InBody =>
      mkRequest (params req) (<[name := v]> (body req)) (body_arrays req)
                (authorization req) (req_user req) (validation req)
  | InParam => req
  end.

Definition add_error (name msg : string) (req : Request) : Request :=
  mkRequest (params req) (body req) (body_arrays req) (authorization req) (req_user req)
            (validation req ++ [(name, msg)]).

Definition run_step (loc : location) (name : string) (st : step) (req : Request) : Request :=
  let v := read loc name req in
  match st with
  | Sanitize f => store_sanitized loc name (f v) req
  | Validate check msg => if check v then req else add_error name msg req
  | Custom check msg => if check v req then req else add_error name msg req
  end.

(** What a chain makes of the request: an optional chain skips an
    [undefined] field; otherwise every link runs in turn. *)
Definition apply_chain (ch : chain) (req : Request) : Request :=
  if chain_optional ch
     && bool_decide (read (chain_location ch) (chain_field ch) req = JUndefined)
  then req
  else foldl (fun r st => run_step (chain_location ch) (chain_field ch) st r)
             req (chain_steps ch).

(** A chain as a middleware: it always calls [next()]. *)
Definition run_chain (ch : chain) : middleware := fun req w =>
  (inr (next (apply_chain ch req)), w).

Definition apply_chains (chs : list chain) (req : Request) : Request :=
  foldl (fun r ch => apply_chain ch r) req chs.

Definition handleValidationErrors : middleware := fun req w =>
  if bool_decide (validation req = []) then (inr (next req), w)
  else (inr (inl (mkResponse 400 "Validation failed"
                    ((fun e => (fst e, JStr (snd e))) <$> validation req) [])), w).

Section Validation.
Context `{ExpressValidator}.

Definition text_between (name : string) (lo hi : nat) (optional : bool) (msg : string)
  : chain :=
  mkChain InBody name optional [Sanitize trim; Validate (isLength (Some lo) (Some hi)) msg].

Definition user_id_chain : chain :=
  mkChain InParam "id" false [Validate isInt_min1 "User ID must be a positive integer"].

Definition password_chain (name what : string) : chain :=
  mkChain InBody name false
    [Validate (isLength (Some 8%nat) None) (what +:+ " must be at least 8 characters long");
     Validate matches_case_digit
       (what +:+ " must contain at least one lowercase letter, one uppercase letter, and one number")].

Definition email_chain (optional : bool) : chain :=
  mkChain InBody "email" optional
    [Validate isEmail "Please provide a valid email address"; Sanitize normalizeEmail].

Definition phone_chain : chain :=
  mkChain InBody "phone" true [Validate isMobilePhone "Please provide a valid phone number"].

Definition company_chain : chain :=
  mkChain InBody "companyName" true
    [Sanitize trim;
     Validate (isLength None (Some 100%nat)) "Company name must be less than 100 characters"].

Definition registration_chains : list chain :=
  [text_between "firstName" 1 50 false "First name must be between 1 and 50 characters";
   text_between "lastName" 1 50 false "Last name must be between 1 and 50 characters";
   email_chain false;
   password_chain "password" "Password";
   mkChain InBody "confirmPassword" false
     [Custom (fun value req => strict_eq value (field req "password"))
             "Passwords do not match"];
   phone_chain;
   text_between "address" 1 200 false "Address must be between 1 and 200 characters";
   text_between "city" 1 100 false "City must be between 1 and 100 characters";
   text_between "state" 2 2 false "State must be a 2-character state code";
   text_between "zipCode" 5 10 false "Zip code must be between 5 and 10 characters";
   company_chain].

Definition validateRegistration : list middleware :=
  (run_chain <$> registration_chains) ++ [handleValidationErrors].

Definition validateLogin : list middleware :=
  (run_chain <$>
     [email_chain false;
      mkChain InBody "password" false [Validate notEmpty "Password is required"]])
  ++ [handleValidationErrors].

Definition validateUserId : list middleware :=
  [run_chain user_id_chain; handleValidationErrors].

Definition profile_update_chains : list chain :=
  [user_id_chain;
   text_between "firstName" 1 50 true "First name must be between 1 and 50 characters";
   text_between "lastName" 1 50 true "Last name must be between 1 and 50 characters";
   email_chain true;
   phone_chain;
   text_between "address" 1 200 true "Address must be between 1 and 200 characters";
   text_between "city" 1 100 true "City must be between 1 and 100 characters";
   text_between "state" 2 2 true "State must be a 2-character state code";
   text_between "zipCode" 5 10 true "Zip code must be between 5 and 10 characters";
   company_chain].

Definition validateUserProfileUpdate : list middleware :=
  (run_chain <$> profile_update_chains) ++ [handleValidationErrors].

Definition validatePasswordChange : list middleware :=
  (run_chain <$>
     [user_id_chain;
      mkChain InBody "currentPassword" false
        [Validate notEmpty "Current password is required"];
      password_chain "newPassword" "New password"])
  ++ [handleValidationErrors].

End Validation.

(** *** routes *)

Section Routes.
Context `{SqlOrder} `{Bcrypt} `{Jwt} `{ExpressValidator}.

(** registrationRoutes.js: [POST /register-user] *)
Definition register_user_route : Request -> Async Response :=
  run_route validateRegistration registerUser.

(** authRoutes.js: [POST /login] *)
Definition login_route : Request -> Async Response :=
  run_route validateLogin loginUser.

(** userProfileRoutes.js *)
Definition get_profile_route : Request -> Async Response :=
  run_route (validateUserId ++ authenticateAndOwnResource) getUserProfile.

Definition put_info_route : Request -> Async Response :=
  run_route (validateUserId ++ validateUserProfileUpdate ++ authenticateAndOwnResource)
            updateUserInfo.

Definition patch_password_route : Request -> Async Response :=
  run_route (validateUserId ++ validatePasswordChange ++ authenticateAndOwnResource)
            changeUserPassword.

Definition put_services_route : Request -> Async Response :=
  run_route (validateUserId ++ authenticateAndOwnResource) updateUserServices.

Definition put_areas_route : Request -> Async Response :=
  run_route (validateUserId ++ authenticateAndOwnResource) updateUserServiceAreas.

Definition delete_profile_route : Request -> Async Response :=
  run_route (validateUserId ++ authenticateAndOwnResource) deleteUser.

End Routes.

(** *** middleware/errorHandler.js *)

(** An error object as [errorHandler] reads it: [err.name], [err.message],
    [err.stack], [err.code] and [err.statusCode] ([undefined] when not
    set), and [err.errors] when it is an array. *)
Record JsError : Type := mkError {
  err_name : string;
  err_message : string;
  err_stack : string;
  err_code : jsval;
  err_statusCode : jsval;
  err_isOperational : bool;
  err_errors : option (list jsval)
}.

(** What the handlers read of the request line. *)
Record RequestLine : Type := mkRequestLine {
  req_url : string;
  req_method : string;
  req_ip : string
}.

(** The custom error classes.  None of the constructors assigns [name],
    so an instance reads [Error.prototype.name], which is ["Error"];
    [stack] is what [Error.captureStackTrace] recorded.  An argument left
    out takes the default of the constructor. *)
Definition AppError (message : string) (statusCode : option Z) (code : option string)
  (stack : string) : JsError :=
  mkError "Error" message stack (JStr (default "APP_ERROR" code))
          (JNum (default 500 statusCode)) true None.

Definition with_errors (e : JsError) (errors : list jsval) : JsError :=
  mkError (err_name e) (err_message e) (err_stack e) (err_code e) (err_statusCode e)
          (err_isOperational e) (Some errors).

Definition ValidationError (message : string) (errors : option (list jsval))
  (stack : string) : JsError :=
  with_errors (AppError message (Some 400) (Some "VALIDATION_ERROR") stack)
              (default [] errors).

Definition UnauthorizedError (message : option string) (stack : string) : JsError :=
  AppError (default "Unauthorized access" message) (Some 401) (Some "UNAUTHORIZED") stack.

Definition ForbiddenError (message : option string) (stack : string) : JsError :=
  AppError (default "Access forbidden" message) (Some 403) (Some "FORBIDDEN") stack.

Definition NotFoundError (message : option string) (stack : string) : JsError :=
  AppError (default "Resource not found" message) (Some 404) (Some "NOT_FOUND") stack.

Definition ConflictError (message : option string) (stack : string) : JsError :=
  AppError (default "Resource conflict" message) (Some 409) (Some "CONFLICT") stack.

(** The status, message and code [errorHandler] settles on: the name
    of the error first, then its code. *)
Definition classify (err : JsError) : Z * string * string :=
  if String.eqb (err_name err) "ValidationError" then
    (400, "Validation failed", "VALIDATION_ERROR")
  else if String.eqb (err_name err) "UnauthorizedError" then
    (401, "Unauthorized access", "UNAUTHORIZED")
  else if String.eqb (err_name err) "ForbiddenError" then
    (403, "Access forbidden", "FORBIDDEN")
  else if String.eqb (err_name err) "NotFoundError" then
    (404, "Resource not found", "NOT_FOUND")
  else if String.eqb (err_name err) "ConflictError" then
    (409, "Resource conflict", "CONFLICT")
  else if strict_eq (err_code err) (JStr "ER_DUP_ENTRY") then
    (409, "Resource already exists", "DUPLICATE_ENTRY")
  else if strict_eq (err_code err) (JStr "ER_NO_REFERENCED_ROW_2") then
    (400, "Referenced resource does not exist", "FOREIGN_KEY_ERROR")
  else if strict_eq (err_code err) (JStr "ECONNREFUSED") then
    (503, "Database connection failed", "DATABASE_CONNECTION_ERROR")
  else if strict_eq (err_code err) (JStr "ER_ACCESS_DENIED_ERROR") then
    (503, "Database access denied", "DATABASE_ACCESS_ERROR")
  else (500, "Internal server error", "INTERNAL_ERROR").

(** [errorHandler(err, req, res, next)]; [node_env] is
    [process.env.NODE_ENV] and [timestamp] what
    [new Date().toISOString()] gives for the response. *)
Definition errorHandler (node_env : option string) (timestamp : string) (err : JsError)
  (rl : RequestLine) (w : World) : Response * World :=
  let w1 := log (ConsoleError "Error occurred:") w in
  let '(statusCode, message, code) := classify err in
  let errorResponse :=
    [("code", JStr code); ("timestamp", JStr timestamp); ("path", JStr (req_url rl))] in
  let errorResponse :=
    if bool_decide (node_env = Some "development")
    then errorResponse ++ [("stack", JStr (err_stack err));
                           ("details", JStr (err_message err))]
    else errorResponse in
  let validationErrors :=
    match err_errors err with
    | Some errors => [("validationErrors", errors)]
    | None => []
    end in
  (mkResponse statusCode message errorResponse validationErrors, w1).

(** [notFoundHandler(req, res)] *)
Definition notFoundHandler (timestamp : string) (rl : RequestLine) : Response :=
  mkResponse 404 "Route not found"
    [("code", JStr "ROUTE_NOT_FOUND"); ("path", JStr (req_url rl));
     ("method", JStr (req_method rl)); ("timestamp", JStr timestamp)] [].

End Middleware.

(* ===================================================================== *)
(** ** Observations used in the statements *)
(* ===================================================================== *)

Module Observe.
Import DatabaseService Controllers Middleware.

(** A schedule without faults. *)
Definition quiet (fs : list bool) : Prop := Forall (fun b => b = false) fs.




Definition is_acquire (e : event) : bool :=
  match e with Call GetConnection _ true => true | _ => false end.


Definition acquisitions (w : World) : nat := length (List.filter is_acquire (trace w)).


(** A step threw after a transaction had begun.  A driver call that
    throws is logged as such.  A step that reaches neither the pool nor the
    store (bcrypt refusing to hash or to compare) logs nothing of its own:
    its throw is seen when the [catch] block reports it, the handlers
    calling [console.error] there and nowhere else. *)
Fixpoint failed_after_begin (chron : list event) (begun : bool) : bool :=
  match chron with
  | [] => false
  | Call BeginTransaction _ true :: rest => failed_after_begin rest true
  | Call _ _ false :: rest => begun || failed_after_begin rest begun
  | ConsoleError _ :: rest => begun || failed_after_begin rest begun
  | _ :: rest => failed_after_begin rest begun
  end.

Definition step_failed_in_transaction (w : World) : bool :=
  failed_after_begin (rev (trace w)) false.

(** The most recent commit or rollback issued, if any. *)
Fixpoint last_control (tr : list event) : option call :=
  match tr with
  | [] => None
  | Call Commit _ _ :: _ => Some Commit
  | Call Rollback _ _ :: _ => Some Rollback
  | _ :: rest => last_control rest
  end.

Definition status_of (r : exn + Response) : option Z :=
  match r with
  | inr res => Some (status res)
  | inl _ => None
  end.

(** What a failed multi-step write must leave behind: the committed
    store [db] it started from, no open transaction, a rollback as the last
    word on the transaction, and an error answer (status 500, or no
    answer at all when the handler's promise is rejected). *)
Definition rolled_back (db : Store) (out : (exn + Response) * World) : Prop :=
  committed out.2 = db /\ session out.2 = None
  /\ last_control (trace out.2) = Some Rollback
  /\ (status_of out.1 = None \/ status_of out.1 = Some 500).

(** [beginTransaction] returned on some connection. *)
Definition transaction_begun (w : World) : bool :=
  existsb (fun e => match e with Call BeginTransaction _ true => true | _ => false end)
          (trace w).

(** The caller got a 2xx answer. *)
Definition succeeded (r : exn + Response) : bool :=
  match r with
  | inr res => (200 <=? status res) && (status res <? 300)
  | inl _ => false
  end.

(** What every call of a multi-step write must satisfy:
    - a step that threw after the transaction had begun leaves the world
      [rolled_back];
    - whatever the reason, a call that does not end in a 2xx answer leaves
      the committed store as it was, and has issued a rollback last when
      its transaction had begun;
    - no transaction is left open. *)
Definition rolls_back_on_failure (db : Store) (out : (exn + Response) * World) : Prop :=
  (step_failed_in_transaction out.2 = true -> rolled_back db out)
  /\ (succeeded out.1 = false ->
      committed out.2 = db
      /\ (transaction_begun out.2 = true -> last_control (trace out.2) = Some Rollback))
  /\ session out.2 = None.

(** *** The store-touching operations *)

Inductive operation : Type :=
| OpExecuteQuery (q : sql) (ps : list param)
| OpExecuteTransaction (stmts : list (sql * list param))
| OpFindById (table : string) (id : jsval) (cols : list string)
| OpFindByField (table field : string) (value : jsval) (cols : list string)
| OpInsert (table : string) (data : list (string * jsval))
| OpUpdateById (table : string) (id : jsval) (data : list (string * jsval))
| OpDeleteById (table : string) (id : jsval)
| OpExistsByField (table field : string) (value : jsval)
| OpPaginate (table : string) (page limit : Z) (options : PaginateOptions)
| OpBatchInsert (table : string) (records : option (list (list (string * jsval))))
| OpLoginUser (req : Request)
| OpRegisterUser (req : Request)
| OpGetUserProfile (req : Request)
| OpUpdateUserInfo (req : Request)
| OpChangeUserPassword (req : Request)
| OpUpdateUserServices (req : Request)
| OpUpdateUserServiceAreas (req : Request)
| OpDeleteUser (req : Request)
| OpAuthenticateToken (req : Request)
| OpOptionalAuth (req : Request).

(** The six multi-step writes. *)
Inductive writer : Type :=
| ReplaceServices | ReplaceCounties | Registration | ProfileInfo | PasswordChange
| AccountDeletion.

(** The two replace-associations calls. *)
Inductive association : Type := Services | Counties.

Definition assoc_table (a : association) : string :=
  match a with Services => "surveyors_services" | Counties => "surveyors_counties" end.

Definition ref_table (a : association) : string :=
  match a with Services => "service_subcategories" | Counties => "counties" end.

Definition ref_column (a : association) : string :=
  match a with Services => "subcategory_id" | Counties => "county_id" end.

Definition names_field (a : association) : string :=
  match a with Services => "subservices" | Counties => "counties" end.

Section Operations.
Context `{SqlOrder} `{Bcrypt} `{Jwt}.

(** A transaction callback that runs the given statements in order on
    the connection it receives. *)
Fixpoint statements (stmts : list (sql * list param)) (c : nat) : Async (list result) :=
  match stmts with
  | [] => fun w => (inr [], w)
  | (q, ps) :: rest =>
      fun w =>
        match execute c q ps w with
        | (inr r, w') =>
            match statements rest c w' with
            | (inr rs, w'') => (inr (r :: rs), w'')
            | (inl e, w'') => (inl e, w'')
            end
        | (inl e, w') => (inl e, w')
        end
  end.

Definition run_operation (op : operation) (w : World) : World :=
  match op with
  | OpExecuteQuery q ps => (executeQuery q ps w).2
  | OpExecuteTransaction stmts => (executeTransaction (statements stmts) w).2
  | OpFindById t i cols => (findById t i cols w).2
  | OpFindByField t f v cols => (findByField t f v cols w).2
  | OpInsert t d => (insert t d w).2
  | OpUpdateById t i d => (updateById t i d w).2
  | OpDeleteById t i => (deleteById t i w).2
  | OpExistsByField t f v => (existsByField t f v w).2
  | OpPaginate t p l o => (paginate t p l o w).2
  | OpBatchInsert t rs => (batchInsert t rs w).2
  | OpLoginUser req => (loginUser req w).2
  | OpRegisterUser req => (registerUser req w).2
  | OpGetUserProfile req => (getUserProfile req w).2
  | OpUpdateUserInfo req => (updateUserInfo req w).2
  | OpChangeUserPassword req => (changeUserPassword req w).2
  | OpUpdateUserServices req => (updateUserServices req w).2
  | OpUpdateUserServiceAreas req => (updateUserServiceAreas req w).2
  | OpDeleteUser req => (deleteUser req w).2
  | OpAuthenticateToken req => (authenticateToken req w).2
  | OpOptionalAuth req => (optionalAuth req w).2
  end.

Definition run_writer (k : writer) : Request -> Async Response :=
  match k with
  | ReplaceServices => updateUserServices
  | ReplaceCounties => updateUserServiceAreas
  | Registration => registerUser
  | ProfileInfo => updateUserInfo
  | PasswordChange => changeUserPassword
  | AccountDeletion => deleteUser
  end.

Definition replace_associations (a : association) : Request -> Async Response :=
  match a with
  | Services => updateUserServices
  | Counties => updateUserServiceAreas
  end.

End Operations.


(** *** Reading the store *)

(** The association rows of user [u]. *)
Definition owned_by (u : Z) (r : row) : bool :=
  bool_decide (col r "surveyor_id" = JNum u).

Definition associations_of (db : Store) (tbl : string) (u : Z) : table :=
  List.filter (owned_by u) (rows_of db tbl).

(** The ids of the reference rows whose name is one of [names], in table
    order. *)
Definition named (names : list string) (r : row) : bool :=
  bool_decide (col r "name" ∈ JStr <$> names).

Definition resolved (db : Store) (ref : string) (names : list string) : list jsval :=
  (fun r : row => col r "id") <$> List.filter (named names) (rows_of db ref).

Definition pair_row (a : association) (u : Z) (id : jsval) : row :=
  {[ "surveyor_id" := JNum u; ref_column a := to_column (ref_column a) id ]}.

(** The surveyor rows a [WHERE email = ?] selects. *)
Definition rows_with_email (db : Store) (email : jsval) : table :=
  List.filter (fun r : row => col_eqb "email" (col r "email") email) (rows_of db "surveyors").

(** The rows a [WHERE k1 = ? AND ...] built from an object selects. *)
Definition matches (o : list (string * jsval)) (r : row) : bool :=
  forallb (fun kv : string * jsval => col_eqb kv.1 (col r kv.1) kv.2) o.

(** The store's row for the path id [userId]. *)
Definition rows_with_id (db : Store) (userId : jsval) : table :=
  List.filter (fun r : row => col_eqb "id" (col r "id") userId) (rows_of db "surveyors").

(** Every county association refers to a surveyor row. *)
Definition county_links_resolve (db : Store) : Prop :=
  forall r, r ∈ rows_of db "surveyors_counties" ->
    exists u, u ∈ rows_of db "surveyors" /\ col r "surveyor_id" = col u "id".

(** The registration body passes the handler's own two checks. *)
Definition registration_checks (req : Request) : bool :=
  forallb (fun k => truthy (field req k))
    ["email"; "password"; "confirmPassword"; "firstName"; "lastName"; "address";
     "city"; "state"; "zipCode"]
  && strict_eq (field req "password") (field req "confirmPassword").

(** The columns and the bind list of the registration INSERT for a
    password [p]. *)
Definition registration_columns : list string :=
  ["first_name"; "last_name"; "address"; "town"; "state"; "zip_code"; "phone"; "email";
   "password"; "company_name"].

Definition registration_values `{Bcrypt} (req : Request) (p : string) : list jsval :=
  [field req "firstName"; field req "lastName"; field req "address"; field req "city";
   field req "state"; field req "zipCode"; field req "phone"; field req "email";
   JStr (bcrypt_hash p); js_or (field req "companyName") JNull].

(** None of the default county names has a row in [counties]. *)
Definition no_default_county (db : Store) : Prop :=
  List.filter (named defaultCountyNames) (rows_of db "counties") = [].

Definition default_counties_warning : string :=
  "Could not find default counties (Boulder, Broomfield, Gilpin) in the database. No counties assigned.".

(** A link of a chain that rewrites the field. *)
Definition is_sanitizer (st : step) : bool :=
  match st with Sanitize _ => true | _ => false end.

(** A chain leaves the body field [k] alone unless it is a chain on
    that field with a sanitizer. *)
Definition spares (k : string) (ch : chain) : Prop :=
  chain_field ch <> k
  \/ forallb (fun st => negb (is_sanitizer st)) (chain_steps ch) = true.

(** The bind list of the profile UPDATE, and its nine columns. *)
Definition profile_columns : list string :=
  ["first_name"; "last_name"; "company_name"; "email"; "phone"; "address"; "town";
   "state"; "zip_code"].

Definition profile_values (req : Request) : list jsval :=
  [field req "firstName"; field req "lastName"; js_or (field req "companyName") JNull;
   field req "email"; js_or (field req "phone") JNull; field req "address";
   field req "city"; field req "state"; field req "zipCode"].

(** The body fields the profile UPDATE binds as they come. *)
Definition mandatory_fields : list string :=
  ["firstName"; "lastName"; "email"; "address"; "city"; "state"; "zipCode"].

(** What the profile UPDATE makes of a row. *)
Definition update_row (req : Request) (userId : jsval) (r : row) : row :=
  if col_eqb "id" (col r "id") userId
  then set_columns profile_columns (profile_values req) r
  else r.

(** The [where] option of [paginate] that yields a statement the store
    can run: absent, or an object with at least one key and no
    [undefined] value. *)
Definition where_ok (w : option (list (string * jsval))) : Prop :=
  match w with
  | None => True
  | Some o => o <> [] /\ Forall (fun kv : string * jsval => kv.2 <> JUndefined) o
  end.

Definition where_object (w : option (list (string * jsval))) : list (string * jsval) :=
  default [] w.

Definition order_clause (o : option string) : option string :=
  match o with
  | Some s => if String.eqb s "" then None else Some s
  | None => None
  end.

Definition ordered `{SqlOrder} (o : option string) (t : table) : table :=
  match order_clause o with
  | Some s => order_by s t
  | None => t
  end.

(** The ownership test of the gate, read off the request. *)
Definition token_id (req : Request) : jsval :=
  match req_user req with
  | Some user => user.1
  | None => JUndefined
  end.

Definition path_id (req : Request) : option Z :=
  match params req !! "id" with
  | Some s => parseInt s
  | None => None
  end.

Definition owner (req : Request) : Prop :=
  exists n, token_id req = JNum n /\ path_id req = Some n.

(** What the validation middlewares leave untouched. *)
Definition same_identity (req req' : Request) : Prop :=
  params req' = params req /\ authorization req' = authorization req
  /\ req_user req' = req_user req.

(** Middlewares that only validate: chains and [handleValidationErrors]. *)
Definition validation_only (pre : list middleware) : Prop :=
  Forall (fun mw => mw = handleValidationErrors \/ exists ch, mw = run_chain ch) pre.

(** The bearer token of the request does not carry the id of the path. *)
Definition token_mismatch `{Jwt} (req : Request) : Prop :=
  forall t uid e n,
    bearer_token (authorization req) = Some t -> jwt_verify t = inr (uid, e) ->
    uid = JNum n -> path_id req <> Some n.

Definition forbidden : Response :=
  code_response 403 "Access denied: You can only access your own resources" "ACCESS_DENIED".

(** *** Observations on the further properties *)
(** The statuses, and the fixed messages, [errorHandler] can answer. *)
Definition error_statuses : list Z := [400; 401; 403; 404; 409; 500; 503].

Definition error_messages : list string :=
  ["Validation failed"; "Unauthorized access"; "Access forbidden"; "Resource not found";
   "Resource conflict"; "Resource already exists"; "Referenced resource does not exist";
   "Database connection failed"; "Database access denied"; "Internal server error"].

Inductive custom_error : Type :=
| NewValidationError (message : string) (errors : option (list jsval))
| NewUnauthorizedError (message : option string)
| NewForbiddenError (message : option string)
| NewNotFoundError (message : option string)
| NewConflictError (message : option string).

(** [new C(...)] for each subclass [C] of [AppError]. *)
Definition construct (c : custom_error) (stack : string) : JsError :=
  match c with
  | NewValidationError m errors => ValidationError m errors stack
  | NewUnauthorizedError m => UnauthorizedError m stack
  | NewForbiddenError m => ForbiddenError m stack
  | NewNotFoundError m => NotFoundError m stack
  | NewConflictError m => ConflictError m stack
  end.

(** The status the class gives its instances. *)
Definition class_status (c : custom_error) : Z :=
  match c with
  | NewValidationError _ _ => 400
  | NewUnauthorizedError _ => 401
  | NewForbiddenError _ => 403
  | NewNotFoundError _ => 404
  | NewConflictError _ => 409
  end.

(** Statements that only read. *)
Definition reads_only (q : sql) : bool :=
  match q with
  | Insert _ _ | Update _ _ _ | Delete _ _ => false
  | _ => true
  end.

(** Operations that issue reading statements only. *)
Definition read_operation (op : operation) : bool :=
  match op with
  | OpExecuteQuery q _ => reads_only q
  | OpFindById _ _ _ | OpFindByField _ _ _ _ | OpExistsByField _ _ _ | OpPaginate _ _ _ _
  | OpBatchInsert _ _
  | OpLoginUser _ | OpGetUserProfile _ | OpAuthenticateToken _ | OpOptionalAuth _ => true
  | _ => false
  end.

(** What [process.env.JWT_EXPIRES_IN || '24h'] amounts to: the variable
    when it is set to a text that is not empty, ['24h'] otherwise. *)
Definition expires_in `{Jwt} : string :=
  match JWT_EXPIRES_IN with
  | Some (String a s) => String a s
  | _ => "24h"
  end.

(** A word: a string without a space. *)
Fixpoint spaceless (s : string) : bool :=
  match s with
  | EmptyString => true
  | String a r => negb (Ascii.eqb a " ") && spaceless r
  end.

(** What the password UPDATE makes of a row. *)
Definition set_password (userId : jsval) (hash : string) (r : row) : row :=
  if col_eqb "id" (col r "id") userId then <["password" := JStr hash]> r else r.

(** The rows of [surveyors] that do not carry the id [userId]. *)
Definition rows_without_id (db : Store) (userId : jsval) : table :=
  List.filter (fun r : row => negb (col_eqb "id" (col r "id") userId)) (rows_of db "surveyors").

(** The store after the three DELETEs of an account deletion. *)
Definition without_account (db : Store) (s : string) : Store :=
  <["surveyors" := rows_without_id db (JStr s)]>
    (<["surveyors_counties" :=
         List.filter (fun r => negb (owned_by (sql_int s) r)) (rows_of db "surveyors_counties")]>
       (<["surveyors_services" :=
            List.filter (fun r => negb (owned_by (sql_int s) r))
                        (rows_of db "surveyors_services")]> db)).

(** The columns of the profile page. *)
Definition page_columns : list string :=
  ["id"; "first_name"; "last_name"; "company_name"; "email"; "phone"; "address"; "town";
   "state"; "zip_code"].

(** The names of the counties linked to the user [u], one per link, in
    the order of the [counties] table. *)
Definition linked_counties (db : Store) (u : jsval) : list jsval :=
  c ← rows_of db "counties";
  sc ← List.filter (fun r : row => col_eqb "county_id" (col r "county_id") (col c "id")
                                   && col_eqb "surveyor_id" (col r "surveyor_id") u)
                   (rows_of db "surveyors_counties");
  [col c "name"].

(** The names of the subcategories linked to the user [u] that belong
    to a category, one per link. *)
Definition linked_subservices (db : Store) (u : jsval) : list jsval :=
  ss ← List.filter (fun r : row => col_eqb "surveyor_id" (col r "surveyor_id") u)
                   (rows_of db "surveyors_services");
  ssc ← List.filter (fun r : row => col_eqb "id" (col r "id") (col ss "subcategory_id"))
                    (rows_of db "service_subcategories");
  sc ← List.filter (fun r : row => col_eqb "id" (col r "id") (col ssc "category_id"))
                   (rows_of db "service_categories");
  [col ssc "name"].

Definition array_property (res : Response) (k : string) : list jsval :=
  default [] (snd <$> List.find (fun kv => String.eqb (fst kv) k) (arrays res)).

Section Apply.
Context `{SqlOrder}.

(** The statements run one after the other on a store, when the store
    accepts each of them. *)
Fixpoint apply_statements (stmts : list (sql * list param)) (db : Store)
  : option (list result * Store) :=
  match stmts with
  | [] => Some ([], db)
  | (q, ps) :: rest =>
      '(r, db1) ← run_prepared q ps db;
      '(rs, db2) ← apply_statements rest db1;
      Some (r :: rs, db2)
  end.

End Apply.

(** The rows of [table] whose column [field] equals [v], as a
    [WHERE field = ?] selects them. *)
Definition rows_where (db : Store) (table field : string) (v : jsval) : list row :=
  List.filter (fun r : row => col_eqb field (col r field) v) (rows_of db table).

Definition undefined_parameter : exn :=
  TypeError "Bind parameters must not contain undefined. To pass SQL NULL specify JS null".

Section ProfileRoutes.
Context `{SqlOrder} `{Bcrypt} `{Jwt} `{ExpressValidator}.

(** The six routes of userProfileRoutes.js. *)
Definition user_profile_routes : list (Request -> Async Response) :=
  [get_profile_route; put_info_route; patch_password_route; put_services_route;
   put_areas_route; delete_profile_route].

End ProfileRoutes.

(** The answer of [handleValidationErrors] to a path id that is not a
    positive integer. *)
Definition invalid_id_response : Response :=
  mkResponse 400 "Validation failed" [("id", JStr "User ID must be a positive integer")] [].

(** A decimal digit, and a decimal digit other than 0. *)
Definition is_digit (a : ascii) : bool :=
  (48 <=? Z.of_nat (nat_of_ascii a)) && (Z.of_nat (nat_of_ascii a) <=? 57).

Definition is_nonzero_digit (a : ascii) : bool :=
  (49 <=? Z.of_nat (nat_of_ascii a)) && (Z.of_nat (nat_of_ascii a) <=? 57).

Fixpoint all_digits (s : string) : bool :=
  match s with
  | EmptyString => true
  | String a r => is_digit a && all_digits r
  end.

(** The rest of a string at which reading decimal digits stops. *)
Definition stops_digits (t : string) : bool :=
  match t with
  | EmptyString => true
  | String a _ => negb (is_digit a)
  end.

(** The ids of a reference table are numbers and identify its rows. *)
Definition keyed_by_id (t : table) : Prop :=
  (forall c, In c t -> exists i, col c "id" = JNum i)
  /\ (forall c c', In c t -> In c' t -> col c "id" = col c' "id" -> c = c').

End Observe.
Export Observe.

(* ===================================================================== *)
(** ** Concrete libraries and stores for the worked examples *)
(* ===================================================================== *)

Module Examples.
Import DatabaseService Controllers Middleware.

(** A store that returns rows in table order. *)
Definition table_order : SqlOrder :=
  {| order_by := fun _ t => t; order_by_perm := fun _ t => reflexivity t |}.

Definition prefix_bcrypt : Bcrypt :=
  {| bcrypt_hash := fun s => "$2a$10$" +:+ s;
     bcrypt_compare := fun p h => String.eqb h ("$2a$10$" +:+ p) |}.

(** Tokens of the form [tok<digits>] carry that user id. *)
Definition toy_jwt : Jwt :=
  {| JWT_EXPIRES_IN := None;
     jwt_sign := fun _ _ => "tok";
     jwt_verify := fun t =>
       match t with
       | String "t" (String "o" (String "k" r)) =>
           match parseInt r with
           | Some n => inr (JNum n, JStr "user@example.org")
           | None => inl (JsonWebTokenError "jwt malformed")
           end
       | _ => inl (JsonWebTokenError "jwt malformed")
       end |}.

Definition lenient_validator : ExpressValidator :=
  {| trim := fun v => v;
     normalizeEmail := fun v => v;
     isLength := fun _ _ _ => true;
     isEmail := fun _ => true;
     isMobilePhone := fun _ => true;
     matches_case_digit := fun _ => true;
     isInt_min1 := fun v => match v with
                            | JStr s => match parseInt s with
                                        | Some n => 1 <=? n
                                        | None => false
                                        end
                            | _ => false
                            end;
     notEmpty := fun v => truthy v |}.

Definition county (i : Z) (n : string) : row := {[ "id" := JNum i; "name" := JStr n ]}.

Definition subcategory (i : Z) (n : string) : row := {[ "id" := JNum i; "name" := JStr n ]}.

Definition surveyor (i : Z) (first last email : string) : row :=
  list_to_map
    [("id", JNum i); ("first_name", JStr first); ("last_name", JStr last);
     ("company_name", JStr "Acme Surveying"); ("email", JStr email);
     ("phone", JStr "3035550100"); ("address", JStr "1 Pearl St"); ("town", JStr "Boulder");
     ("state", JStr "CO"); ("zip_code", JStr "80302"); ("password", JStr "$2a$10$Secret123")].

Definition link (col_name : string) (u i : Z) : row :=
  {[ "surveyor_id" := JNum u; col_name := JNum i ]}.

(** One surveyor (id 21) with two services and one county. *)
Definition db1 : Store :=
  list_to_map
    [("surveyors", [surveyor 21 "Ann" "Lee" "ann@example.org"]);
     ("counties", [county 1 "Adams"; county 2 "Boulder"; county 3 "Gilpin"]);
     ("service_subcategories",
      [subcategory 1 "BIM Consulting"; subcategory 62 "ALTA Survey";
       subcategory 67 "ALTA/NSPS Land Title Survey"]);
     ("surveyors_services", [link "subcategory_id" 21 1; link "subcategory_id" 21 67]);
     ("surveyors_counties", [link "county_id" 21 2])].

(** The same store without any of the default counties. *)
Definition db_no_defaults : Store :=
  <["counties" := [county 1 "Adams"; county 4 "Denver"]]> db1.

(** A table of 25 rows. *)
Definition db25 : Store :=
  {[ "counties" := (fun i => county (Z.of_nat i) "County") <$> seq 1 25 ]}.

Definition request (id : option string) (fields : list (string * jsval))
  (lists : list (string * list string)) (auth : option string) : Request :=
  mkRequest (match id with Some s => {[ "id" := s ]} | None => ∅ end)
            (list_to_map fields) (list_to_map lists) auth None [].

Definition registration (email password confirm : string) : Request :=
  request None
    [("firstName", JStr "Bo"); ("lastName", JStr "Ray"); ("email", JStr email);
     ("password", JStr password); ("confirmPassword", JStr confirm);
     ("phone", JStr "3035550111"); ("address", JStr "2 Main St"); ("city", JStr "Golden");
     ("state", JStr "CO"); ("zipCode", JStr "80401")]
    [] None.

(** The owner's profile update without [firstName], the same with it,
    and a services update with one known and one unknown name. *)
Definition profile_body_without_first_name : list (string * jsval) :=
  [("lastName", JStr "Lee"); ("companyName", JStr "Lee Surveying");
   ("email", JStr "ann@example.org"); ("phone", JStr "3035550100");
   ("address", JStr "1 Pearl St"); ("city", JStr "Boulder"); ("state", JStr "CO");
   ("zipCode", JStr "80302")].

Definition put_info_request : Request :=
  request (Some "21") profile_body_without_first_name [] (Some "Bearer tok21").

Definition put_info_full : Request :=
  request (Some "21") (("firstName", JStr "Anna") :: profile_body_without_first_name) []
          (Some "Bearer tok21").

Definition services_request : Request :=
  request (Some "21") [] [("subservices", ["ALTA Survey"; "Drone Mapping"])]
          (Some "Bearer tok21").

(** A complete profile update for an id without a row, and a request
    as [authenticateToken] leaves it for the owner of path id 21. *)
Definition unknown_user_request : Request :=
  request (Some "99") (("firstName", JStr "Anna") :: profile_body_without_first_name) []
          (Some "Bearer tok99").

Definition owned_request : Request :=
  mkRequest {[ "id" := "21" ]} ∅ ∅ (Some "Bearer tok21")
            (Some (JNum 21, JStr "ann@example.org")) [].

Definition anonymous_request : Request := request (Some "21") [] [] None.

(** Ann's row in [db1], her login, a password change and a deletion of
    her account, and her profile page. *)
Definition ann : row := surveyor 21 "Ann" "Lee" "ann@example.org".

Definition ann_login (password : string) : Request :=
  request None [("email", JStr "ann@example.org"); ("password", JStr password)] [] None.

Definition ann_password_change : Request :=
  request (Some "21")
    [("currentPassword", JStr "Secret123"); ("newPassword", JStr "Better456")] []
    (Some "Bearer tok21").

(** Password changes and a registration in which a password is a
    number. *)
Definition numeric_password_change : Request :=
  request (Some "21")
    [("currentPassword", JNum 123); ("newPassword", JStr "Better456")] []
    (Some "Bearer tok21").

Definition numeric_new_password : Request :=
  request (Some "21")
    [("currentPassword", JStr "Secret123"); ("newPassword", JNum 456)] []
    (Some "Bearer tok21").

Definition numeric_registration : Request :=
  request None
    [("firstName", JStr "Bo"); ("lastName", JStr "Ray"); ("email", JStr "bo@example.org");
     ("password", JNum 123); ("confirmPassword", JNum 123);
     ("phone", JStr "3035550111"); ("address", JStr "2 Main St"); ("city", JStr "Golden");
     ("state", JStr "CO"); ("zipCode", JStr "80401")]
    [] None.

Definition ann_request : Request := request (Some "21") [] [] (Some "Bearer tok21").

Definition ann_areas : Request :=
  request (Some "21") [] [("counties", ["Gilpin"; "Atlantis"])] (Some "Bearer tok21").

(** A registration without [phone]. *)
Definition registration_without_phone : Request :=
  request None
    [("firstName", JStr "Bo"); ("lastName", JStr "Ray"); ("email", JStr "bo@example.org");
     ("password", JStr "Secret123"); ("confirmPassword", JStr "Secret123");
     ("address", JStr "2 Main St"); ("city", JStr "Golden");
     ("state", JStr "CO"); ("zipCode", JStr "80401")]
    [] None.

(** A token library that signs one token, for Ann. *)
Definition ann_jwt : Jwt :=
  {| JWT_EXPIRES_IN := Some "12h";
     jwt_sign := fun _ _ => "ann.token";
     jwt_verify := fun t =>
       if String.eqb t "ann.token" then inr (JNum 21, JStr "ann@example.org")
       else inl (JsonWebTokenError "jwt malformed") |}.

Definition ann_token_request : Request :=
  request (Some "21") [] [] (Some "Bearer ann.token").

(** A request of user 21 whose path id has a tail. *)
Definition tailed_request : Request :=
  mkRequest {[ "id" := "21abc" ]} ∅ ∅ (Some "Bearer tok21")
            (Some (JNum 21, JStr "ann@example.org")) [].

Definition example_line : RequestLine := mkRequestLine "/api/user-profile/21" "GET" "::1".

End Examples.

(* ===================================================================== *)
(** ** Symbolic execution of the handlers *)
(* ===================================================================== *)

Import DatabaseService Controllers Middleware Examples.

(** Case analysis on the innermost scrutinee of the goal. *)
Ltac break_match :=
  match goal with
  | |- context [match ?x with _ => _ end] =>
      lazymatch x with
      | context [match _ with _ => _ end] => fail
      | _ => destruct x eqn:?
      end
  end.

Ltac unfold_monad :=
  cbv beta iota zeta delta
    [async finally try_catch mbind M_bind mret M_ret bind ret throw await
     get_local set_local release_connection rollback_connection server_error respond
     console_error console_warn next
     getConnection beginTransaction execute query commit rollback release pop_fault
     hashPassword Controllers.compare first_of log set_session set_committed write current].

(** Every path of a handler: the driver calls are unfolded, and each
    fault bit, store answer and branch condition is split on. *)
Ltac run_all :=
  unfold_monad; cbn; repeat (break_match; cbn).


(** Goals of the form [Forall (fun p => p <> PVal JUndefined) ps]. *)
Ltac defined := repeat constructor; try discriminate; try congruence.

(** [tbl ∉ auto_increment] for a concrete table name. *)
Ltac not_generated := rewrite list_elem_of_In; cbn; intuition discriminate.

Ltac world_simpl := cbn [from_option id committed session faults trace next_conn].

Ltac spared :=
  repeat (apply Forall_cons_2; [first [left; discriminate | right; reflexivity] |]);
  apply Forall_nil_2.

Ltac close_rollback :=
  unfold rolls_back_on_failure, rolled_back, step_failed_in_transaction,
    transaction_begun, succeeded; cbn;
  repeat split; intros; try discriminate; auto.

#[local] Opaque run_prepared run_values has_undefined.

(* ===================================================================== *)
(** ** Pooled connections: acquisition and release *)
(* ===================================================================== *)

Section Discipline.
Context `{SqlOrder} `{Bcrypt} `{Jwt}.




















End Discipline.

(* ===================================================================== *)
(** ** Multi-step writes: rollback on failure *)
(* ===================================================================== *)

Section Rollback.
Context `{SqlOrder} `{Bcrypt} `{Jwt}.

Lemma updateUserServices_rolls_back req db fs :
  rolls_back_on_failure db (updateUserServices req (fresh_world db fs)).
Proof. unfold updateUserServices, fresh_world. run_all. all: close_rollback. Qed.

Lemma updateUserServiceAreas_rolls_back req db fs :
  rolls_back_on_failure db (updateUserServiceAreas req (fresh_world db fs)).
Proof. unfold updateUserServiceAreas, fresh_world. run_all. all: close_rollback. Qed.

Lemma registerUser_rolls_back req db fs :
  rolls_back_on_failure db (registerUser req (fresh_world db fs)).
Proof. unfold registerUser, fresh_world. run_all. all: close_rollback. Qed.

Lemma updateUserInfo_rolls_back req db fs :
  rolls_back_on_failure db (updateUserInfo req (fresh_world db fs)).
Proof. unfold updateUserInfo, fresh_world. run_all. all: close_rollback. Qed.

Lemma changeUserPassword_rolls_back req db fs :
  rolls_back_on_failure db (changeUserPassword req (fresh_world db fs)).
Proof. unfold changeUserPassword, fresh_world. run_all. all: close_rollback. Qed.

Lemma deleteUser_rolls_back req db fs :
  rolls_back_on_failure db (deleteUser req (fresh_world db fs)).
Proof. unfold deleteUser, fresh_world. run_all. all: close_rollback. Qed.

(** C1. For each of the six multi-step writes (replace-services,
    replace-counties, registration, profile-info update, password change,
    account deletion), for every request, on any store and under any fault
    schedule:
    - if a step throws after the transaction has begun, be it a driver
      call or bcrypt refusing to hash or to compare, then the committed
      store after the call is the store before the call, no transaction is
      left open, the last transaction command issued is a rollback, and the
      caller gets an error (500, or a rejected promise);
    - more generally, every call that does not end in a 2xx answer leaves the
      committed store as it was before the call, and when its transaction
      had begun the last transaction command issued is a rollback;
    - no call leaves a transaction open. *)
Theorem failed_write_is_rolled_back (k : writer) (req : Request) (db : Store)
  (fs : list bool) :
  let out := run_writer k req (fresh_world db fs) in
  (step_failed_in_transaction out.2 = true -> rolled_back db out)
  /\ (succeeded out.1 = false ->
      committed out.2 = db
      /\ (transaction_begun out.2 = true -> last_control (trace out.2) = Some Rollback))
  /\ session out.2 = None.
Proof.
  destruct k; cbn [run_writer].
  - apply updateUserServices_rolls_back.
  - apply updateUserServiceAreas_rolls_back.
  - apply registerUser_rolls_back.
  - apply updateUserInfo_rolls_back.
  - apply changeUserPassword_rolls_back.
  - apply deleteUser_rolls_back.
Qed.

End Rollback.

(* ===================================================================== *)
(** ** What the statements of the handlers evaluate to *)
(* ===================================================================== *)

#[local] Transparent run_prepared run_values has_undefined.

Lemma quiet_hd fs : quiet fs -> hd false fs = false.
Proof. destruct 1; cbn; auto. Qed.

Lemma quiet_tail fs : quiet fs -> quiet (tail fs).
Proof. destruct 1; cbn; [constructor | assumption]. Qed.

(** Under a quiet schedule no call draws a fault. *)
Ltac use_quiet Hq :=
  repeat match goal with
         | |- context [hd false ?l] =>
             rewrite (quiet_hd l) by (repeat apply quiet_tail; exact Hq)
         end.

Lemma has_undefined_true ps : PVal JUndefined ∈ ps -> has_undefined ps = true.
Proof.
  intros Hin. unfold has_undefined. apply existsb_exists.
  exists (PVal JUndefined). split; [apply list_elem_of_In; exact Hin | reflexivity].
Qed.

Lemma has_undefined_false ps :
  Forall (fun p => p <> PVal JUndefined) ps -> has_undefined ps = false.
Proof.
  induction 1 as [|p ps Hp _ IH]; cbn; [reflexivity |].
  unfold has_undefined in IH. rewrite IH.
  destruct p as [[]|]; try reflexivity. congruence.
Qed.

Lemma has_undefined_names (n : string) (l : list string) :
  has_undefined (PVal (JStr n) :: ((fun s => PVal (JStr s)) <$> l)) = false.
Proof. induction l; simpl; auto. Qed.

Lemma truthy_string (s : string) : s <> "" -> truthy (JStr s) = true.
Proof.
  intros Hs. unfold truthy. rewrite (proj2 (String.eqb_neq s "")) by assumption.
  reflexivity.
Qed.

Lemma truthy_defined (v : jsval) : truthy v = true -> v <> JUndefined.
Proof. destruct v; cbn; congruence. Qed.

Lemma scalars_vals (vs : list jsval) : scalars (PVal <$> vs) = Some vs.
Proof.
  unfold scalars. induction vs as [|v vs IH]; cbn; [reflexivity |].
  rewrite IH. reflexivity.
Qed.

Lemma scalars_names (names : list string) :
  scalars ((fun s => PVal (JStr s)) <$> names) = Some (JStr <$> names).
Proof.
  rewrite <- (scalars_vals (JStr <$> names)). f_equal.
  rewrite <- list_fmap_compose. reflexivity.
Qed.

Lemma filter_and_true {A} (p : A -> bool) (l : list A) :
  List.filter (fun r => p r && true) l = List.filter p l.
Proof. apply List.filter_ext. intros. apply andb_true_r. Qed.

Lemma filter_not_and_true {A} (p : A -> bool) (l : list A) :
  List.filter (fun r => negb (p r && true)) l = List.filter (fun r => negb (p r)) l.
Proof. apply List.filter_ext. intros. rewrite andb_true_r. reflexivity. Qed.

Lemma rows_of_insert_eq tbl t (db : Store) : rows_of (<[tbl := t]> db) tbl = t.
Proof. unfold rows_of. rewrite lookup_insert_eq. reflexivity. Qed.

Lemma rows_of_insert_ne tbl tbl' t (db : Store) :
  tbl <> tbl' -> rows_of (<[tbl := t]> db) tbl' = rows_of db tbl'.
Proof. intros. unfold rows_of. rewrite lookup_insert_ne by assumption. reflexivity. Qed.

Lemma col_eqb_surveyor (stored : jsval) (s : string) :
  col_eqb "surveyor_id" stored (JStr s) = bool_decide (stored = JNum (sql_int s)).
Proof. unfold col_eqb. cbn. destruct stored; reflexivity. Qed.

Lemma col_eqb_name (stored : jsval) (n : string) :
  col_eqb "name" stored (JStr n) = bool_decide (stored = JStr n).
Proof. unfold col_eqb. cbn. destruct stored; reflexivity. Qed.

Lemma existsb_names (stored : jsval) (names : list string) :
  existsb (col_eqb "name" stored) (JStr <$> names) = bool_decide (stored ∈ JStr <$> names).
Proof.
  induction names as [|n ns IH]; cbn.
  - symmetry. apply bool_decide_eq_false_2. set_solver.
  - rewrite IH, col_eqb_name.
    destruct (decide (stored = JStr n)) as [->|Hne].
    + rewrite (bool_decide_eq_true_2 (JStr n = JStr n)) by reflexivity. cbn.
      symmetry. apply bool_decide_eq_true_2. set_solver.
    + rewrite (bool_decide_eq_false_2 _ Hne). cbn.
      apply bool_decide_ext. set_solver.
Qed.

Lemma insert_rows_plain tbl cols (rs : list (list jsval)) t :
  tbl ∉ auto_increment ->
  insert_rows tbl t cols rs =
  (t ++ ((fun vals => list_to_map (zip_with (fun c v => (c, to_column c v)) cols vals) : row)
           <$> rs),
   (fun _ => 0) <$> rs).
Proof.
  intros Hna. revert t. induction rs as [|vals rs IH]; intros t; cbn.
  - rewrite app_nil_r. reflexivity.
  - unfold new_row. rewrite (bool_decide_eq_false_2 _ Hna). cbn.
    rewrite IH. rewrite <- app_assoc. reflexivity.
Qed.

Section Statements.
Context `{SqlOrder}.

Lemma run_delete_eq tbl c v db :
  run_prepared (Delete tbl [CEq c]) [PVal v] db =
  Some (Header (Z.of_nat (length (List.filter (fun r : row => col_eqb c (col r c) v)
                                              (rows_of db tbl)))) 0,
        <[tbl := List.filter (fun r : row => negb (col_eqb c (col r c) v))
                             (rows_of db tbl)]> db).
Proof.
  unfold run_prepared. cbn. rewrite filter_and_true, filter_not_and_true. reflexivity.
Qed.

Lemma run_select_eq cols tbl c v db :
  run_prepared (Select cols tbl [CEq c] None false) [PVal v] db =
  Some (Rows (project cols <$> List.filter (fun r : row => col_eqb c (col r c) v)
                                           (rows_of db tbl)), db).
Proof. unfold run_prepared. cbn. rewrite filter_and_true. reflexivity. Qed.

Lemma run_select_in cols tbl c (n : string) (ns : list string) db :
  run_prepared (Select cols tbl [CIn c (S (length ns))] None false)
               (PVal (JStr n) :: ((fun s => PVal (JStr s)) <$> ns)) db =
  Some (Rows (project cols <$>
                List.filter (fun r : row => existsb (col_eqb c (col r c)) (JStr <$> (n :: ns)))
                            (rows_of db tbl)), db).
Proof.
  change (PVal (JStr n) :: ((fun s => PVal (JStr s)) <$> ns))
    with ((fun s => PVal (JStr s)) <$> (n :: ns)).
  unfold run_prepared. rewrite scalars_names.
  cbn -[take drop existsb].
  rewrite length_fmap, Nat.leb_refl.
  cbn -[existsb take drop].
  replace (S (length ns)) with (length (JStr <$> (n :: ns)))
    by (cbn; rewrite length_fmap; reflexivity).
  rewrite drop_all, firstn_all. cbn -[existsb]. rewrite filter_and_true. reflexivity.
Qed.

Lemma run_select_names cols tbl (n : string) (ns : list string) db :
  run_prepared (Select cols tbl [CIn "name" (S (length ns))] None false)
               (PVal (JStr n) :: ((fun s => PVal (JStr s)) <$> ns)) db =
  Some (Rows (project cols <$> List.filter (named (n :: ns)) (rows_of db tbl)), db).
Proof.
  rewrite run_select_in. do 4 f_equal. apply List.filter_ext. intros r.
  apply existsb_names.
Qed.

Lemma run_values_pairs tbl c1 c2 (u : jsval) (ids : list jsval) db :
  tbl ∉ auto_increment -> ids <> [] ->
  run_values (InsertValues tbl [c1; c2]) ((fun i => [u; i]) <$> ids) db =
  Some (Header (Z.of_nat (length ids)) 0,
        <[tbl := rows_of db tbl ++
                 ((fun i => ({[ c1 := to_column c1 u; c2 := to_column c2 i ]} : row))
                    <$> ids)]> db).
Proof.
  intros Hna Hne. unfold run_values.
  assert (forallb (fun vals : list jsval => (length vals =? length [c1; c2])%nat)
                  ((fun i => [u; i]) <$> ids) = true) as ->.
  { apply forallb_forall. intros x Hx. apply in_map_iff in Hx as (i & <- & _). reflexivity. }
  assert ((0 <? length ((fun i => [u; i]) <$> ids))%nat = true) as ->.
  { rewrite length_fmap. destruct ids; [congruence | reflexivity]. }
  cbn [andb]. rewrite insert_rows_plain by assumption.
  rewrite length_fmap. rewrite <- !list_fmap_compose.
  destruct ids as [|i ids]; [congruence |]. cbn [head default fmap list_fmap].
  do 3 f_equal.
Qed.

End Statements.

#[local] Opaque run_prepared run_values has_undefined.

(* ===================================================================== *)
(** ** Replace-associations *)
(* ===================================================================== *)

Lemma ids_of_selected db tbl names :
  (fun r : row => col r "id") <$>
    result_rows (Rows (project ["id"] <$> List.filter (named names) (rows_of db tbl))) =
  resolved db tbl names.
Proof. unfold resolved. cbn [result_rows]. rewrite <- list_fmap_compose. reflexivity. Qed.

Lemma resolved_nil db ref : resolved db ref [] = [].
Proof.
  unfold resolved. rewrite (List.filter_ext _ (fun _ => false)).
  - induction (rows_of db ref); cbn; auto.
  - intros r. unfold named. apply bool_decide_eq_false_2. set_solver.
Qed.

Lemma resolved_insert_ne tbl t (db : Store) ref names :
  tbl <> ref -> resolved (<[tbl := t]> db) ref names = resolved db ref names.
Proof. intros. unfold resolved. rewrite rows_of_insert_ne by assumption. reflexivity. Qed.

Lemma kept_rows (s : string) (t : table) :
  List.filter (fun r : row => negb (col_eqb "surveyor_id" (col r "surveyor_id") (JStr s))) t =
  List.filter (fun r => negb (owned_by (sql_int s) r)) t.
Proof. apply List.filter_ext. intros r. rewrite col_eqb_surveyor. reflexivity. Qed.

Lemma owned_none_kept (u : Z) (t : table) :
  List.filter (owned_by u) (List.filter (fun r => negb (owned_by u r)) t) = [].
Proof.
  induction t as [|r t IH]; cbn; [reflexivity |].
  destruct (owned_by u r) eqn:E; cbn; [exact IH |]. rewrite E. exact IH.
Qed.

Lemma owned_all_pairs (a : association) (u : Z) (ids : list jsval) :
  List.filter (owned_by u) (pair_row a u <$> ids) = pair_row a u <$> ids.
Proof.
  induction ids as [|i ids IH]; cbn; [reflexivity |].
  assert (owned_by u (pair_row a u i) = true) as ->.
  { unfold owned_by, pair_row, col. apply bool_decide_eq_true_2.
    rewrite lookup_insert_eq. reflexivity. }
  rewrite IH. reflexivity.
Qed.

Lemma owned_other_pairs (a : association) (u v : Z) (ids : list jsval) :
  u <> v -> List.filter (owned_by u) (pair_row a v <$> ids) = [].
Proof.
  intros Hu. induction ids as [|i ids IH]; cbn; [reflexivity |].
  assert (owned_by u (pair_row a v i) = false) as ->; [| exact IH].
  unfold owned_by, pair_row, col. apply bool_decide_eq_false_2.
  rewrite lookup_insert_eq. cbn. congruence.
Qed.

Lemma owned_other_kept (u v : Z) (t : table) :
  u <> v ->
  List.filter (owned_by u) (List.filter (fun r => negb (owned_by v r)) t) =
  List.filter (owned_by u) t.
Proof.
  intros Hu. induction t as [|r t IH]; cbn; [reflexivity |].
  destruct (owned_by v r) eqn:E; cbn.
  - assert (owned_by u r = false) as ->; [| exact IH].
    unfold owned_by in *. apply bool_decide_eq_true_1 in E.
    apply bool_decide_eq_false_2. rewrite E. congruence.
  - rewrite IH. reflexivity.
Qed.

Section Replace.
Context `{SqlOrder} `{Bcrypt} `{Jwt}.

Lemma replace_associations_store (a : association) (req : Request) (db : Store)
  (fs : list bool) (s : string) :
  quiet fs -> params req !! "id" = Some s -> s <> "" ->
  status_of (replace_associations a req (fresh_world db fs)).1 = Some 200
  /\ committed (replace_associations a req (fresh_world db fs)).2 =
     <[assoc_table a :=
         List.filter (fun r => negb (owned_by (sql_int s) r)) (rows_of db (assoc_table a))
         ++ (pair_row a (sql_int s)
               <$> resolved db (ref_table a) (default [] (array_field req (names_field a))))]> db.
Proof.
  intros Hq Hid Hs.
  destruct a; cbn [replace_associations assoc_table ref_table names_field].
  all: unfold updateUserServices, updateUserServiceAreas, fresh_world, req_param.
  all: rewrite Hid; cbn [from_option]; rewrite (truthy_string s Hs); cbn [negb].
  all: unfold_monad; cbn; use_quiet Hq.
  all: rewrite (has_undefined_false [PVal (JStr s)]) by defined.
  all: rewrite run_delete_eq; cbn.
  all: match goal with
       | |- context [array_field ?r ?k] => destruct (array_field r k) as [[|n ns]|]
       end; cbn.
  all: try (use_quiet Hq; cbn; split; [reflexivity |];
            rewrite resolved_nil, kept_rows; cbn; rewrite app_nil_r; reflexivity).
  all: rewrite has_undefined_names; use_quiet Hq.
  all: rewrite run_select_names; cbn iota beta; rewrite ids_of_selected.
  all: rewrite resolved_insert_ne by discriminate.
  all: match goal with
       | |- context [resolved ?d ?t ?l] =>
           destruct (resolved d t l) as [|i ids] eqn:Hids
       end.
  all: try (cbn; use_quiet Hq; cbn; split; [reflexivity |];
            rewrite kept_rows, app_nil_r; reflexivity).
  all: cbn [length Nat.ltb Nat.leb]; cbn iota beta; use_quiet Hq.
  all: cbn [current default session].
  all: rewrite run_values_pairs by (try discriminate; not_generated).
  all: cbn; use_quiet Hq; cbn; split; [reflexivity |].
  all: rewrite insert_insert_eq, rows_of_insert_eq, kept_rows; reflexivity.
Qed.

(** C2. A replace-associations call (services or counties) for the user
    of path id [s], with the names of the body, on a store that raises no
    fault: the call answers 200; the committed association table keeps the
    other users' rows and holds for this user exactly the pairs
    (user, id) of the reference rows whose name is among the given names,
    so names without a reference row contribute nothing and raise no
    error; with no names the user is left without associations. *)
Theorem replace_associations_exact (a : association) (req : Request) (db : Store)
  (fs : list bool) (s : string) :
  quiet fs -> params req !! "id" = Some s -> s <> "" ->
  let names := default [] (array_field req (names_field a)) in
  let after := committed (replace_associations a req (fresh_world db fs)).2 in
  status_of (replace_associations a req (fresh_world db fs)).1 = Some 200
  /\ associations_of after (assoc_table a) (sql_int s) =
     pair_row a (sql_int s) <$> resolved db (ref_table a) names
  /\ (forall u, u <> sql_int s ->
       associations_of after (assoc_table a) u = associations_of db (assoc_table a) u)
  /\ (forall t, t <> assoc_table a -> rows_of after t = rows_of db t)
  /\ (names = [] -> associations_of after (assoc_table a) (sql_int s) = []).
Proof.
  intros Hq Hid Hs names after.
  destruct (replace_associations_store a req db fs s Hq Hid Hs) as [Hst Hdb].
  subst after. rewrite Hdb. fold names.
  assert (associations_of
            (<[assoc_table a :=
                 List.filter (fun r => negb (owned_by (sql_int s) r)) (rows_of db (assoc_table a))
                 ++ (pair_row a (sql_int s) <$> resolved db (ref_table a) names)]> db)
            (assoc_table a) (sql_int s)
          = pair_row a (sql_int s) <$> resolved db (ref_table a) names) as Hown.
  { unfold associations_of. rewrite rows_of_insert_eq, List.filter_app.
    rewrite owned_none_kept, owned_all_pairs. reflexivity. }
  split; [exact Hst |]. split; [exact Hown |]. split; [| split].
  - intros u Hu. unfold associations_of. rewrite rows_of_insert_eq, List.filter_app.
    rewrite owned_other_pairs, owned_other_kept, app_nil_r by assumption. reflexivity.
  - intros t Ht. apply rows_of_insert_ne. congruence.
  - intros Hnil. rewrite Hown, Hnil, resolved_nil. reflexivity.
Qed.

End Replace.

(* ===================================================================== *)
(** ** Validation chains and routes *)
(* ===================================================================== *)

Lemma run_route_app (a b : list middleware) h req w :
  run_route (a ++ b) h req w = run_route a (run_route b h) req w.
Proof.
  revert req w. induction a as [|mw a IH]; intros req w; cbn; [reflexivity |].
  destruct (mw req w) as [[e|[res|req']] w']; auto.
Qed.

Lemma run_route_chains (chs : list chain) (rest : list middleware) h req w :
  run_route ((run_chain <$> chs) ++ rest) h req w =
  run_route rest h (apply_chains chs req) w.
Proof.
  revert req. induction chs as [|ch chs IH]; intros req; cbn; [reflexivity |].
  apply IH.
Qed.

Lemma run_route_validated h req w :
  run_route [handleValidationErrors] h req w =
  if bool_decide (validation req = []) then h req w
  else (inr (mkResponse 400 "Validation failed"
               ((fun e => (e.1, JStr e.2)) <$> validation req) []), w).
Proof. cbn. unfold handleValidationErrors. case_bool_decide; reflexivity. Qed.

Lemma run_step_validation loc name st req :
  validation req <> [] -> validation (run_step loc name st req) <> [].
Proof.
  intros Hv. unfold run_step, store_sanitized, add_error.
  destruct st, loc; cbn; repeat case_match; cbn; auto.
  all: destruct (validation req); cbn; congruence.
Qed.

Lemma apply_chain_validation ch req :
  validation req <> [] -> validation (apply_chain ch req) <> [].
Proof.
  unfold apply_chain. destruct (_ && _); [auto |].
  revert req. induction (chain_steps ch) as [|st sts IH]; intros req Hv; cbn; [auto |].
  apply IH, run_step_validation, Hv.
Qed.

Lemma apply_chains_validation chs req :
  validation req <> [] -> validation (apply_chains chs req) <> [].
Proof.
  revert req. induction chs as [|ch chs IH]; intros req Hv; cbn; [auto |].
  apply IH, apply_chain_validation, Hv.
Qed.

Lemma run_step_field loc name st req k :
  name <> k \/ is_sanitizer st = false ->
  field (run_step loc name st req) k = field req k.
Proof.
  intros Hk. unfold run_step, store_sanitized, add_error, field.
  destruct st, loc; cbn; repeat case_match; cbn; auto.
  destruct Hk as [Hk|Hk]; [| discriminate].
  rewrite lookup_insert_ne by assumption. reflexivity.
Qed.

Lemma apply_chain_field ch req k :
  spares k ch -> field (apply_chain ch req) k = field req k.
Proof.
  intros Hs. unfold apply_chain. destruct (_ && _); [reflexivity |].
  destruct ch as [loc name opt sts]. cbn in *.
  revert req. induction sts as [|st sts IH]; intros req; cbn; [reflexivity |].
  rewrite IH.
  - apply run_step_field. destruct Hs as [Hs|Hs]; [left; exact Hs |].
    cbn in Hs. apply andb_prop in Hs as [Hs _]. right. destruct (is_sanitizer st); auto.
  - destruct Hs as [Hs|Hs]; [left; exact Hs |].
    cbn in Hs. apply andb_prop in Hs as [_ Hs]. right. exact Hs.
Qed.

Lemma apply_chains_field chs req k :
  Forall (spares k) chs -> field (apply_chains chs req) k = field req k.
Proof.
  intros Hs. revert req. unfold apply_chains.
  induction Hs as [|ch chs Hch _ IH]; intros req; cbn [foldl]; [reflexivity |].
  rewrite IH. apply apply_chain_field, Hch.
Qed.

(* ===================================================================== *)
(** ** Registration *)
(* ===================================================================== *)

Lemma registration_checks_pass (req : Request) :
  registration_checks req = true ->
  (negb (truthy (field req "email")) || negb (truthy (field req "password"))
   || negb (truthy (field req "confirmPassword")) || negb (truthy (field req "firstName"))
   || negb (truthy (field req "lastName")) || negb (truthy (field req "address"))
   || negb (truthy (field req "city")) || negb (truthy (field req "state"))
   || negb (truthy (field req "zipCode"))) = false
  /\ negb (strict_eq (field req "password") (field req "confirmPassword")) = false
  /\ Forall (fun k => field req k <> JUndefined)
       ["email"; "password"; "confirmPassword"; "firstName"; "lastName"; "address";
        "city"; "state"; "zipCode"].
Proof.
  unfold registration_checks. cbn [forallb].
  intros Hc. apply andb_prop in Hc as [Ht Hc].
  repeat (apply andb_prop in Ht as [? Ht]).
  repeat match goal with Ht : truthy _ = true |- _ => rewrite Ht end.
  rewrite Hc. repeat split; try reflexivity.
  repeat constructor; apply truthy_defined; assumption.
Qed.

Lemma js_or_null_defined v : js_or v JNull <> JUndefined.
Proof. unfold js_or. destruct v; cbn; try congruence; repeat case_match; congruence. Qed.

Lemma max_id_ge (t : table) (u : row) (i : Z) :
  u ∈ t -> col u "id" = JNum i -> i <= max_id t.
Proof.
  induction 1 as [u t|u v t _ IH]; intros Hi; unfold max_id; cbn [foldr]; fold (max_id t).
  - rewrite Hi. lia.
  - specialize (IH Hi). destruct (col v "id"); lia.
Qed.

#[local] Transparent run_prepared.

Lemma run_insert_row `{SqlOrder} tbl cols ps vs db :
  scalars ps = Some vs -> length vs = length cols ->
  run_prepared (Insert tbl cols) ps db =
  Some (Header 1 (new_row tbl (rows_of db tbl) cols vs).2,
        <[tbl := rows_of db tbl ++ [(new_row tbl (rows_of db tbl) cols vs).1]]> db).
Proof.
  intros Hs Hl. unfold run_prepared. rewrite Hs. cbn [mbind option_bind run_scalar].
  rewrite Hl, Nat.eqb_refl. destruct (new_row tbl (rows_of db tbl) cols vs). reflexivity.
Qed.

#[local] Opaque run_prepared.

Section Register.
Context `{SqlOrder} `{Bcrypt} `{Jwt} `{ExpressValidator}.

Lemma registerUser_mismatch req w :
  field req "password" <> field req "confirmPassword" ->
  exists res, registerUser req w = (inr res, w) /\ status res = 400.
Proof.
  intros Hne. unfold registerUser.
  assert (negb (strict_eq (field req "password") (field req "confirmPassword")) = true) as Hm.
  { unfold strict_eq. rewrite bool_decide_eq_false_2 by assumption. reflexivity. }
  rewrite Hm.
  match goal with |- context [if ?c then _ else _] => destruct c end.
  all: unfold_monad; cbn; eexists; split; reflexivity.
Qed.

Lemma register_route_mismatch req w :
  field req "password" <> field req "confirmPassword" ->
  exists res, register_user_route req w = (inr res, w) /\ status res = 400.
Proof.
  intros Hne. unfold register_user_route, validateRegistration, registration_chains.
  rewrite run_route_chains, run_route_validated.
  rewrite bool_decide_eq_false_2; [eexists; split; reflexivity |].
  match goal with
  | |- validation (apply_chains (?c1 :: ?c2 :: ?c3 :: ?c4 :: ?c5 :: ?rest) _) <> [] =>
      change (validation (apply_chains rest
                 (apply_chain c5 (apply_chains [c1; c2; c3; c4] req))) <> []);
      set (before := apply_chains [c1; c2; c3; c4] req);
      assert (field before "password" = field req "password") as Hp
        by (apply apply_chains_field; spared);
      assert (field before "confirmPassword" = field req "confirmPassword") as Hcp
        by (apply apply_chains_field; spared)
  end.
  clearbody before. apply apply_chains_validation.
  unfold apply_chain. cbn. unfold run_step, read. cbn.
  rewrite Hp, Hcp. unfold strict_eq.
  rewrite bool_decide_eq_false_2 by congruence.
  unfold add_error. cbn. destruct (validation before); cbn; congruence.
Qed.

(** C5. A registration whose [password] and [confirmPassword] differ is
    answered 400, by the handler alone and by the route with its
    validation chain, whatever the validators of the library decide; the
    world after the call is the world before it: no connection is
    acquired, no statement is run, and so no user row is created. *)
Theorem mismatched_passwords_rejected (req : Request) (w : World) :
  field req "password" <> field req "confirmPassword" ->
  (exists res, registerUser req w = (inr res, w) /\ status res = 400)
  /\ (exists res, register_user_route req w = (inr res, w) /\ status res = 400).
Proof.
  intros Hne. split; [apply registerUser_mismatch | apply register_route_mismatch]; exact Hne.
Qed.

(** C4. A registration that passes the handler's own checks, for an
    email that already has a surveyor row, on a store that raises no
    fault: the answer is 409, the committed store is the store before the
    call and no transaction stays open; in particular the rows for that
    email are the same rows, exactly one when there was exactly one. *)
Theorem duplicate_email_conflict (req : Request) (db : Store) (fs : list bool) :
  quiet fs -> registration_checks req = true ->
  rows_with_email db (field req "email") <> [] ->
  let out := registerUser req (fresh_world db fs) in
  status_of out.1 = Some 409
  /\ committed out.2 = db
  /\ session out.2 = None
  /\ rows_with_email (committed out.2) (field req "email")
     = rows_with_email db (field req "email")
  /\ (length (rows_with_email db (field req "email")) = 1%nat ->
      length (rows_with_email (committed out.2) (field req "email")) = 1%nat).
Proof.
  intros Hq Hc Hdup out.
  assert (status_of out.1 = Some 409 /\ committed out.2 = db /\ session out.2 = None)
    as (Hs & Hdb & Hse).
  { subst out.
    destruct (registration_checks_pass req Hc) as (Hc1 & Hc2 & Hdef).
    unfold registerUser, fresh_world. rewrite Hc1, Hc2.
    unfold_monad; cbn; use_quiet Hq.
    rewrite (has_undefined_false [PVal (field req "email")])
      by (constructor; [inversion Hdef; congruence | constructor]).
    rewrite run_select_eq. cbn. fold (rows_with_email db (field req "email")).
    destruct (rows_with_email db (field req "email")) as [|r rs]; [congruence |].
    cbn. use_quiet Hq. cbn. auto. }
  rewrite Hdb. auto.
Qed.

Lemma registerUser_without_defaults req db fs p :
  quiet fs -> registration_checks req = true ->
  field req "password" = JStr p -> field req "phone" <> JUndefined ->
  rows_with_email db (field req "email") = [] ->
  no_default_county db ->
  let out := registerUser req (fresh_world db fs) in
  let new := new_row "surveyors" (rows_of db "surveyors") registration_columns
                     (registration_values req p) in
  status_of out.1 = Some 201
  /\ committed out.2 = <["surveyors" := rows_of db "surveyors" ++ [new.1]]> db
  /\ In (ConsoleWarn default_counties_warning) (trace out.2).
Proof.
  intros Hq Hc Hp Hph Hfree Hnone out new. subst out new.
  destruct (registration_checks_pass req Hc) as (Hc1 & Hc2 & Hdef).
  unfold registerUser, fresh_world. rewrite Hc1, Hc2.
  unfold_monad; cbn; use_quiet Hq.
  rewrite (has_undefined_false [PVal (field req "email")])
    by (constructor; [inversion Hdef; congruence | constructor]).
  rewrite run_select_eq. cbn. fold (rows_with_email db (field req "email")).
  rewrite Hfree. cbn. rewrite Hp. cbn.
  rewrite !Forall_cons in Hdef. destruct_and!.
  rewrite has_undefined_false
    by (repeat (apply Forall_cons_2 || apply Forall_nil_2); try discriminate;
        intros [= E]; try contradiction; exact (js_or_null_defined _ E)).
  use_quiet Hq.
  erewrite run_insert_row by reflexivity.
  fold registration_columns. fold (registration_values req p).
  cbn [insertId]. cbn iota beta.
  rewrite has_undefined_false by defined. use_quiet Hq.
  pose proof (run_select_names ["id"; "name"] "counties" "Boulder" ["Broomfield"; "Gilpin"])
    as E.
  cbn [length fmap list_fmap] in E. rewrite E. clear E.
  world_simpl.
  rewrite rows_of_insert_ne by discriminate.
  fold defaultCountyNames. rewrite Hnone. cbn. use_quiet Hq. cbn.
  repeat split; auto.
Qed.

Lemma registerUser_without_phone req db fs p :
  quiet fs -> registration_checks req = true -> field req "password" = JStr p ->
  rows_with_email db (field req "email") = [] ->
  field req "phone" = JUndefined ->
  let out := registerUser req (fresh_world db fs) in
  status_of out.1 = Some 500 /\ committed out.2 = db /\ session out.2 = None.
Proof.
  intros Hq Hc Hp Hfree Hph out. subst out.
  destruct (registration_checks_pass req Hc) as (Hc1 & Hc2 & Hdef).
  unfold registerUser, fresh_world. rewrite Hc1, Hc2.
  unfold_monad; cbn; use_quiet Hq.
  rewrite (has_undefined_false [PVal (field req "email")])
    by (constructor; [inversion Hdef; congruence | constructor]).
  rewrite run_select_eq. cbn. fold (rows_with_email db (field req "email")).
  rewrite Hfree. cbn. rewrite Hp. cbn. rewrite Hph.
  rewrite has_undefined_true by set_solver.
  cbn. use_quiet Hq. cbn. repeat split.
Qed.

(** C8. A registration that passes the handler's checks with a text
    password, for an unused email, on a store that raises no fault and in
    which none of Boulder, Broomfield and Gilpin has a county row.
    - When the body carries a [phone]: the answer is 201, the new surveyor
      row is committed with a fresh id, the missing defaults are reported
      by a console warning, no county association is written, and, provided
      every existing county association belongs to an existing surveyor,
      the new user has none.
    - When the body carries no [phone], which the validation chain of the
      route allows: the INSERT binds [undefined], the driver refuses it,
      and the answer is 500; the transaction is rolled back and the store is
      as before, without the new surveyor. *)
Theorem registration_without_default_counties (req : Request) (db : Store)
  (fs : list bool) (p : string) :
  quiet fs -> registration_checks req = true ->
  field req "password" = JStr p ->
  rows_with_email db (field req "email") = [] ->
  no_default_county db ->
  let out := registerUser req (fresh_world db fs) in
  let new := new_row "surveyors" (rows_of db "surveyors") registration_columns
                     (registration_values req p) in
  (field req "phone" <> JUndefined ->
   status_of out.1 = Some 201
   /\ rows_of (committed out.2) "surveyors" = rows_of db "surveyors" ++ [new.1]
   /\ col new.1 "id" = JNum (1 + max_id (rows_of db "surveyors"))
   /\ In (ConsoleWarn default_counties_warning) (trace out.2)
   /\ rows_of (committed out.2) "surveyors_counties" = rows_of db "surveyors_counties"
   /\ (county_links_resolve db ->
       associations_of (committed out.2) "surveyors_counties"
                       (1 + max_id (rows_of db "surveyors")) = []))
  /\ (field req "phone" = JUndefined ->
      chain_optional phone_chain = true
      /\ In phone_chain registration_chains
      /\ status_of out.1 = Some 500
      /\ committed out.2 = db
      /\ session out.2 = None
      /\ rows_with_email (committed out.2) (field req "email") = []).
Proof.
  intros Hq Hc Hp Hfree Hnone out new. split.
  - intros Hph.
    destruct (registerUser_without_defaults req db fs p Hq Hc Hp Hph Hfree Hnone)
      as (Hs & Hdb & Hw).
    fold out in Hs, Hdb, Hw. fold new in Hdb.
    split; [exact Hs |]. rewrite Hdb.
    split; [apply rows_of_insert_eq |].
    split; [reflexivity |].
    split; [exact Hw |].
    split; [apply rows_of_insert_ne; discriminate |].
    intros Hfk. unfold associations_of. rewrite rows_of_insert_ne by discriminate.
    assert (forall r, r ∈ rows_of db "surveyors_counties" ->
                      owned_by (1 + max_id (rows_of db "surveyors")) r = false) as Hnot.
    { intros r Hr. destruct (Hfk r Hr) as (u & Hu & Hid).
      unfold owned_by. apply bool_decide_eq_false_2. intros Hown.
      rewrite Hown in Hid. symmetry in Hid.
      pose proof (max_id_ge _ _ _ Hu Hid). lia. }
    induction (rows_of db "surveyors_counties") as [|r t IH]; cbn; [reflexivity |].
    rewrite Hnot by left. apply IH. intros r' Hr'. apply Hnot. right. exact Hr'.
  - intros Hph.
    destruct (registerUser_without_phone req db fs p Hq Hc Hp Hfree Hph) as (Hs & Hdb & Hn).
    fold out in Hs, Hdb, Hn.
    split; [reflexivity |]. split; [cbn; auto 10 |].
    split; [exact Hs |]. split; [exact Hdb |]. split; [exact Hn |].
    rewrite Hdb. exact Hfree.
Qed.

End Register.

(* ===================================================================== *)
(** ** Pooled connections: every operation *)
(* ===================================================================== *)

Section Pool.
Context `{SqlOrder} `{Bcrypt} `{Jwt}.


End Pool.

(* ===================================================================== *)
(** ** Pagination *)
(* ===================================================================== *)

Lemma ceiling_quotient (t l : Z) :
  0 < l -> Qceiling (inject_Z t / inject_Z l) = - ((- t) / l).
Proof.
  intros Hl. destruct l as [|p|p]; try lia.
  unfold Qceiling, Qfloor, Qdiv, Qmult, Qinv, Qopp, inject_Z. cbn.
  rewrite Z.mul_1_r. reflexivity.
Qed.

Lemma ceiling_bounds (t l : Z) :
  0 < l -> (- ((- t) / l) - 1) * l < t <= - ((- t) / l) * l.
Proof.
  intros Hl. pose proof (Z.div_mod (- t) l ltac:(lia)).
  pose proof (Z.mod_pos_bound (- t) l Hl). nia.
Qed.

Lemma eval_where_object (o : list (string * jsval)) (rest : list jsval) :
  exists p, eval_where (CEq <$> keys o) (values o ++ rest) = Some (p, rest)
            /\ forall r, p r = matches o r.
Proof.
  induction o as [|[k v] o (p & Hp & Hext)]; cbn.
  - eexists. split; [reflexivity | reflexivity].
  - unfold keys, values in *. rewrite Hp. cbn. eexists. split; [reflexivity |].
    intros r. cbn. rewrite Hext. reflexivity.
Qed.

Lemma where_conditions_ok w :
  where_ok w -> where_conditions w = Some (CEq <$> keys (where_object w)).
Proof.
  destruct w as [o|]; cbn; [| reflexivity].
  intros [Hne _]. rewrite bool_decide_eq_false_2; [reflexivity |].
  destruct o; cbn; congruence.
Qed.

Lemma where_params_object w : where_params w = values (where_object w).
Proof. destruct w; reflexivity. Qed.

Lemma where_defined w (extra : list jsval) :
  where_ok w -> Forall (fun v => v <> JUndefined) extra ->
  has_undefined (PVal <$> (values (where_object w) ++ extra)) = false.
Proof.
  intros Hw He. apply has_undefined_false.
  rewrite Forall_fmap. apply Forall_app. split.
  - destruct w as [o|]; cbn; [| constructor]. destruct Hw as [_ Hd].
    unfold values. rewrite Forall_fmap. eapply Forall_impl; [exact Hd |].
    cbn. intros [k v] Hv. cbn in *. congruence.
  - eapply Forall_impl; [exact He |]. cbn. intros v Hv. congruence.
Qed.

Lemma col_singleton k v : col ({[ k := v ]} : row) k = v.
Proof. unfold col. rewrite lookup_singleton_eq. reflexivity. Qed.

Lemma filter_all {A} (l : list A) : List.filter (fun _ => true) l = l.
Proof. induction l; cbn; congruence. Qed.

#[local] Transparent run_prepared.

Section Paginate.
Context `{SqlOrder}.

Lemma run_count table o db :
  run_prepared (SelectCount table (CEq <$> keys o)) (PVal <$> values o) db =
  Some (Rows [ {[ "total" :=
                    JNum (Z.of_nat (length (List.filter (matches o) (rows_of db table)))) ]} ],
        db).
Proof.
  unfold run_prepared. rewrite scalars_vals. cbn [mbind option_bind run_scalar].
  destruct (eval_where_object o []) as (p & Hp & Hext). rewrite app_nil_r in Hp.
  rewrite Hp. cbn. rewrite (List.filter_ext _ _ Hext). reflexivity.
Qed.

Lemma run_window cols table o order (l off : Z) db :
  0 <= l -> 0 <= off ->
  run_prepared (Select cols table (CEq <$> keys o) order true)
               (PVal <$> (values o ++ [JNum l; JNum off])) db =
  Some (Rows (project cols <$>
                take (Z.to_nat l)
                     (drop (Z.to_nat off)
                           (match order with
                            | Some s => order_by s (List.filter (matches o) (rows_of db table))
                            | None => List.filter (matches o) (rows_of db table)
                            end))), db).
Proof.
  intros Hl Ho. unfold run_prepared. rewrite scalars_vals.
  cbn [mbind option_bind run_scalar].
  destruct (eval_where_object o [JNum l; JNum off]) as (p & Hp & Hext).
  rewrite Hp. cbn.
  rewrite (proj2 (Z.leb_le 0 l) Hl), (proj2 (Z.leb_le 0 off) Ho). cbn.
  rewrite (List.filter_ext _ _ Hext). reflexivity.
Qed.

#[local] Opaque run_prepared.

Lemma ordered_length o (t : table) : length (ordered o t) = length t.
Proof.
  unfold ordered. destruct (order_clause o); [| reflexivity].
  apply Permutation_length, order_by_perm.
Qed.

Lemma paginate_result table page limit options db fs :
  quiet fs -> 1 <= page -> 1 <= limit -> where_ok (where_ options) ->
  let matching := List.filter (matches (where_object (where_ options))) (rows_of db table) in
  let t := Z.of_nat (length matching) in
  (paginate table page limit options (fresh_world db fs)).1 =
  inr (mkPage
         (project (default ["*"] (columns options)) <$>
            take (Z.to_nat limit)
                 (drop (Z.to_nat ((page - 1) * limit)) (ordered (orderBy options) matching)))
         (mkPagination page limit (JNum t) (Int (- ((- t) / limit)))
            (page <? - ((- t) / limit)) (1 <? page))).
Proof.
  intros Hq Hp Hl Hw matching t. subst matching t.
  unfold paginate, executeQuery, fresh_world.
  rewrite (where_conditions_ok _ Hw), where_params_object.
  unfold_monad. cbn -[Z.mul Z.sub ceil_div lt_number]. use_quiet Hq.
  pose proof (where_defined (where_ options) [] Hw ltac:(constructor)) as Hd1.
  rewrite app_nil_r in Hd1. rewrite Hd1.
  rewrite run_count. cbn -[Z.mul Z.sub ceil_div lt_number]. use_quiet Hq.
  rewrite (where_defined (where_ options) [JNum limit; JNum ((page - 1) * limit)] Hw)
    by defined.
  rewrite run_window by nia.
  cbn -[Z.mul Z.sub ceil_div lt_number]. unfold ceil_div.
  rewrite (proj2 (Z.eqb_neq limit 0)) by lia.
  rewrite col_singleton. cbn iota. rewrite ceiling_quotient by lia. reflexivity.
Qed.

(** C6. [paginate] over a table, with [page >= 1] and [limit >= 1], on a
    store that raises no fault (and a [where] option that is absent or a
    non-empty object of defined values): with [t] the number of rows that
    match, the metadata is [total = t], [totalPages] the ceiling of
    [t / limit] (the integer [n] with [(n - 1) * limit < t <= n * limit]),
    [hasNext = (page < totalPages)], [hasPrev = (page > 1)], and the data
    is the window of [limit] rows starting at offset [(page - 1) * limit]
    of the matching rows in the store's order.  In particular over 25 rows,
    with [page = 2] and [limit = 10]: 10 rows, [totalPages = 3],
    [hasNext] and [hasPrev]. *)
Theorem paginate_metadata (table : string) (page limit : Z) (options : PaginateOptions)
  (db : Store) (fs : list bool) :
  quiet fs -> 1 <= page -> 1 <= limit -> where_ok (where_ options) ->
  let matching := List.filter (matches (where_object (where_ options))) (rows_of db table) in
  let t := Z.of_nat (length matching) in
  exists pg n,
    (paginate table page limit options (fresh_world db fs)).1 = inr pg
    /\ total (pagination pg) = JNum t
    /\ totalPages (pagination pg) = Int n
    /\ (n - 1) * limit < t <= n * limit
    /\ hasNext (pagination pg) = (page <? n)
    /\ hasPrev (pagination pg) = (1 <? page)
    /\ data pg = project (default ["*"] (columns options)) <$>
                   take (Z.to_nat limit)
                        (drop (Z.to_nat ((page - 1) * limit))
                              (ordered (orderBy options) matching))
    /\ (length (rows_of db table) = 25%nat -> where_ options = None ->
        page = 2 -> limit = 10 ->
        length (data pg) = 10%nat /\ n = 3
        /\ hasNext (pagination pg) = true /\ hasPrev (pagination pg) = true).
Proof.
  intros Hq Hp Hl Hw matching t.
  pose proof (paginate_result table page limit options db fs Hq Hp Hl Hw) as Hr.
  cbv zeta in Hr. fold matching in Hr. fold t in Hr.
  pose proof (ceiling_bounds t limit ltac:(lia)) as Hb.
  eexists. exists (- ((- t) / limit)).
  split; [exact Hr |]. cbn [pagination total totalPages hasNext hasPrev data].
  repeat (split; [first [reflexivity | lia] |]).
  intros H25 Hnone -> ->.
  assert (t = 25) as Ht.
  { subst t matching. rewrite Hnone. cbn [where_object default from_option id].
    rewrite (List.filter_ext _ (fun _ => true)) by reflexivity.
    rewrite filter_all, H25. reflexivity. }
  assert (- (- t / 10) = 3) as Hn by lia.
  rewrite Hn. repeat split; try reflexivity.
  rewrite length_fmap, length_take, length_drop, ordered_length.
  assert (length matching = 25%nat) as -> by lia.
  reflexivity.
Qed.

End Paginate.

(* ===================================================================== *)
(** ** Record helpers that destructure a write header *)
(* ===================================================================== *)

#[local] Transparent run_prepared.

Lemma write_answers_header `{SqlOrder} (q : sql) ps db r db' :
  match q with
  | Insert _ _ | Update _ _ _ | Delete _ _ => True
  | _ => False
  end ->
  run_prepared q ps db = Some (r, db') -> exists n i, r = Header n i.
Proof.
  unfold run_prepared. destruct (scalars ps) as [vs|]; [| discriminate].
  cbn [mbind option_bind].
  destruct q; try contradiction; intros _; cbn [run_scalar].
  - destruct (_ =? _)%nat; [| discriminate]. destruct (new_row _ _ _ _).
    intros; simplify_eq; eauto.
  - destruct (eval_where _ _) as [[p ps1]|]; [| discriminate]. cbn.
    destruct (_ && _); intros; simplify_eq; eauto.
  - destruct (eval_where _ _) as [[p ps1]|]; [| discriminate]. cbn.
    destruct (bool_decide _); intros; simplify_eq; eauto.
Qed.

#[local] Opaque run_prepared.

Section Helpers.
Context `{SqlOrder}.

Lemma executeQuery_write_result (q : sql) ps w r w' :
  match q with
  | Insert _ _ | Update _ _ _ | Delete _ _ => True
  | _ => False
  end ->
  executeQuery q ps w = (inr r, w') -> exists n i, r = Header n i.
Proof.
  intros Hq. unfold executeQuery. run_all.
  all: intros; simplify_eq.
  all: eapply write_answers_header; eauto.
Qed.

(** C7, as the code has it.  [insert], [updateById] and [deleteById] never
    return a value, neither a generated id nor an affected-row count:
    whatever the table, the record, the store and the fault schedule, the
    promise is rejected, because the header [executeQuery] hands back is
    destructured as an array. *)
Theorem record_writes_never_return (table : string) (id : jsval)
  (data : list (string * jsval)) (w : World) :
  (exists e, (insert table data w).1 = inl e)
  /\ (exists e, (updateById table id data w).1 = inl e)
  /\ (exists e, (deleteById table id w).1 = inl e).
Proof.
  repeat split.
  all: unfold insert, updateById, deleteById, async, mbind, M_bind, bind, await.
  all: match goal with
       | |- context [executeQuery ?q ?ps ?w0] =>
           destruct (executeQuery q ps w0) as [[e|r] w'] eqn:E; cbn; [eauto |];
           destruct (executeQuery_write_result q ps w0 r w' I E) as (n & i & ->);
           cbn; eauto
       end.
Qed.

End Helpers.

(* ===================================================================== *)
(** ** The ownership gate *)
(* ===================================================================== *)

Lemma gate_forbids req w :
  ~ owner req -> checkResourceOwnership req w = (inr (inl forbidden), w).
Proof.
  intros Hno. unfold checkResourceOwnership.
  assert (strict_neq_num
            match req_user req with Some user => user.1 | None => JUndefined end
            match req_param req "id" with JStr s => parseInt s | _ => None end = true)
    as ->; [| reflexivity].
  unfold owner, token_id, path_id, req_param in *.
  destruct (req_user req) as [[uid e]|]; cbn; [| reflexivity].
  destruct (params req !! "id") as [s|]; cbn; [| destruct uid; reflexivity].
  destruct uid; try reflexivity.
  destruct (parseInt s) as [n|] eqn:E; [| reflexivity]. cbn.
  apply negb_true_iff, Z.eqb_neq. intros ->. apply Hno. eauto.
Qed.

Lemma gate_admits req w :
  owner req -> checkResourceOwnership req w = (inr (inr req), w).
Proof.
  intros (n & Hn & Hp). unfold checkResourceOwnership.
  unfold token_id, path_id, req_param in *.
  destruct (req_user req) as [[uid e]|]; cbn in *; [| discriminate].
  destruct (params req !! "id") as [s|]; cbn in *; [| discriminate].
  subst uid. rewrite Hp. cbn. rewrite Z.eqb_refl. reflexivity.
Qed.

Lemma run_step_identity loc name st req : same_identity req (run_step loc name st req).
Proof.
  unfold run_step, store_sanitized, add_error, same_identity.
  destruct st, loc; cbn; repeat case_match; cbn; auto.
Qed.

Lemma same_identity_trans a b c :
  same_identity a b -> same_identity b c -> same_identity a c.
Proof. unfold same_identity. intros (-> & -> & ->) (-> & -> & ->). auto. Qed.

Lemma apply_chain_identity ch req : same_identity req (apply_chain ch req).
Proof.
  unfold apply_chain. destruct (_ && _); [unfold same_identity; auto |].
  revert req. induction (chain_steps ch) as [|st sts IH]; intros req; cbn.
  - unfold same_identity; auto.
  - eapply same_identity_trans; [apply run_step_identity | apply IH].
Qed.

(** Validation answers 400 itself, or hands on a request with the same
    route parameters, Authorization header and identity; which of the
    two does not depend on what follows. *)
Lemma validation_outcome (pre : list middleware) req w :
  validation_only pre ->
  (exists res, status res = 400
               /\ forall k : Request -> Async Response,
                    run_route pre k req w = (inr res, w))
  \/ (exists req', same_identity req req'
                   /\ forall k : Request -> Async Response,
                        run_route pre k req w = k req' w).
Proof.
  intros Hpre. revert req. induction Hpre as [|mw pre Hmw _ IH]; intros req.
  - right. exists req. split; [unfold same_identity; auto | reflexivity].
  - destruct Hmw as [->|[ch ->]].
    + destruct (decide (validation req = [])) as [Hv|Hv].
      * destruct (IH req) as [(res & Hst & Hk)|(req' & Hid & Hk)].
        -- left. exists res. split; [exact Hst |]. intros k. cbn.
           unfold handleValidationErrors. rewrite bool_decide_eq_true_2 by assumption.
           apply Hk.
        -- right. exists req'. split; [exact Hid |]. intros k. cbn.
           unfold handleValidationErrors. rewrite bool_decide_eq_true_2 by assumption.
           apply Hk.
      * left. eexists. split; [| intros k; cbn; unfold handleValidationErrors;
                                 rewrite bool_decide_eq_false_2 by assumption; reflexivity].
        reflexivity.
    + destruct (IH (apply_chain ch req)) as [(res & Hst & Hk)|(req' & Hid & Hk)].
      * left. exists res. split; [exact Hst |]. intros k. cbn. apply Hk.
      * right. exists req'. split.
        -- eapply same_identity_trans; [apply apply_chain_identity | exact Hid].
        -- intros k. cbn. apply Hk.
Qed.

Lemma token_mismatch_identity `{Jwt} req req' :
  same_identity req req' -> token_mismatch req -> token_mismatch req'.
Proof.
  intros (Hp & Ha & _) Hm t uid e n Hb Hv Hu. unfold path_id. rewrite Hp.
  rewrite Ha in Hb. exact (Hm t uid e n Hb Hv Hu).
Qed.

Section Gate.
Context `{SqlOrder} `{Bcrypt} `{Jwt}.

(** After [authenticateToken], a token that does not carry the id of the
    path never reaches what follows the gate. *)
Lemma auth_then_gate (h h' : Request -> Async Response) req w :
  token_mismatch req ->
  run_route authenticateAndOwnResource h req w
  = run_route authenticateAndOwnResource h' req w
  /\ status_of (run_route authenticateAndOwnResource h req w).1
     ∈ [None; Some 401; Some 403; Some 500].
Proof.
  intros Hmis. unfold authenticateAndOwnResource. cbn [run_route].
  destruct (authenticateToken req w) as [[e|[res|req']] w'] eqn:Eauth.
  - split; [reflexivity |]. cbn. set_solver.
  - split; [reflexivity |]. cbn.
    revert Eauth. unfold authenticateToken. run_all.
    all: intros; simplify_eq; cbn; set_solver.
  - assert (~ owner req') as Hno.
    { revert Eauth. unfold authenticateToken. run_all.
      all: intros; simplify_eq.
      all: unfold owner, token_id, path_id, set_user; cbn.
      all: intros (n & Hn & Hpath).
      all: match goal with
           | Hb : bearer_token _ = Some ?t, Hv : jwt_verify ?t = inr ?d |- _ =>
               destruct d as [uid em]; cbn in *; subst;
               exact (Hmis _ _ _ _ Hb Hv eq_refl Hpath)
           end. }
    rewrite (gate_forbids req' w' Hno). split; [reflexivity |]. cbn. set_solver.
Qed.

(** C9. [checkResourceOwnership] fails closed: a request whose
    authenticated id is absent, is not a number, or differs from the
    number read off the path parameter (itself possibly [NaN]) is
    answered 403 by the gate, in any world, so whether or not the target
    row exists, and the handler that follows is not run.  On every
    owner-only route (validation middlewares, then [authenticateToken],
    then the gate, then a handler) a request whose bearer token does not
    carry the id of the path gets the same answer whatever the handler
    is, and that answer is never a success: it is the 400 of the
    validation, the 401, 403 or 500 of the authentication, the 403 of the
    gate, or a rejected promise. *)
Theorem ownership_gate_fails_closed (req : Request) (w : World)
  (handler other : Request -> Async Response) (pre : list middleware) :
  (~ owner req ->
   run_route [checkResourceOwnership] handler req w = (inr forbidden, w)
   /\ status forbidden = 403)
  /\ (validation_only pre -> token_mismatch req ->
      run_route (pre ++ authenticateAndOwnResource) handler req w
      = run_route (pre ++ authenticateAndOwnResource) other req w
      /\ status_of (run_route (pre ++ authenticateAndOwnResource) handler req w).1
         ∈ [None; Some 400; Some 401; Some 403; Some 500]).
Proof.
  split.
  - intros Hno. cbn [run_route]. rewrite (gate_forbids req w Hno). split; reflexivity.
  - intros Hpre Hmis. rewrite !run_route_app.
    destruct (validation_outcome pre req w Hpre)
      as [(res & Hst & Hk)|(req' & Hid & Hk)]; rewrite !Hk.
    + split; [reflexivity |]. cbn. rewrite Hst. set_solver.
    + destruct (auth_then_gate handler other req' w
                  (token_mismatch_identity req req' Hid Hmis)) as [Heq Hin].
      split; [exact Heq |]. set_solver.
Qed.

End Gate.

(* ===================================================================== *)
(** ** The profile update *)
(* ===================================================================== *)

#[local] Transparent run_prepared.
Lemma run_update_by `{SqlOrder} tbl sets c ps vals v db :
  scalars ps = Some (vals ++ [v]) -> length vals = length sets ->
  run_prepared (Update tbl sets [CEq c]) ps db =
  Some (Header (Z.of_nat (length (List.filter (fun r : row => col_eqb c (col r c) v)
                                              (rows_of db tbl)))) 0,
        <[tbl := (fun r : row => if col_eqb c (col r c) v then set_columns sets vals r else r)
                   <$> rows_of db tbl]> db).
Proof.
  intros Hs Hl. unfold run_prepared. rewrite Hs. cbn [mbind option_bind run_scalar].
  rewrite <- Hl, drop_app_length, take_app_length. cbn [eval_where eval_cond mbind option_bind].
  cbn. rewrite length_app. 
  assert ((length vals <=? length vals + length [v])%nat = true) as -> by (apply Nat.leb_le; lia).
  rewrite filter_and_true. do 3 f_equal.
  apply list_fmap_ext. intros i r _. rewrite andb_true_r. reflexivity.
Qed.
#[local] Opaque run_prepared.

Lemma col_set_columns (cols : list string) (vals : list jsval) (r : row) (i : nat) c v :
  NoDup cols -> cols !! i = Some c -> vals !! i = Some v ->
  col (set_columns cols vals r) c = to_column c v.
Proof.
  intros Hnd. revert vals i. induction Hnd as [|c0 cols Hnotin Hnd IH]; intros vals i Hc Hv.
  - rewrite lookup_nil in Hc. discriminate.
  - destruct vals as [|v0 vals]; [rewrite lookup_nil in Hv; discriminate |].
    unfold set_columns. cbn [zip zip_with foldr]. fold (set_columns cols vals r).
    destruct i as [|i]; cbn in Hc, Hv.
    + simplify_eq. unfold col. rewrite lookup_insert_eq. reflexivity.
    + assert (c0 <> c) by (intros ->; apply Hnotin; eapply list_elem_of_lookup_2; eauto).
      unfold col. rewrite lookup_insert_ne by assumption. apply (IH vals i Hc Hv).
Qed.

Section Profile.
Context `{SqlOrder} `{Bcrypt} `{Jwt} `{ExpressValidator}.
Lemma updateUserInfo_ok req db fs s :
  quiet fs -> params req !! "id" = Some s -> s <> "" ->
  Forall (fun k => field req k <> JUndefined) mandatory_fields ->
  rows_with_id db (JStr s) <> [] ->
  let out := updateUserInfo req (fresh_world db fs) in
  status_of out.1 = Some 200
  /\ committed out.2 = <["surveyors" := update_row req (JStr s) <$> rows_of db "surveyors"]> db.
Proof.
  intros Hq Hid Hs Hdef Hrow out. subst out.
  unfold updateUserInfo, fresh_world, req_param.
  rewrite Hid; cbn [from_option]; rewrite (truthy_string s Hs); cbn [negb].
  unfold_monad; cbn; use_quiet Hq.
  unfold mandatory_fields in Hdef. rewrite !Forall_cons in Hdef. destruct_and!.
  rewrite has_undefined_false
    by (repeat (apply Forall_cons_2 || apply Forall_nil_2); try discriminate;
        intros [= E]; try contradiction; exact (js_or_null_defined _ E)).
  erewrite (run_update_by _ _ _ _ (profile_values req) (JStr s)) by reflexivity.
  cbn -[Z.of_nat]. unfold strict_eq. fold (rows_with_id db (JStr s)).
  destruct (rows_with_id db (JStr s)) as [|r rs] eqn:E; [congruence |].
  rewrite bool_decide_eq_false_2 by (intros [= Hz]; cbn [length] in Hz; lia).
  cbn. use_quiet Hq. cbn. split; reflexivity.
Qed.

Lemma updateUserInfo_undefined req db fs s :
  params req !! "id" = Some s -> s <> "" ->
  Exists (fun k => field req k = JUndefined) mandatory_fields ->
  let out := updateUserInfo req (fresh_world db fs) in
  committed out.2 = db /\ (quiet fs -> status_of out.1 = Some 500 /\ session out.2 = None).
Proof.
  intros Hid Hs Hex out. subst out.
  assert (has_undefined
            [PVal (field req "firstName"); PVal (field req "lastName");
             PVal (js_or (field req "companyName") JNull); PVal (field req "email");
             PVal (js_or (field req "phone") JNull); PVal (field req "address");
             PVal (field req "city"); PVal (field req "state"); PVal (field req "zipCode");
             PVal (JStr s)] = true) as Hu.
  { apply has_undefined_true. unfold mandatory_fields in Hex.
    rewrite !Exists_cons in Hex. rewrite Exists_nil in Hex.
    destruct_or!; try contradiction; rewrite Hex; set_solver. }
  unfold updateUserInfo, fresh_world, req_param.
  rewrite Hid; cbn [from_option]; rewrite (truthy_string s Hs); cbn [negb].
  unfold_monad; cbn. rewrite Hu.
  split.
  - repeat (break_match; cbn); reflexivity.
  - intros Hq. use_quiet Hq. cbn. split; reflexivity.
Qed.

Lemma profile_body_chains_optional :
  Forall (fun ch => chain_location ch = InBody -> chain_optional ch = true)
         profile_update_chains.
Proof.
  unfold profile_update_chains.
  repeat (apply Forall_cons_2; [cbn; first [discriminate | reflexivity | intros; reflexivity] |]).
  apply Forall_nil_2.
Qed.

Lemma profile_columns_distinct : NoDup profile_columns.
Proof.
  unfold profile_columns.
  repeat (apply NoDup_cons_2; [rewrite list_elem_of_In; cbn; intuition discriminate |]).
  apply NoDup_nil_2.
Qed.

(** C10.  The profile update, on a store that raises no fault, is one
    UPDATE of the nine columns whose bind list is read straight off the
    body, and every body chain of its validation is optional.  When the
    seven fields that are
    bound as they come are all present and the row exists, the call answers
    200 and each of the nine columns of the row holds the value bound for it;
    [companyName] and [phone] are bound as [|| null], so omitting one of
    them stores NULL in place of the previous value.  The other seven
    binds lack that default: when one of these fields is omitted the bind
    list holds [undefined], the driver refuses it, the handler rolls back
    and answers 500, and the row keeps every stored value. *)
Theorem profile_update_binds_nine_columns (req : Request) (db : Store) (fs : list bool)
  (s : string) :
  quiet fs -> params req !! "id" = Some s -> s <> "" ->
  let out := updateUserInfo req (fresh_world db fs) in
  Forall (fun ch => chain_location ch = InBody -> chain_optional ch = true)
         profile_update_chains
  /\ (Forall (fun k => field req k <> JUndefined) mandatory_fields ->
      rows_with_id db (JStr s) <> [] ->
      status_of out.1 = Some 200
      /\ committed out.2
         = <["surveyors" := update_row req (JStr s) <$> rows_of db "surveyors"]> db
      /\ forall r, r ∈ rows_with_id db (JStr s) ->
           (forall i c v, profile_columns !! i = Some c -> profile_values req !! i = Some v ->
              col (update_row req (JStr s) r) c = to_column c v)
           /\ (field req "companyName" = JUndefined ->
               col (update_row req (JStr s) r) "company_name" = JNull)
           /\ (field req "phone" = JUndefined ->
               col (update_row req (JStr s) r) "phone" = JNull))
  /\ (Exists (fun k => field req k = JUndefined) mandatory_fields ->
      status_of out.1 = Some 500 /\ committed out.2 = db /\ session out.2 = None).
Proof.
  intros Hq Hid Hs out. split; [exact profile_body_chains_optional |]. split.
  - intros Hdef Hrow.
    destruct (updateUserInfo_ok req db fs s Hq Hid Hs Hdef Hrow) as [Hst Hdb].
    split; [exact Hst |]. split; [exact Hdb |].
    intros r Hr. unfold rows_with_id in Hr. rewrite list_elem_of_In in Hr.
    apply List.filter_In in Hr as [_ Hr].
    unfold update_row. rewrite Hr.
    assert (forall i c v, profile_columns !! i = Some c -> profile_values req !! i = Some v ->
              col (set_columns profile_columns (profile_values req) r) c = to_column c v) as Hcols.
    { intros i c v. apply col_set_columns. exact profile_columns_distinct. }
    split; [exact Hcols |]. split; intros Hu.
    + rewrite (Hcols 2%nat "company_name" (js_or (field req "companyName") JNull))
        by reflexivity.
      rewrite Hu. reflexivity.
    + rewrite (Hcols 4%nat "phone" (js_or (field req "phone") JNull)) by reflexivity.
      rewrite Hu. reflexivity.
  - intros Hex.
    destruct (updateUserInfo_undefined req db fs s Hid Hs Hex) as [Hdb Hst].
    destruct (Hst Hq) as [H500 Hse]. repeat split; assumption.
Qed.

End Profile.

(* ===================================================================== *)
(** ** Further properties of the handlers and helpers *)
(* ===================================================================== *)

#[local] Transparent run_prepared.
Lemma rows_parameter_unprepared `{SqlOrder} q rs db :
  run_prepared q [PRows rs] db = None.
Proof. reflexivity. Qed.
#[local] Opaque run_prepared.

Section Further.
Context `{SqlOrder} `{Bcrypt} `{Jwt}.

(** A profile update for a path id that matches no surveyor row, on a
    store that raises no fault and with every bound field present: the
    UPDATE affects no row, the handler rolls back and answers 404, and the
    store is as before. *)
Theorem profile_update_unknown_user (req : Request) (db : Store) (fs : list bool)
  (s : string) :
  quiet fs -> params req !! "id" = Some s -> s <> "" ->
  Forall (fun k => field req k <> JUndefined) mandatory_fields ->
  rows_with_id db (JStr s) = [] ->
  status_of (updateUserInfo req (fresh_world db fs)).1 = Some 404
  /\ committed (updateUserInfo req (fresh_world db fs)).2 = db
  /\ session (updateUserInfo req (fresh_world db fs)).2 = None.
Proof.
  intros Hq Hid Hs Hdef Hrow.
  unfold updateUserInfo, fresh_world, req_param.
  rewrite Hid; cbn [from_option]; rewrite (truthy_string s Hs); cbn [negb].
  unfold_monad; cbn; use_quiet Hq.
  unfold mandatory_fields in Hdef. rewrite !Forall_cons in Hdef. destruct_and!.
  rewrite has_undefined_false
    by (repeat (apply Forall_cons_2 || apply Forall_nil_2); try discriminate;
        intros [= E]; try contradiction; exact (js_or_null_defined _ E)).
  erewrite (run_update_by _ _ _ _ (profile_values req) (JStr s)) by reflexivity.
  cbn -[Z.of_nat]. fold (rows_with_id db (JStr s)). rewrite Hrow.
  cbn [length Z.of_nat]. unfold strict_eq. rewrite bool_decide_eq_true_2 by reflexivity.
  cbn. use_quiet Hq. cbn. repeat split; reflexivity.
Qed.

(** [batchInsert] without records answers [{affectedRows: 0, insertId:
    null}] and leaves the world alone; with at least one record it never
    returns: its [VALUES ?] statement goes through [execute], which cannot
    expand an array of rows. *)
Theorem batchInsert_skips_or_rejects (table : string)
  (records : list (list (string * jsval))) (w : World) :
  batchInsert table None w = batchInsert table (Some []) w
  /\ batchInsert table (Some []) w
     = (inr (Some ({[ "affectedRows" := JNum 0; "insertId" := JNull ]} : row)), w)
  /\ (records <> [] -> exists e, (batchInsert table (Some records) w).1 = inl e).
Proof.
  split; [reflexivity |]. split; [reflexivity |].
  intros Hne. destruct records as [|first rest]; [congruence |].
  unfold batchInsert, executeQuery. unfold_monad. cbn.
  repeat (break_match; cbn); eauto.
  all: match goal with
       | E : run_prepared _ [PRows _] _ = Some _ |- _ =>
           rewrite rows_parameter_unprepared in E; discriminate
       end.
Qed.

(** The owner passes the gate: [checkResourceOwnership] calls [next()]
    with the request as it is, so the handler's answer is the route's. *)
Theorem owner_passes_gate (req : Request) (w : World)
  (handler : Request -> Async Response) :
  owner req -> run_route [checkResourceOwnership] handler req w = handler req w.
Proof.
  intros Ho. cbn [run_route]. rewrite (gate_admits req w Ho). reflexivity.
Qed.

End Further.

(* ===================================================================== *)
(** ** Operations that only read *)
(* ===================================================================== *)

#[local] Transparent run_prepared.

Lemma reads_only_keeps_store `{SqlOrder} q ps db r db' :
  reads_only q = true -> run_prepared q ps db = Some (r, db') -> db' = db.
Proof.
  unfold run_prepared. destruct (scalars ps) as [vs|]; [| discriminate].
  cbn [mbind option_bind].
  destruct q; try discriminate; intros _; cbn [run_scalar].
  - destruct (eval_where _ _) as [[p ps1]|]; [| discriminate]. cbn.
    destruct (window _ _ _); cbn; intros; simplify_eq; reflexivity.
  - destruct (eval_where _ _) as [[p ps1]|]; [| discriminate]. cbn.
    destruct (bool_decide _); intros; simplify_eq; reflexivity.
  - destruct (eval_where _ _) as [[p ps1]|]; [| discriminate]. cbn.
    destruct (bool_decide _); intros; simplify_eq; reflexivity.
  - destruct vs as [|u [|? ?]]; intros; simplify_eq; reflexivity.
  - destruct vs as [|u [|? ?]]; intros; simplify_eq; reflexivity.
Qed.

#[local] Opaque run_prepared.

(** The store of a reading statement that ran is the store it read. *)
Ltac reads_kept :=
  repeat match goal with
         | E : run_prepared ?q _ _ = Some (_, _) |- _ =>
             apply reads_only_keeps_store in E; [subst | first [reflexivity | assumption]]
         end.

Section Reads.
Context `{SqlOrder} `{Bcrypt} `{Jwt}.

(** The operations that only read (the lookups of [DatabaseService],
    [paginate], the login, the profile page and the two authentication
    middlewares) leave the store as it was and open no transaction,
    whatever the fault schedule; [batchInsert] is among them, because its
    statement never runs. *)
Theorem read_operations_keep_store (op : operation) (db : Store) (fs : list bool) :
  read_operation op = true ->
  committed (run_operation op (fresh_world db fs)) = db
  /\ session (run_operation op (fresh_world db fs)) = None.
Proof.
  destruct op; try discriminate; intros Hr; cbn [run_operation read_operation] in *.
  all: unfold findById, findByField, existsByField, paginate, batchInsert, loginUser,
         getUserProfile, authenticateToken, optionalAuth, executeQuery, fresh_world.
  all: run_all.
  all: reads_kept; cbn; auto.
Qed.

End Reads.

(* ===================================================================== *)
(** ** The authentication middlewares *)
(* ===================================================================== *)

Lemma selected_rows_exist `{SqlOrder} cols uid db r db' :
  run_prepared (Select cols "surveyors" [CEq "id"] None false) [PVal uid] db = Some (r, db') ->
  length (result_rows r) = length (rows_with_id db uid).
Proof.
  rewrite run_select_eq. intros [= <- _]. cbn [result_rows].
  rewrite length_fmap. reflexivity.
Qed.

Section AuthOutcomes.
Context `{SqlOrder} `{Jwt}.

(** [authenticateToken] never rejects.  Without a token (no header, or
    a header without a second word) it answers 401 and touches nothing.  It
    calls [next()] only with the identity of a token that verifies and
    whose user id has a row in [surveyors], the request being otherwise
    unchanged.  Every other outcome is an answer with status 401, 403 or
    500. *)
Theorem authenticateToken_outcomes (req : Request) (db : Store) (fs : list bool) :
  let out := authenticateToken req (fresh_world db fs) in
  (exists r, out.1 = inr r)
  /\ (bearer_token (authorization req) = None ->
      out = (inr (inl (code_response 401 "Access token required" "MISSING_TOKEN")),
             fresh_world db fs))
  /\ (forall req', out.1 = inr (inr req') ->
      exists t uid e,
        bearer_token (authorization req) = Some t /\ jwt_verify t = inr (uid, e)
        /\ req' = set_user req (uid, e) /\ rows_with_id db uid <> [])
  /\ (forall res, out.1 = inr (inl res) -> status res ∈ [401; 403; 500]).
Proof.
  cbv zeta. unfold authenticateToken, fresh_world. run_all.
  all: repeat split; eauto; try discriminate.
  all: intros; simplify_eq; cbn; try set_solver.
  all: match goal with
       | E : run_prepared _ _ _ = Some _ |- _ =>
           pose proof (selected_rows_exist _ _ _ _ _ E) as Hlen
       end.
  all: repeat match goal with p : (jsval * jsval)%type |- _ => destruct p end; cbn in *.
  all: do 3 eexists; split; [reflexivity |]; split; [eassumption |]; split; [reflexivity |].
  all: intros E; rewrite E in Hlen; cbn in Hlen; rewrite Hlen in *; discriminate.
Qed.

(** [optionalAuth] never answers and never rejects: it always calls
    [next()], whatever the header, the verifier and the fault schedule.
    The request goes on unchanged, or with the identity of a token that
    verifies and whose user id has a row in [surveyors]. *)
Theorem optionalAuth_never_blocks (req : Request) (db : Store) (fs : list bool) :
  exists req',
    (optionalAuth req (fresh_world db fs)).1 = inr (inr req')
    /\ (req' = req
        \/ exists t uid e,
             bearer_token (authorization req) = Some t /\ jwt_verify t = inr (uid, e)
             /\ req' = set_user req (uid, e) /\ rows_with_id db uid <> []).
Proof.
  unfold optionalAuth, fresh_world. run_all.
  all: eexists; split; [reflexivity |]; auto.
  all: match goal with
       | E : run_prepared _ _ _ = Some _ |- _ =>
           pose proof (selected_rows_exist _ _ _ _ _ E) as Hlen
       end.
  all: repeat match goal with p : (jsval * jsval)%type |- _ => destruct p end; cbn in *.
  all: right; do 3 eexists; split; [first [eassumption | reflexivity] |];
    split; [eassumption |]; split; [reflexivity |].
  all: intros E; rewrite E in Hlen; cbn in Hlen; rewrite Hlen in *; discriminate.
Qed.

End AuthOutcomes.

Lemma append_cons_r (cur : string) (a : ascii) (t : string) :
  (cur +:+ String a "") +:+ t = cur +:+ String a t.
Proof.
  induction cur as [|c cur IH]; [reflexivity |].
  change (String c ((cur +:+ String a "") +:+ t) = String c (cur +:+ String a t)).
  rewrite IH. reflexivity.
Qed.

Lemma append_nil_r (s : string) : s +:+ "" = s.
Proof.
  induction s as [|c s IH]; [reflexivity |].
  change (String c (s +:+ "") = String c s). rewrite IH. reflexivity.
Qed.

Lemma append_nil_l (s : string) : "" +:+ s = s.
Proof. reflexivity. Qed.

Lemma split_space_word (t cur : string) :
  spaceless t = true -> split_space t cur = [cur +:+ t].
Proof.
  revert cur. induction t as [|a t IH]; intros cur Ht; cbn in *.
  - rewrite append_nil_r. reflexivity.
  - apply andb_true_iff in Ht as [Ha Ht]. apply negb_true_iff in Ha. rewrite Ha.
    rewrite (IH _ Ht), append_cons_r. reflexivity.
Qed.

Lemma split_space_app (s r cur : string) :
  spaceless s = true ->
  split_space (s +:+ String " " r) cur = (cur +:+ s) :: split_space r "".
Proof.
  revert cur. induction s as [|a s IH]; intros cur Hs.
  - cbn. rewrite append_nil_r. reflexivity.
  - cbn in Hs. apply andb_true_iff in Hs as [Ha Hs]. apply negb_true_iff in Ha.
    change (String a s +:+ String " " r) with (String a (s +:+ String " " r)).
    cbn [split_space]. rewrite Ha.
    rewrite (IH _ Hs), append_cons_r. reflexivity.
Qed.

Lemma bearer_token_two_words (scheme t : string) :
  spaceless scheme = true -> spaceless t = true -> t <> "" ->
  bearer_token (Some (scheme +:+ " " +:+ t)) = Some t.
Proof.
  intros Hs Ht Hne. unfold bearer_token.
  assert (String.eqb (scheme +:+ String " " t) "" = false) as Hnonempty
    by (destruct scheme; reflexivity).
  change (" " +:+ t) with (String " " t). rewrite Hnonempty.
  rewrite split_space_app by assumption. rewrite split_space_word by assumption.
  cbn. rewrite !append_nil_l, (proj2 (String.eqb_neq t "")) by assumption. reflexivity.
Qed.

(** The token is the second space-separated word of the Authorization
    header, whatever the first word is: [Basic <token>] carries the same
    token as [Bearer <token>].  A header of one word, or with nothing
    between the first two spaces, carries none. *)
Theorem bearer_token_is_second_word (scheme t rest : string) :
  spaceless scheme = true -> spaceless t = true -> t <> "" ->
  bearer_token (Some (scheme +:+ " " +:+ t)) = Some t
  /\ bearer_token (Some (scheme +:+ " " +:+ t +:+ " " +:+ rest)) = Some t
  /\ bearer_token (Some scheme) = None
  /\ bearer_token (Some (scheme +:+ "  " +:+ rest)) = None.
Proof.
  intros Hs Ht Hne.
  assert (forall x, String.eqb (scheme +:+ String " " x) "" = false) as Hnonempty.
  { intros x. destruct scheme; reflexivity. }
  assert (String.eqb t "" = false) as Hte by (apply String.eqb_neq; assumption).
  unfold bearer_token. repeat split.
  - apply bearer_token_two_words; assumption.
  - change (" " +:+ t +:+ " " +:+ rest) with (String " " (t +:+ String " " rest)).
    rewrite Hnonempty. rewrite !split_space_app by assumption.
    cbn. rewrite !append_nil_l, Hte. reflexivity.
  - destruct (String.eqb scheme ""); [reflexivity |].
    rewrite split_space_word by assumption. reflexivity.
  - change ("  " +:+ rest) with (String " " ("" +:+ String " " rest)).
    rewrite Hnonempty. rewrite !split_space_app by first [assumption | reflexivity].
    reflexivity.
Qed.

(* ===================================================================== *)
(** ** Login, password change, deletion and registration *)
(* ===================================================================== *)

Lemma col_project (cols : list string) (r : row) (c : string) :
  c ∈ cols -> col (project cols r) c = col r c.
Proof.
  intros Hc. unfold project. case_bool_decide; [reflexivity |].
  unfold col at 1.
  assert (list_to_map ((fun c0 => (c0, col r c0)) <$> cols) !! c
          = Some (col r c) :> option jsval) as ->; [| reflexivity].
  clear -Hc. induction cols as [|c0 cols IH]; [set_solver |].
  cbn. destruct (decide (c0 = c)) as [->|Hne].
  - apply lookup_insert_eq.
  - rewrite lookup_insert_ne by assumption. apply IH. set_solver.
Qed.

Lemma head_fmap {A B} (f : A -> B) (l : list A) : head (f <$> l) = f <$> head l.
Proof. destruct l; reflexivity. Qed.

Section Login.
Context `{SqlOrder} `{Bcrypt} `{Jwt}.

Lemma expires_in_or :
  js_or (from_option JStr JUndefined JWT_EXPIRES_IN) (JStr "24h") = JStr expires_in.
Proof. unfold expires_in. destruct JWT_EXPIRES_IN as [[|a s]|]; reflexivity. Qed.

Lemma loginUser_result (req : Request) (db : Store) (fs : list bool) (p : string) :
  quiet fs -> truthy (field req "email") = true -> field req "password" = JStr p ->
  p <> "" ->
  (loginUser req (fresh_world db fs)).1 =
  match head (rows_with_email db (field req "email")) with
  | None => inr (mkResponse 401 "Invalid credentials: Email not found." [] [])
  | Some u =>
      match col u "password" with
      | JStr h =>
          if bcrypt_compare p h
          then inr (mkResponse 200 "Login successful!"
                      [("user.id", col u "id"); ("user.email", col u "email");
                       ("token", JStr (jwt_sign (col u "id") (col u "email")));
                       ("expiresIn", JStr expires_in)] [])
          else inr (mkResponse 401 "Invalid credentials: Incorrect password." [] [])
      | _ => inr (mkResponse 500 "Server error during login."
                    [("error", JStr "Illegal arguments")] [])
      end
  end.
Proof.
  intros Hq He Hp Hne. unfold loginUser, fresh_world.
  remember (field req "email") as email eqn:Hemail.
  rewrite He, Hp, (truthy_string p Hne). cbn [negb orb].
  unfold_monad; cbn; use_quiet Hq.
  rewrite has_undefined_false
    by (apply Forall_cons_2; [intros [= E]; rewrite E in He; discriminate
                             | apply Forall_nil_2]).
  rewrite run_select_eq. cbn. rewrite head_fmap.
  unfold rows_with_email.
  destruct (head (List.filter _ _)) as [u|]; cbn; [| reflexivity].
  rewrite !col_project by set_solver.
  destruct (col u "password"); cbn; try reflexivity.
  destruct (bcrypt_compare p s); [| reflexivity].
  cbn. rewrite expires_in_or. reflexivity.
Qed.

(** The login for an email and a text password, on a store that raises
    no fault, is decided by the first surveyor row with that email: no such
    row, 401 "Email not found"; a stored hash the password does not match,
    401 "Incorrect password"; a match, 200 with the row's id and email, the
    token signed for them, and [expiresIn]: the environment's
    [JWT_EXPIRES_IN] when it is set and not empty, ['24h'] otherwise. *)
Theorem login_decided_by_first_row (req : Request) (db : Store) (fs : list bool)
  (p : string) :
  quiet fs -> truthy (field req "email") = true -> field req "password" = JStr p ->
  p <> "" ->
  let out := loginUser req (fresh_world db fs) in
  let found := head (rows_with_email db (field req "email")) in
  (found = None ->
   out.1 = inr (mkResponse 401 "Invalid credentials: Email not found." [] []))
  /\ (forall u h, found = Some u -> col u "password" = JStr h ->
      bcrypt_compare p h = false ->
      out.1 = inr (mkResponse 401 "Invalid credentials: Incorrect password." [] []))
  /\ (forall u h, found = Some u -> col u "password" = JStr h ->
      bcrypt_compare p h = true ->
      out.1 = inr (mkResponse 200 "Login successful!"
                     [("user.id", col u "id"); ("user.email", col u "email");
                      ("token", JStr (jwt_sign (col u "id") (col u "email")));
                      ("expiresIn", JStr expires_in)] [])).
Proof.
  intros Hq He Hp Hne out found. subst out found.
  rewrite (loginUser_result req db fs p Hq He Hp Hne).
  split; [intros ->; reflexivity |].
  split; intros u h -> -> ->; reflexivity.
Qed.

End Login.

Lemma head_some_length {A} (l : list A) (x : A) :
  head l = Some x -> Z.of_nat (length l) <> 0.
Proof. destruct l; [discriminate | cbn; lia]. Qed.

Section Password.
Context `{SqlOrder} `{Bcrypt} `{Jwt}.

Lemma changeUserPassword_result (req : Request) (db : Store) (fs : list bool)
  (s cur new : string) :
  quiet fs -> params req !! "id" = Some s -> s <> "" ->
  field req "currentPassword" = JStr cur -> cur <> "" ->
  field req "newPassword" = JStr new -> new <> "" ->
  changeUserPassword req (fresh_world db fs) =
  match head (rows_with_id db (JStr s)) with
  | None =>
      (inr (mkResponse 404 "User not found." [] []),
       mkWorld db None (tail (tail (tail (tail fs))))
         [Call Release 0 true; Call Rollback 0 true; Call Execute 0 true;
          Call BeginTransaction 0 true; Call GetConnection 0 true] 1)
  | Some u =>
      match col u "password" with
      | JStr h =>
          if bcrypt_compare cur h then
            (inr (mkResponse 200 "Password updated successfully." [] []),
             mkWorld (<["surveyors" := set_password (JStr s) (bcrypt_hash new)
                                         <$> rows_of db "surveyors"]> db)
               None (tail (tail (tail (tail (tail fs)))))
               [Call Release 0 true; Call Commit 0 true; Call Execute 0 true;
                Call Execute 0 true; Call BeginTransaction 0 true;
                Call GetConnection 0 true] 1)
          else
            (inr (mkResponse 401 "Incorrect current password." [] []),
             mkWorld db None (tail (tail (tail (tail fs))))
               [Call Release 0 true; Call Rollback 0 true; Call Execute 0 true;
                Call BeginTransaction 0 true; Call GetConnection 0 true] 1)
      | _ => changeUserPassword req (fresh_world db fs)
      end
  end.
Proof.
  intros Hq Hid Hs Hcur Hcne Hnew Hnne.
  unfold rows_with_id.
  destruct (head (List.filter _ (rows_of db "surveyors"))) as [u|] eqn:Hhead.
  2:{ unfold changeUserPassword, fresh_world, req_param.
      rewrite Hid, Hcur, Hnew; cbn [from_option].
      rewrite !truthy_string by assumption. cbn [negb orb].
      unfold_monad; cbn; use_quiet Hq.
      rewrite (has_undefined_false [PVal (JStr s)]) by defined.
      rewrite run_select_eq. world_simpl. cbn [result_rows]. rewrite head_fmap, Hhead.
      cbn. use_quiet Hq. cbn. reflexivity. }
  destruct (col u "password") as [| | | |h] eqn:Hpw; try reflexivity.
  unfold changeUserPassword, fresh_world, req_param.
  rewrite Hid, Hcur, Hnew; cbn [from_option].
  rewrite !truthy_string by assumption. cbn [negb orb].
  unfold_monad; cbn; use_quiet Hq.
  rewrite (has_undefined_false [PVal (JStr s)]) by defined.
  rewrite run_select_eq. world_simpl. cbn [result_rows]. rewrite head_fmap, Hhead.
  cbn [fmap option_fmap option_map]. cbn iota beta.
  rewrite col_project by set_solver. rewrite Hpw. cbn.
  destruct (bcrypt_compare cur h); cbn.
  2:{ use_quiet Hq. cbn. reflexivity. }
  use_quiet Hq.
  rewrite (has_undefined_false [PVal (JStr (bcrypt_hash new)); PVal (JStr s)]) by defined.
  erewrite (run_update_by _ _ _ _ [JStr (bcrypt_hash new)] (JStr s)) by reflexivity.
  cbn -[Z.of_nat]. unfold strict_eq.
  rewrite bool_decide_eq_false_2.
  2:{ intros [= Hz]. apply (head_some_length _ _ Hhead). exact Hz. }
  cbn. use_quiet Hq. cbn. reflexivity.
Qed.


(** A password change (text passwords, store raising no fault) is
    decided by the first surveyor row with the path id: no such row, 404;
    a stored hash the current password does not match, 401; in both cases
    the store is as before.  On a match the answer is 200 and the rows with
    that id hold the hash of the new password, every other row and column
    being as before. *)
Theorem password_change_outcomes (req : Request) (db : Store) (fs : list bool)
  (s cur new : string) :
  quiet fs -> params req !! "id" = Some s -> s <> "" ->
  field req "currentPassword" = JStr cur -> cur <> "" ->
  field req "newPassword" = JStr new -> new <> "" ->
  let out := changeUserPassword req (fresh_world db fs) in
  let found := head (rows_with_id db (JStr s)) in
  (found = None -> status_of out.1 = Some 404 /\ committed out.2 = db)
  /\ (forall u h, found = Some u -> col u "password" = JStr h ->
      bcrypt_compare cur h = false ->
      status_of out.1 = Some 401 /\ committed out.2 = db)
  /\ (forall u h, found = Some u -> col u "password" = JStr h ->
      bcrypt_compare cur h = true ->
      status_of out.1 = Some 200
      /\ committed out.2
         = <["surveyors" := set_password (JStr s) (bcrypt_hash new)
                              <$> rows_of db "surveyors"]> db).
Proof.
  intros Hq Hid Hs Hcur Hcne Hnew Hnne out found. subst out found.
  rewrite (changeUserPassword_result req db fs s cur new) by assumption.
  split; [intros ->; split; reflexivity |].
  split; intros u h -> -> ->; split; reflexivity.
Qed.

Lemma filter_fmap {A B} (p : B -> bool) (f : A -> B) (l : list A) :
  List.filter p (f <$> l) = f <$> List.filter (fun x => p (f x)) l.
Proof.
  induction l as [|x l IH]; cbn; [reflexivity |].
  destruct (p (f x)); cbn; rewrite IH; reflexivity.
Qed.

Lemma head_filter_holds {A} (p : A -> bool) (l : list A) (x : A) :
  head (List.filter p l) = Some x -> p x = true.
Proof.
  induction l as [|y l IH]; cbn; [discriminate |].
  destruct (p y) eqn:E; cbn; [intros [= <-]; exact E | exact IH].
Qed.

(** The round trip of a password change: when the row that carries the
    path id is also the first row with the login email, and the hashing
    library accepts a password against its own hash, a login with the new
    password after a successful change answers 200. *)
Theorem password_change_then_login (req login : Request) (db : Store)
  (fs fs' : list bool) (s cur new e h : string) (u : row) :
  quiet fs -> quiet fs' -> params req !! "id" = Some s -> s <> "" ->
  field req "currentPassword" = JStr cur -> cur <> "" ->
  field req "newPassword" = JStr new -> new <> "" ->
  field login "email" = JStr e -> e <> "" -> field login "password" = JStr new ->
  head (rows_with_id db (JStr s)) = Some u ->
  head (rows_with_email db (JStr e)) = Some u ->
  col u "password" = JStr h -> bcrypt_compare cur h = true ->
  bcrypt_compare new (bcrypt_hash new) = true ->
  status_of (changeUserPassword req (fresh_world db fs)).1 = Some 200
  /\ status_of (loginUser login
                  (fresh_world (committed (changeUserPassword req (fresh_world db fs)).2)
                               fs')).1 = Some 200.
Proof.
  intros Hq Hq' Hid Hs Hcur Hcne Hnew Hnne Hle Hene Hlp Hbyid Hbyemail Hpw Hok Hlaw.
  rewrite (changeUserPassword_result req db fs s cur new) by assumption.
  rewrite Hbyid, Hpw, Hok. cbn [fst snd committed status_of status].
  split; [reflexivity |].
  set (after := <["surveyors" := set_password (JStr s) (bcrypt_hash new)
                                   <$> rows_of db "surveyors"]> db).
  assert (head (rows_with_email after (field login "email"))
          = Some (<["password" := JStr (bcrypt_hash new)]> u)) as Hfound.
  { rewrite Hle. unfold rows_with_email, after. rewrite rows_of_insert_eq, filter_fmap.
    rewrite (List.filter_ext _ (fun r : row => col_eqb "email" (col r "email") (JStr e))).
    2:{ intros r. unfold set_password. destruct (col_eqb "id" _ _); [| reflexivity].
        unfold col. rewrite lookup_insert_ne by discriminate. reflexivity. }
    fold (rows_with_email db (JStr e)). rewrite head_fmap, Hbyemail.
    cbn. unfold set_password.
    rewrite (head_filter_holds _ _ _ Hbyid). reflexivity. }
  assert (truthy (field login "email") = true) as Htruthy
    by (rewrite Hle; apply truthy_string; assumption).
  rewrite (loginUser_result login after fs' new Hq' Htruthy Hlp Hnne), Hfound.
  unfold col. rewrite lookup_insert_eq. cbn [default from_option id].
  rewrite Hlaw. reflexivity.
Qed.

End Password.

Lemma filter_neg_none {A} (p : A -> bool) (l : list A) :
  List.filter p (List.filter (fun x => negb (p x)) l) = [].
Proof.
  induction l as [|x l IH]; cbn; [reflexivity |].
  destruct (p x) eqn:E; cbn; [exact IH |]. rewrite E. exact IH.
Qed.

Section Deletion.
Context `{SqlOrder} `{Bcrypt} `{Jwt}.

Lemma deleteUser_result (req : Request) (db : Store) (fs : list bool) (s : string) :
  quiet fs -> params req !! "id" = Some s -> s <> "" ->
  let out := deleteUser req (fresh_world db fs) in
  match rows_with_id db (JStr s) with
  | [] => status_of out.1 = Some 404 /\ committed out.2 = db
  | _ :: _ => status_of out.1 = Some 200 /\ committed out.2 = without_account db s
  end
  /\ session out.2 = None.
Proof.
  intros Hq Hid Hs out. subst out.
  unfold deleteUser, fresh_world, req_param.
  rewrite Hid; cbn [from_option]; rewrite (truthy_string s Hs); cbn [negb].
  unfold_monad; cbn; use_quiet Hq.
  rewrite (has_undefined_false [PVal (JStr s)]) by defined.
  rewrite run_delete_eq. world_simpl. use_quiet Hq. cbn [fst snd].
  rewrite run_delete_eq. world_simpl. use_quiet Hq.
  rewrite run_delete_eq. world_simpl.
  rewrite !rows_of_insert_ne by discriminate.
  rewrite !kept_rows.
  fold (rows_with_id db (JStr s)). fold (rows_without_id db (JStr s)).
  fold (without_account db s).
  unfold strict_eq.
  destruct (rows_with_id db (JStr s)) as [|u us].
  - rewrite bool_decide_eq_true_2 by reflexivity. cbn. use_quiet Hq. cbn. auto.
  - rewrite bool_decide_eq_false_2 by (intros [= Hz]; cbn [length] in Hz; lia).
    cbn. use_quiet Hq. cbn. auto.
Qed.


(** An account deletion on a store that raises no fault.  When no
    surveyor row carries the path id the answer is 404 and the store is as
    before, although the two association DELETEs ran.  Otherwise the answer
    is 200, no row with that id is left, the user has no service and no
    county association left, and the other surveyors, the other users'
    associations and every other table are as before. *)
Theorem account_deletion_removes_user (req : Request) (db : Store) (fs : list bool)
  (s : string) :
  quiet fs -> params req !! "id" = Some s -> s <> "" ->
  let out := deleteUser req (fresh_world db fs) in
  let after := committed out.2 in
  (rows_with_id db (JStr s) = [] -> status_of out.1 = Some 404 /\ after = db)
  /\ (rows_with_id db (JStr s) <> [] ->
      status_of out.1 = Some 200
      /\ rows_with_id after (JStr s) = []
      /\ rows_of after "surveyors" = rows_without_id db (JStr s)
      /\ (forall a, associations_of after (assoc_table a) (sql_int s) = []
                    /\ forall u, u <> sql_int s ->
                         associations_of after (assoc_table a) u
                         = associations_of db (assoc_table a) u)
      /\ (forall t, t <> "surveyors" -> t <> "surveyors_services" ->
                    t <> "surveyors_counties" -> rows_of after t = rows_of db t)).
Proof.
  intros Hq Hid Hs out after.
  destruct (deleteUser_result req db fs s Hq Hid Hs) as [Hres _].
  fold out in Hres. fold after in Hres.
  split.
  - intros Hnone. rewrite Hnone in Hres. exact Hres.
  - intros Hsome. destruct (rows_with_id db (JStr s)) as [|u us]; [congruence |].
    destruct Hres as [Hst Hdb]. split; [exact Hst |]. rewrite Hdb.
    unfold without_account. repeat split.
    + unfold rows_with_id. rewrite rows_of_insert_eq. unfold rows_without_id.
      apply filter_neg_none.
    + apply rows_of_insert_eq.
    + unfold associations_of. rewrite rows_of_insert_ne by (destruct a; discriminate).
      destruct a; cbn [assoc_table].
      * rewrite rows_of_insert_ne, rows_of_insert_eq by discriminate.
        apply owned_none_kept.
      * rewrite rows_of_insert_eq. apply owned_none_kept.
    + intros v Hv. unfold associations_of.
      rewrite rows_of_insert_ne by (destruct a; discriminate).
      destruct a; cbn [assoc_table].
      * rewrite rows_of_insert_ne, rows_of_insert_eq by discriminate.
        apply owned_other_kept. assumption.
      * rewrite rows_of_insert_eq. apply owned_other_kept. assumption.
    + intros t H1' H2' H3'. rewrite !rows_of_insert_ne by congruence. reflexivity.
Qed.

End Deletion.

Lemma col_eqb_email_refl (e : string) : col_eqb "email" (JStr e) (JStr e) = true.
Proof. unfold col_eqb. cbn. apply bool_decide_eq_true_2. reflexivity. Qed.

Section RegisterDefaults.
Context `{SqlOrder} `{Bcrypt} `{Jwt}.

Lemma registerUser_with_defaults req db fs p :
  quiet fs -> registration_checks req = true ->
  field req "password" = JStr p -> field req "phone" <> JUndefined ->
  rows_with_email db (field req "email") = [] ->
  resolved db "counties" defaultCountyNames <> [] ->
  let out := registerUser req (fresh_world db fs) in
  let new := new_row "surveyors" (rows_of db "surveyors") registration_columns
                     (registration_values req p) in
  status_of out.1 = Some 201
  /\ committed out.2 =
     <["surveyors_counties" :=
         rows_of db "surveyors_counties"
         ++ (pair_row Counties new.2 <$> resolved db "counties" defaultCountyNames)]>
       (<["surveyors" := rows_of db "surveyors" ++ [new.1]]> db).
Proof.
  intros Hq Hc Hp Hph Hfree Hsome out new. subst out new.
  destruct (registration_checks_pass req Hc) as (Hc1 & Hc2 & Hdef).
  unfold registerUser, fresh_world. rewrite Hc1, Hc2.
  unfold_monad; cbn; use_quiet Hq.
  rewrite (has_undefined_false [PVal (field req "email")])
    by (constructor; [inversion Hdef; congruence | constructor]).
  rewrite run_select_eq. cbn. fold (rows_with_email db (field req "email")).
  rewrite Hfree. cbn. rewrite Hp. cbn.
  rewrite !Forall_cons in Hdef. destruct_and!.
  rewrite has_undefined_false
    by (repeat (apply Forall_cons_2 || apply Forall_nil_2); try discriminate;
        intros [= E]; try contradiction; exact (js_or_null_defined _ E)).
  use_quiet Hq.
  erewrite run_insert_row by reflexivity.
  fold registration_columns. fold (registration_values req p).
  cbn [insertId]. cbn iota beta.
  rewrite has_undefined_false by defined. use_quiet Hq.
  pose proof (run_select_names ["id"; "name"] "counties" "Boulder" ["Broomfield"; "Gilpin"])
    as E.
  cbn [length fmap list_fmap] in E. rewrite E. clear E.
  world_simpl.
  rewrite rows_of_insert_ne by discriminate.
  fold defaultCountyNames. cbn [result_rows].
  set (new := new_row "surveyors" (rows_of db "surveyors") registration_columns
                      (registration_values req p)).
  assert ((fun county : row => [JNum new.2; col county "id"])
            <$> (project ["id"; "name"]
                   <$> List.filter (named defaultCountyNames) (rows_of db "counties"))
          = (fun i => [JNum new.2; i]) <$> resolved db "counties" defaultCountyNames) as ->.
  { unfold resolved. rewrite <- !list_fmap_compose. apply list_fmap_ext.
    intros i r _. cbn. rewrite col_project by set_solver. reflexivity. }
  destruct (resolved db "counties" defaultCountyNames) as [|i ids] eqn:Hids; [congruence |].
  cbn [length fmap list_fmap Nat.ltb Nat.leb]. cbn iota beta. use_quiet Hq.
  change ([JNum new.2; i] :: ((fun i0 => [JNum new.2; i0]) <$> ids))
    with ((fun i0 => [JNum new.2; i0]) <$> (i :: ids)).
  rewrite run_values_pairs by (try discriminate; not_generated).
  world_simpl. rewrite rows_of_insert_ne by discriminate.
  clearbody new. cbn. use_quiet Hq. cbn. split; reflexivity.
Qed.


(** A registration that passes the handler's checks (text password,
    phone present, unused email, store raising no fault) while at least one
    of Boulder, Broomfield and Gilpin has a county row: the answer is 201,
    the new surveyor row gets the next id, and one county association
    (new id, county id) is appended for each default county found, in table
    order; nothing else changes. *)
Theorem registration_assigns_default_counties (req : Request) (db : Store)
  (fs : list bool) (p : string) :
  quiet fs -> registration_checks req = true ->
  field req "password" = JStr p -> field req "phone" <> JUndefined ->
  rows_with_email db (field req "email") = [] ->
  resolved db "counties" defaultCountyNames <> [] ->
  let out := registerUser req (fresh_world db fs) in
  let new := new_row "surveyors" (rows_of db "surveyors") registration_columns
                     (registration_values req p) in
  status_of out.1 = Some 201
  /\ new.2 = 1 + max_id (rows_of db "surveyors")
  /\ rows_of (committed out.2) "surveyors" = rows_of db "surveyors" ++ [new.1]
  /\ rows_of (committed out.2) "surveyors_counties"
     = rows_of db "surveyors_counties"
       ++ (pair_row Counties new.2 <$> resolved db "counties" defaultCountyNames)
  /\ (forall t, t <> "surveyors" -> t <> "surveyors_counties" ->
                rows_of (committed out.2) t = rows_of db t).
Proof.
  intros Hq Hc Hp Hph Hfree Hsome out new.
  destruct (registerUser_with_defaults req db fs p Hq Hc Hp Hph Hfree Hsome) as [Hst Hdb].
  fold out in Hst, Hdb. fold new in Hdb.
  split; [exact Hst |]. split; [reflexivity |]. rewrite Hdb. repeat split.
  - rewrite rows_of_insert_ne by discriminate. apply rows_of_insert_eq.
  - apply rows_of_insert_eq.
  - intros t Ht1 Ht2. rewrite !rows_of_insert_ne by congruence. reflexivity.
Qed.

Lemma registerUser_surveyors req db fs p :
  quiet fs -> registration_checks req = true ->
  field req "password" = JStr p -> field req "phone" <> JUndefined ->
  rows_with_email db (field req "email") = [] ->
  status_of (registerUser req (fresh_world db fs)).1 = Some 201
  /\ rows_of (committed (registerUser req (fresh_world db fs)).2) "surveyors"
     = rows_of db "surveyors"
       ++ [(new_row "surveyors" (rows_of db "surveyors") registration_columns
                    (registration_values req p)).1].
Proof.
  intros Hq Hc Hp Hph Hfree.
  destruct (resolved db "counties" defaultCountyNames) as [|i ids] eqn:Hids.
  - assert (no_default_county db) as Hnone.
    { unfold no_default_county. unfold resolved in Hids.
      destruct (List.filter _ _); [reflexivity | discriminate]. }
    destruct (registerUser_without_defaults req db fs p Hq Hc Hp Hph Hfree Hnone)
      as (Hst & Hdb & _).
    cbv zeta in Hst, Hdb. split; [exact Hst |]. rewrite Hdb. apply rows_of_insert_eq.
  - assert (resolved db "counties" defaultCountyNames <> []) as Hsome
      by (rewrite Hids; discriminate).
    destruct (registerUser_with_defaults req db fs p Hq Hc Hp Hph Hfree Hsome) as [Hst Hdb].
    cbv zeta in Hst, Hdb. split; [exact Hst |]. rewrite Hdb.
    rewrite rows_of_insert_ne by discriminate. apply rows_of_insert_eq.
Qed.

(** The round trip of a registration: after a successful registration
    with a text email, a login with the same email and password answers
    200 with the id the registration generated, provided the hashing
    library accepts a password against its own hash. *)
Theorem registration_then_login (req login : Request) (db : Store) (fs fs' : list bool)
  (e p : string) :
  quiet fs -> quiet fs' -> registration_checks req = true ->
  field req "email" = JStr e -> field req "password" = JStr p ->
  field req "phone" <> JUndefined ->
  rows_with_email db (JStr e) = [] ->
  field login "email" = JStr e -> field login "password" = JStr p ->
  bcrypt_compare p (bcrypt_hash p) = true ->
  let registered := registerUser req (fresh_world db fs) in
  let answer := (loginUser login (fresh_world (committed registered.2) fs')).1 in
  status_of registered.1 = Some 201
  /\ status_of answer = Some 200
  /\ (exists res, answer = inr res
        /\ In ("user.id", JNum (1 + max_id (rows_of db "surveyors"))) (properties res)
        /\ In ("user.email", JStr e) (properties res)).
Proof.
  intros Hq Hq' Hc He Hp Hph Hfree Hle Hlp Hlaw registered answer.
  assert (rows_with_email db (field req "email") = []) as Hfree' by (rewrite He; exact Hfree).
  destruct (registerUser_surveyors req db fs p Hq Hc Hp Hph Hfree') as [Hst Hrows].
  fold registered in Hst, Hrows.
  split; [exact Hst |].
  assert (e <> "" /\ p <> "") as [Hene Hpne].
  { pose proof Hc as Hall. unfold registration_checks in Hall.
    apply andb_true_iff in Hall as [Hall _].
    pose proof (proj1 (forallb_forall _ _) Hall) as Htr.
    split.
    - pose proof (Htr "email" ltac:(cbn; auto)) as Ht. cbv beta in Ht. rewrite He in Ht.
      intros ->. discriminate.
    - pose proof (Htr "password" ltac:(cbn; auto)) as Ht. cbv beta in Ht. rewrite Hp in Ht.
      intros ->. discriminate. }
  set (new := (new_row "surveyors" (rows_of db "surveyors") registration_columns
                       (registration_values req p)).1) in *.
  assert (col new "email" = JStr e /\ col new "password" = JStr (bcrypt_hash p)
          /\ col new "id" = JNum (1 + max_id (rows_of db "surveyors"))) as (Hce & Hcp & Hci).
  { subst new. unfold registration_values. rewrite He. repeat split; reflexivity. }
  clearbody new.
  assert (head (rows_with_email (committed registered.2) (field login "email")) = Some new)
    as Hfound.
  { rewrite Hle. unfold rows_with_email. rewrite Hrows, List.filter_app.
    fold (rows_with_email db (JStr e)). rewrite Hfree. cbn [List.filter app].
    rewrite Hce, col_eqb_email_refl. reflexivity. }
  assert (truthy (field login "email") = true) as Htruthy
    by (rewrite Hle; apply truthy_string; assumption).
  subst answer.
  rewrite (loginUser_result login _ fs' p Hq' Htruthy Hlp Hpne), Hfound, Hcp, Hlaw, Hci, Hce.
  split; [reflexivity |]. eexists. split; [reflexivity |]. cbn. auto.
Qed.

End RegisterDefaults.

Section RegisterPhone.
Context `{SqlOrder} `{Bcrypt} `{Jwt} `{ExpressValidator}.

(** The validation of a registration leaves [phone] optional, but the
    handler binds it as it comes: a registration without [phone] that
    passes every check, for an unused email and on a store that raises no
    fault, is refused by the driver at the INSERT, rolled back and answered
    500; no row is created. *)
Theorem registration_without_phone_fails (req : Request) (db : Store) (fs : list bool)
  (p : string) :
  quiet fs -> registration_checks req = true -> field req "password" = JStr p ->
  rows_with_email db (field req "email") = [] ->
  field req "phone" = JUndefined ->
  chain_optional phone_chain = true
  /\ In phone_chain registration_chains
  /\ status_of (registerUser req (fresh_world db fs)).1 = Some 500
  /\ committed (registerUser req (fresh_world db fs)).2 = db
  /\ session (registerUser req (fresh_world db fs)).2 = None.
Proof.
  intros Hq Hc Hp Hfree Hph.
  split; [reflexivity |]. split; [cbn; auto 10 |].
  destruct (registration_checks_pass req Hc) as (Hc1 & Hc2 & Hdef).
  unfold registerUser, fresh_world. rewrite Hc1, Hc2.
  unfold_monad; cbn; use_quiet Hq.
  rewrite (has_undefined_false [PVal (field req "email")])
    by (constructor; [inversion Hdef; congruence | constructor]).
  rewrite run_select_eq. cbn. fold (rows_with_email db (field req "email")).
  rewrite Hfree. cbn. rewrite Hp. cbn. rewrite Hph.
  rewrite has_undefined_true by set_solver.
  cbn. use_quiet Hq. cbn. repeat split.
Qed.

End RegisterPhone.

(* ===================================================================== *)
(** ** The profile page and the round trips through it *)
(* ===================================================================== *)

#[local] Transparent run_prepared.
Lemma run_user_counties `{SqlOrder} (u : jsval) (db : Store) :
  exists rs,
    run_prepared SelectUserCounties [PVal u] db = Some (Rows rs, db)
    /\ (fun r : row => col r "county_name") <$> rs ≡ₚ linked_counties db u.
Proof.
  eexists. split; [reflexivity |].
  rewrite order_by_perm. unfold linked_counties.
  induction (rows_of db "counties") as [|c cs IH]; [reflexivity |].
  cbn [mbind list_bind]. rewrite fmap_app. apply Permutation_app; [| exact IH].
  induction (List.filter _ _) as [|sc scs IH2]; [reflexivity |].
  cbn. constructor. exact IH2.
Qed.

Lemma run_user_subservices `{SqlOrder} (u : jsval) (db : Store) :
  exists rs,
    run_prepared SelectUserSubservices [PVal u] db = Some (Rows rs, db)
    /\ (fun r : row => col r "subservice_name") <$> rs ≡ₚ linked_subservices db u.
Proof.
  eexists. split; [reflexivity |].
  rewrite order_by_perm. unfold linked_subservices.
  induction (List.filter _ (rows_of db "surveyors_services")) as [|ss sss IH]; [reflexivity |].
  cbn [mbind list_bind]. rewrite fmap_app. apply Permutation_app; [| exact IH].
  induction (List.filter _ (rows_of db "service_subcategories")) as [|ssc sscs IH2];
    [reflexivity |].
  cbn [mbind list_bind]. rewrite fmap_app. apply Permutation_app; [| exact IH2].
  induction (List.filter _ (rows_of db "service_categories")) as [|sc scs IH3];
    [reflexivity |].
  cbn. constructor. exact IH3.
Qed.
#[local] Opaque run_prepared.

Section ProfilePage.
Context `{SqlOrder} `{Bcrypt} `{Jwt}.

Lemma getUserProfile_found (req : Request) (db : Store) (fs : list bool) (s : string)
  (u : row) :
  quiet fs -> params req !! "id" = Some s -> s <> "" ->
  head (rows_with_id db (JStr s)) = Some u ->
  exists res,
    (getUserProfile req (fresh_world db fs)).1 = inr res /\ status res = 200
    /\ properties res = (fun k => (k, col u k)) <$> page_columns
    /\ array_property res "counties_provided" ≡ₚ linked_counties db (JStr s)
    /\ array_property res "subservices_provided" ≡ₚ linked_subservices db (JStr s).
Proof.
  intros Hq Hid Hs Hu.
  unfold getUserProfile, fresh_world, req_param.
  rewrite Hid; cbn [from_option]; rewrite (truthy_string s Hs); cbn [negb].
  unfold_monad; cbn; use_quiet Hq.
  rewrite (has_undefined_false [PVal (JStr s)]) by defined.
  rewrite run_select_eq. world_simpl. cbn [result_rows]. rewrite head_fmap.
  fold (rows_with_id db (JStr s)). rewrite Hu.
  cbn [fmap option_fmap option_map]. cbn iota beta. use_quiet Hq.
  destruct (run_user_subservices (JStr s) db) as (subs & Esubs & Psubs).
  destruct (run_user_counties (JStr s) db) as (cs & Ecs & Pcs).
  world_simpl. rewrite Esubs. world_simpl. cbn iota beta. use_quiet Hq.
  unfold write. world_simpl. rewrite Ecs.
  cbn -[distinct page_columns].
  eexists. split; [reflexivity |]. cbn [status properties].
  split; [reflexivity |]. split; [| split; assumption].
  unfold page_columns. cbn [fmap list_fmap]. rewrite !col_project by set_solver.
  reflexivity.
Qed.

Lemma getUserProfile_missing (req : Request) (db : Store) (fs : list bool) (s : string) :
  quiet fs -> params req !! "id" = Some s -> s <> "" ->
  rows_with_id db (JStr s) = [] ->
  (getUserProfile req (fresh_world db fs)).1 = inr (mkResponse 404 "User not found." [] []).
Proof.
  intros Hq Hid Hs Hu.
  unfold getUserProfile, fresh_world, req_param.
  rewrite Hid; cbn [from_option]; rewrite (truthy_string s Hs); cbn [negb].
  unfold_monad; cbn; use_quiet Hq.
  rewrite (has_undefined_false [PVal (JStr s)]) by defined.
  rewrite run_select_eq. world_simpl. cbn [result_rows]. rewrite head_fmap.
  fold (rows_with_id db (JStr s)). rewrite Hu. reflexivity.
Qed.

(** The profile page on a store that raises no fault.  Without a
    surveyor row for the path id the answer is 404.  Otherwise it is 200;
    its scalar properties are the ten profile columns of the first row with
    that id, the stored password hash not being among them; its
    [counties_provided] are the names of the counties linked to the user and
    its [subservices_provided] the names of the linked subcategories, each
    in the order the store chose. *)
Theorem profile_page_content (req : Request) (db : Store) (fs : list bool) (s : string) :
  quiet fs -> params req !! "id" = Some s -> s <> "" ->
  let out := getUserProfile req (fresh_world db fs) in
  (rows_with_id db (JStr s) = [] ->
   out.1 = inr (mkResponse 404 "User not found." [] []))
  /\ (forall u, head (rows_with_id db (JStr s)) = Some u ->
      exists res,
        out.1 = inr res /\ status res = 200
        /\ properties res = (fun k => (k, col u k)) <$> page_columns
        /\ ~ In "password" (fst <$> properties res)
        /\ array_property res "counties_provided" ≡ₚ linked_counties db (JStr s)
        /\ array_property res "subservices_provided" ≡ₚ linked_subservices db (JStr s)).
Proof.
  intros Hq Hid Hs out. subst out. split.
  - apply getUserProfile_missing; assumption.
  - intros u Hu.
    destruct (getUserProfile_found req db fs s u Hq Hid Hs Hu)
      as (res & Hres & Hst & Hprops & Hc & Hsub).
    exists res. repeat (split; [assumption |]). split; [| split; assumption].
    rewrite Hprops. cbn. intuition discriminate.
Qed.

End ProfilePage.

Lemma col_set_columns_other (cols : list string) (vals : list jsval) (r : row) (c : string) :
  ~ In c cols -> col (set_columns cols vals r) c = col r c.
Proof.
  revert vals. induction cols as [|c0 cols IH]; intros vals Hc; [reflexivity |].
  destruct vals as [|v vals]; [reflexivity |].
  unfold set_columns. cbn [zip zip_with foldr]. fold (set_columns cols vals r).
  unfold col. rewrite lookup_insert_ne by (intros ->; apply Hc; left; reflexivity).
  apply IH. intros Hin. apply Hc. right. exact Hin.
Qed.

Section UpdateThenPage.
Context `{SqlOrder} `{Bcrypt} `{Jwt}.

(** The round trip of a profile update: after a successful update of
    the user with path id [s], the profile page of [s] shows, for each of
    the nine profile columns, the value the update bound for it, and the id
    of the row as before. *)
Theorem profile_update_then_page (req page : Request) (db : Store) (fs fs' : list bool)
  (s : string) (u : row) :
  quiet fs -> quiet fs' -> params req !! "id" = Some s -> params page !! "id" = Some s ->
  s <> "" -> Forall (fun k => field req k <> JUndefined) mandatory_fields ->
  head (rows_with_id db (JStr s)) = Some u ->
  let updated := updateUserInfo req (fresh_world db fs) in
  status_of updated.1 = Some 200
  /\ exists res,
       (getUserProfile page (fresh_world (committed updated.2) fs')).1 = inr res
       /\ status res = 200
       /\ In ("id", col u "id") (properties res)
       /\ forall i c v, profile_columns !! i = Some c -> profile_values req !! i = Some v ->
                        In (c, to_column c v) (properties res).
Proof.
  intros Hq Hq' Hid Hid' Hs Hdef Hu updated. subst updated.
  assert (rows_with_id db (JStr s) <> []) as Hne
    by (intros E; rewrite E in Hu; discriminate).
  destruct (updateUserInfo_ok req db fs s Hq Hid Hs Hdef Hne) as [Hst Hdb].
  cbv zeta in Hst, Hdb. split; [exact Hst |]. rewrite Hdb.
  set (after := <["surveyors" := update_row req (JStr s) <$> rows_of db "surveyors"]> db).
  assert (forall r : row, col (update_row req (JStr s) r) "id" = col r "id") as Hkeep.
  { intros r. unfold update_row. destruct (col_eqb _ _ _); [| reflexivity].
    apply col_set_columns_other. cbn. intuition discriminate. }
  assert (head (rows_with_id after (JStr s))
          = Some (set_columns profile_columns (profile_values req) u)) as Hfound.
  { unfold rows_with_id, after. rewrite rows_of_insert_eq, filter_fmap.
    rewrite (List.filter_ext _ (fun r : row => col_eqb "id" (col r "id") (JStr s)))
      by (intros r; rewrite Hkeep; reflexivity).
    fold (rows_with_id db (JStr s)). rewrite head_fmap, Hu. cbn.
    unfold update_row. rewrite (head_filter_holds _ _ _ Hu). reflexivity. }
  destruct (getUserProfile_found page after fs' s _ Hq' Hid' Hs Hfound)
    as (res & Hres & Hstatus & Hprops & _).
  exists res. split; [exact Hres |]. split; [exact Hstatus |]. rewrite Hprops. split.
  - apply in_map_iff. exists "id". split; [| cbn; auto].
    f_equal. apply col_set_columns_other. cbn. intuition discriminate.
  - intros i c v Hc Hv. apply in_map_iff. exists c. split.
    + f_equal. apply (col_set_columns _ _ _ i); [exact profile_columns_distinct | | ];
        assumption.
    + apply list_elem_of_lookup_2 in Hc. rewrite list_elem_of_In in Hc.
      unfold profile_columns in Hc. unfold page_columns. cbn in *. intuition.
Qed.

End UpdateThenPage.

Lemma in_linked_counties (db : Store) (u x : jsval) :
  In x (linked_counties db u) <->
  exists c sc, In c (rows_of db "counties") /\ In sc (rows_of db "surveyors_counties")
               /\ col_eqb "county_id" (col sc "county_id") (col c "id") = true
               /\ col_eqb "surveyor_id" (col sc "surveyor_id") u = true
               /\ x = col c "name".
Proof.
  unfold linked_counties. rewrite <- list_elem_of_In, list_elem_of_bind. split.
  - intros (c & Hx & Hc). apply list_elem_of_bind in Hx as (sc & Hx & Hsc).
    apply list_elem_of_In, List.filter_In in Hsc as [Hsc Htest].
    apply andb_true_iff in Htest as [H1 H2].
    apply list_elem_of_In in Hc. exists c, sc. repeat split; try assumption.
    set_solver.
  - intros (c & sc & Hc & Hsc & H1 & H2 & ->). exists c. split.
    + apply list_elem_of_bind. exists sc. split; [set_solver |].
      apply list_elem_of_In, List.filter_In. split; [assumption |].
      rewrite H1, H2. reflexivity.
    + apply list_elem_of_In. assumption.
Qed.

Section AreasThenPage.
Context `{SqlOrder} `{Bcrypt} `{Jwt}.

(** The round trip of a service-area update: when the ids of the
    [counties] table are numbers that identify its rows, the profile page
    read after a successful replace shows as [counties_provided] exactly the
    names of the county rows whose name was in the request; unknown names
    do not appear, and the counties linked before are gone. *)
Theorem areas_update_then_page (req page : Request) (db : Store) (fs fs' : list bool)
  (s : string) (u : row) (x : jsval) :
  quiet fs -> quiet fs' -> params req !! "id" = Some s -> params page !! "id" = Some s ->
  s <> "" -> head (rows_with_id db (JStr s)) = Some u ->
  keyed_by_id (rows_of db "counties") ->
  let names := default [] (array_field req "counties") in
  let after := committed (updateUserServiceAreas req (fresh_world db fs)).2 in
  exists res,
    (getUserProfile page (fresh_world after fs')).1 = inr res /\ status res = 200
    /\ (In x (array_property res "counties_provided") <->
        exists c, In c (rows_of db "counties") /\ named names c = true
                  /\ x = col c "name").
Proof.
  intros Hq Hq' Hid Hid' Hs Hu [Hnum Hkey] names after.
  destruct (replace_associations_store Counties req db fs s Hq Hid Hs) as [_ Hdb].
  cbn [replace_associations assoc_table ref_table names_field] in Hdb.
  fold names in Hdb. fold after in Hdb.
  assert (rows_of after "surveyors" = rows_of db "surveyors") as Hsurv
    by (rewrite Hdb; apply rows_of_insert_ne; discriminate).
  assert (rows_of after "counties" = rows_of db "counties") as Hcounties
    by (rewrite Hdb; apply rows_of_insert_ne; discriminate).
  assert (head (rows_with_id after (JStr s)) = Some u) as Hu'
    by (unfold rows_with_id in *; rewrite Hsurv; exact Hu).
  destruct (getUserProfile_found page after fs' s u Hq' Hid' Hs Hu')
    as (res & Hres & Hst & _ & Hperm & _).
  exists res. split; [exact Hres |]. split; [exact Hst |].
  rewrite <- list_elem_of_In, Hperm, list_elem_of_In, in_linked_counties, Hcounties.
  assert (rows_of after "surveyors_counties"
          = List.filter (fun r => negb (owned_by (sql_int s) r)) (rows_of db "surveyors_counties")
            ++ (pair_row Counties (sql_int s) <$> resolved db "counties" names)) as ->
    by (rewrite Hdb; apply rows_of_insert_eq).
  split.
  - intros (c & sc & Hc & Hsc & Ht1 & Ht2 & ->). exists c. split; [exact Hc |].
    split; [| reflexivity].
    rewrite col_eqb_surveyor in Ht2. apply bool_decide_eq_true_1 in Ht2.
    apply in_app_iff in Hsc as [Hkept | Hpair].
    + apply List.filter_In in Hkept as [_ Hnot]. unfold owned_by in Hnot.
      rewrite bool_decide_eq_true_2 in Hnot by assumption. discriminate.
    + apply in_map_iff in Hpair as (i & <- & Hi). unfold resolved in Hi.
      apply in_map_iff in Hi as (c' & <- & Hc').
      apply List.filter_In in Hc' as [Hc' Hnamed].
      destruct (Hnum c Hc) as (n & Hn). destruct (Hnum c' Hc') as (n' & Hn').
      unfold pair_row, col at 1 in Ht1. cbn [ref_column] in Ht1.
      rewrite lookup_insert_ne, lookup_singleton_eq in Ht1 by discriminate.
      cbn [default from_option id] in Ht1. rewrite Hn, Hn' in Ht1.
      unfold col_eqb in Ht1. cbn in Ht1. apply bool_decide_eq_true_1 in Ht1.
      assert (c = c') as -> by (apply Hkey; try assumption; congruence).
      exact Hnamed.
  - intros (c & Hc & Hnamed & ->).
    exists c, (pair_row Counties (sql_int s) (col c "id")).
    split; [exact Hc |]. split.
    { apply in_app_iff. right. apply in_map. unfold resolved.
      apply (in_map (fun r : row => col r "id")). apply List.filter_In. split; assumption. }
    destruct (Hnum c Hc) as (n & Hn). rewrite Hn.
    split; [| split; [| reflexivity]].
    + unfold pair_row, col. cbn [ref_column].
      rewrite lookup_insert_ne, lookup_singleton_eq by discriminate.
      unfold col_eqb. cbn. apply bool_decide_eq_true_2. reflexivity.
    + rewrite col_eqb_surveyor. apply bool_decide_eq_true_2.
      unfold pair_row, col. rewrite lookup_insert_eq. reflexivity.
Qed.

End AreasThenPage.

Lemma col_eqb_id_text (stored : jsval) (s : string) :
  col_eqb "id" stored (JStr s) = col_eqb "id" stored (JNum (sql_int s)).
Proof. reflexivity. Qed.

Lemma filter_none {A} (p : A -> bool) (l : list A) :
  (forall x, In x l -> p x = false) -> List.filter p l = [].
Proof.
  induction l as [|x l IH]; intros Hall; cbn; [reflexivity |].
  rewrite (Hall x) by (left; reflexivity). apply IH. intros y Hy. apply Hall. right. exact Hy.
Qed.

Section LockedOut.
Context `{SqlOrder} `{Bcrypt} `{Jwt}.

(** After a successful account deletion the account is locked out: a
    token that verifies for the deleted id is answered 401 "User not found"
    by [authenticateToken], and, when every row with the login email carried
    that id, a login with that email is answered 401 "Email not found". *)
Theorem deleted_account_is_locked_out (del req login : Request) (db : Store)
  (fs fs' fs'' : list bool) (s tok p : string) (e : jsval) :
  quiet fs -> quiet fs' -> quiet fs'' ->
  params del !! "id" = Some s -> s <> "" -> rows_with_id db (JStr s) <> [] ->
  bearer_token (authorization req) = Some tok ->
  jwt_verify tok = inr (JNum (sql_int s), e) ->
  truthy (field login "email") = true -> field login "password" = JStr p -> p <> "" ->
  let deleted := deleteUser del (fresh_world db fs) in
  status_of deleted.1 = Some 200
  /\ (authenticateToken req (fresh_world (committed deleted.2) fs')).1
     = inr (inl (code_response 401 "User not found" "USER_NOT_FOUND"))
  /\ ((forall r, In r (rows_with_email db (field login "email")) ->
                 col_eqb "id" (col r "id") (JStr s) = true) ->
      (loginUser login (fresh_world (committed deleted.2) fs'')).1
      = inr (mkResponse 401 "Invalid credentials: Email not found." [] [])).
Proof.
  intros Hq Hq' Hq'' Hid Hs Hrow Htok Hver He Hp Hpne deleted. subst deleted.
  destruct (deleteUser_result del db fs s Hq Hid Hs) as [Hres _]. cbv zeta in Hres.
  destruct (rows_with_id db (JStr s)) as [|u us] eqn:Hrows; [congruence |].
  destruct Hres as [Hst Hdb]. split; [exact Hst |]. rewrite Hdb.
  assert (rows_of (without_account db s) "surveyors" = rows_without_id db (JStr s)) as Hsurv
    by (unfold without_account; apply rows_of_insert_eq).
  split.
  - unfold authenticateToken, fresh_world. rewrite Htok, Hver.
    unfold_monad; cbn; use_quiet Hq'.
    rewrite (has_undefined_false [PVal (JNum (sql_int s))]) by defined.
    rewrite run_select_eq. world_simpl. cbn [result_rows]. rewrite length_fmap.
    rewrite Hsurv. unfold rows_without_id.
    rewrite (List.filter_ext _ (fun r : row => col_eqb "id" (col r "id") (JStr s)))
      by reflexivity.
    rewrite filter_neg_none. reflexivity.
  - intros Hall.
    rewrite (loginUser_result login _ fs'' p Hq'' He Hp Hpne).
    unfold rows_with_email. rewrite Hsurv. unfold rows_without_id.
    rewrite filter_none; [reflexivity |].
    intros r Hr. apply List.filter_In in Hr as [Hin Hnot].
    destruct (col_eqb "email" (col r "email") (field login "email")) eqn:Hemail;
      [| reflexivity].
    rewrite (Hall r) in Hnot; [discriminate |].
    unfold rows_with_email. apply List.filter_In. split; assumption.
Qed.

End LockedOut.

Lemma col_eqb_id_refl (n : Z) : col_eqb "id" (JNum n) (JNum n) = true.
Proof. unfold col_eqb. cbn. apply bool_decide_eq_true_2. reflexivity. Qed.

Lemma head_in_filter {A} (p : A -> bool) (l : list A) (x : A) :
  head (List.filter p l) = Some x -> In x l.
Proof.
  induction l as [|y l IH]; cbn; [discriminate |].
  destruct (p y); cbn; [intros [= <-]; auto | auto].
Qed.

Section TokenRoundTrip.
Context `{SqlOrder} `{Bcrypt} `{Jwt}.

Lemma verified_owner_passes (req : Request) (handler : Request -> Async Response)
  (db : Store) (fs : list bool) (tok s : string) (n : Z) (e : jsval) :
  quiet fs -> bearer_token (authorization req) = Some tok ->
  jwt_verify tok = inr (JNum n, e) -> rows_with_id db (JNum n) <> [] ->
  params req !! "id" = Some s -> parseInt s = Some n ->
  run_route authenticateAndOwnResource handler req (fresh_world db fs)
  = handler (set_user req (JNum n, e))
      (mkWorld db None (tail (tail fs))
         [Call Release 0 true; Call Execute 0 true; Call GetConnection 0 true] 1).
Proof.
  intros Hq Htok Hver Hrow Hid Hparse.
  unfold authenticateAndOwnResource. cbn [run_route].
  assert (authenticateToken req (fresh_world db fs)
          = (inr (inr (set_user req (JNum n, e))),
             mkWorld db None (tail (tail fs))
               [Call Release 0 true; Call Execute 0 true; Call GetConnection 0 true] 1))
    as ->.
  { unfold authenticateToken, fresh_world. rewrite Htok, Hver.
    unfold_monad; cbn; use_quiet Hq.
    rewrite (has_undefined_false [PVal (JNum n)]) by defined.
    rewrite run_select_eq. world_simpl. cbn [result_rows]. rewrite length_fmap.
    fold (rows_with_id db (JNum n)).
    destruct (rows_with_id db (JNum n)) as [|r rs]; [congruence |]. reflexivity. }
  rewrite gate_admits; [reflexivity |].
  exists n. unfold token_id, path_id, set_user. cbn. rewrite Hid. auto.
Qed.

(** The round trip of a token: after a successful login of the user
    with id [n], a request that carries the token of the answer as
    [Bearer <token>] and the path id [n] passes [authenticateToken] and
    [checkResourceOwnership] and reaches the handler with that identity
    attached, the store unchanged; provided the token library verifies what
    it signed and a token holds no space. *)
Theorem login_token_opens_own_resources (login req : Request)
  (handler : Request -> Async Response) (db : Store) (fs fs' : list bool)
  (p h tok s : string) (u : row) (n : Z) :
  quiet fs -> quiet fs' ->
  truthy (field login "email") = true -> field login "password" = JStr p -> p <> "" ->
  head (rows_with_email db (field login "email")) = Some u ->
  col u "password" = JStr h -> bcrypt_compare p h = true -> col u "id" = JNum n ->
  tok = jwt_sign (JNum n) (col u "email") -> spaceless tok = true -> tok <> "" ->
  jwt_verify tok = inr (JNum n, col u "email") ->
  authorization req = Some ("Bearer " +:+ tok) ->
  params req !! "id" = Some s -> parseInt s = Some n ->
  (exists res, (loginUser login (fresh_world db fs)).1 = inr res /\ status res = 200
               /\ In ("token", JStr tok) (properties res))
  /\ (exists w', run_route authenticateAndOwnResource handler req (fresh_world db fs')
                 = handler (set_user req (JNum n, col u "email")) w'
                 /\ committed w' = db /\ session w' = None).
Proof.
  intros Hq Hq' He Hp Hpne Hu Hpw Hok Hn Htok Hsp Htne Hver Hauth Hid Hparse.
  split.
  - rewrite (loginUser_result login db fs p Hq He Hp Hpne), Hu, Hpw, Hok, Hn, <- Htok.
    eexists. split; [reflexivity |]. cbn. auto.
  - eexists. split.
    + apply (verified_owner_passes req handler db fs' tok s n (col u "email")); auto.
      * rewrite Hauth.
        exact (bearer_token_two_words "Bearer" tok eq_refl Hsp Htne).
      * unfold rows_with_email in Hu. pose proof (head_in_filter _ _ _ Hu) as Hin.
        unfold rows_with_id. intros Hnil.
        assert (In u (List.filter (fun r : row => col_eqb "id" (col r "id") (JNum n))
                                  (rows_of db "surveyors"))) as Hin'.
        { apply List.filter_In. split; [exact Hin |]. rewrite Hn. apply col_eqb_id_refl. }
        rewrite Hnil in Hin'. contradiction.
    + split; reflexivity.
Qed.

End TokenRoundTrip.

(* ===================================================================== *)
(** ** The helpers of the service *)
(* ===================================================================== *)

Section Atomic.
Context `{SqlOrder}.

Lemma execute_in_transaction c q ps w s :
  session w = Some s ->
  committed (execute c q ps w).2 = committed w
  /\ match (execute c q ps w).1 with
     | inr r => exists s', session (execute c q ps w).2 = Some s'
                           /\ run_prepared q ps s = Some (r, s')
     | inl _ => session (execute c q ps w).2 = Some s
     end.
Proof.
  intros Hs. unfold execute, pop_fault, log, write, current, set_session, set_committed.
  cbn. rewrite Hs. cbn.
  repeat (break_match; cbn); simplify_eq; eauto.
Qed.

Lemma statements_in_transaction stmts c w s :
  session w = Some s ->
  committed (statements stmts c w).2 = committed w
  /\ (exists s', session (statements stmts c w).2 = Some s'
        /\ forall rs, (statements stmts c w).1 = inr rs ->
                      apply_statements stmts s = Some (rs, s')).
Proof.
  revert w s. induction stmts as [|[q ps] rest IH]; intros w s Hs.
  - cbn. split; [reflexivity |]. exists s. split; [assumption |].
    intros rs [= <-]. reflexivity.
  - cbn [statements].
    destruct (execute_in_transaction c q ps w s Hs) as [Hc Hr].
    destruct (execute c q ps w) as [[e|r] w1]; cbn in Hc, Hr |- *.
    + split; [assumption |]. exists s. split; [assumption | discriminate].
    + destruct Hr as (s1 & Hs1 & Hrun).
      destruct (IH w1 s1 Hs1) as (Hc2 & s2 & Hs2 & Hall).
      destruct (statements rest c w1) as [[e|rs] w2]; cbn in *.
      * split; [congruence |]. exists s2. split; [assumption | discriminate].
      * split; [congruence |]. exists s2. split; [assumption |].
        intros rs' [= <-]. rewrite Hrun. cbn. rewrite (Hall rs eq_refl). reflexivity.
Qed.

(** [executeTransaction] is all or nothing, whatever the statements of
    the callback and the fault schedule: when its promise is rejected the
    store is as before the call; when it resolves, the store is what the
    statements make of it, run in order, and the value is their results.  No
    transaction is left open. *)
Theorem executeTransaction_all_or_nothing (stmts : list (sql * list param)) (db : Store)
  (fs : list bool) :
  let out := executeTransaction (statements stmts) (fresh_world db fs) in
  session out.2 = None
  /\ (forall e, out.1 = inl e -> committed out.2 = db)
  /\ (forall rs, out.1 = inr rs -> apply_statements stmts db = Some (rs, committed out.2)).
Proof.
  cbv zeta. unfold executeTransaction, fresh_world. run_all.
  all: repeat split; try discriminate; auto.
  all: try match goal with
       | E : statements ?s ?c ?w0 = (_, ?w1) |- _ =>
           destruct (statements_in_transaction s c w0 db eq_refl) as (Hc & s' & Hs' & Hall);
           rewrite E in Hc, Hs', Hall; cbn in Hc, Hs', Hall
       end.
  all: intros; simplify_eq; cbn; auto.
  all: try (rewrite Hs'; cbn; auto).
Qed.

End Atomic.

#[local] Transparent run_prepared.
Lemma run_select1_eq `{SqlOrder} tbl c v db :
  run_prepared (Select1 tbl [CEq c]) [PVal v] db =
  Some (Rows (take 1 ((fun _ => ({[ "1" := JNum 1 ]} : row)) <$> rows_where db tbl c v)), db).
Proof. unfold run_prepared, rows_where. cbn. rewrite filter_and_true. reflexivity. Qed.
#[local] Opaque run_prepared.

Lemma col_eqb_null c stored : col_eqb c stored JNull = false.
Proof. unfold col_eqb. destruct stored; reflexivity. Qed.

Section Lookups.
Context `{SqlOrder}.

(** The three lookups of [DatabaseService] on a store that raises no
    fault.  For a value other than [undefined]: [findByField] returns
    the selected columns of the rows whose field equals the value,
    [findById] the first of the rows whose [id] equals it or [null], and
    [existsByField] whether there is such a row.  With [null] as the value
    no row is ever found.  With [undefined] the three calls are rejected by
    the driver. *)
Theorem lookups_by_value (table field : string) (v : jsval) (cols : list string)
  (db : Store) (fs : list bool) :
  quiet fs ->
  (v <> JUndefined ->
   (findByField table field v cols (fresh_world db fs)).1
   = inr (Rows (project cols <$> rows_where db table field v))
   /\ (findById table v cols (fresh_world db fs)).1
      = inr (head (project cols <$> rows_where db table "id" v))
   /\ (existsByField table field v (fresh_world db fs)).1
      = inr (bool_decide (rows_where db table field v <> [])))
  /\ rows_where db table field JNull = []
  /\ (v = JUndefined ->
      (findByField table field v cols (fresh_world db fs)).1 = inl undefined_parameter
      /\ (findById table v cols (fresh_world db fs)).1 = inl undefined_parameter
      /\ (existsByField table field v (fresh_world db fs)).1 = inl undefined_parameter).
Proof.
  intros Hq. split; [| split].
  - intros Hv.
    assert (has_undefined [PVal v] = false) as Hu
      by (apply has_undefined_false; repeat constructor; congruence).
    unfold findByField, findById, existsByField, executeQuery, fresh_world.
    unfold_monad; cbn; use_quiet Hq. rewrite Hu.
    rewrite !run_select_eq, run_select1_eq. cbn. fold (rows_where db table field v).
    fold (rows_where db table "id" v).
    repeat split.
    + destruct (rows_where db table "id" v); reflexivity.
    + destruct (rows_where db table field v); reflexivity.
  - unfold rows_where. induction (rows_of db table) as [|r t IH]; cbn; [reflexivity |].
    rewrite col_eqb_null. exact IH.
  - intros ->.
    assert (has_undefined [PVal JUndefined] = true) as Hu
      by (apply has_undefined_true; set_solver).
    unfold findByField, findById, existsByField, executeQuery, fresh_world.
    unfold_monad; cbn; use_quiet Hq. rewrite Hu. cbn. repeat split.
Qed.

End Lookups.

#[local] Transparent run_prepared.

Lemma run_window_negative `{SqlOrder} cols table o order (l off : Z) db :
  l < 0 \/ off < 0 ->
  run_prepared (Select cols table (CEq <$> keys o) order true)
               (PVal <$> (values o ++ [JNum l; JNum off])) db = None.
Proof.
  intros Hneg. unfold run_prepared. rewrite scalars_vals.
  cbn [mbind option_bind run_scalar].
  destruct (eval_where_object o [JNum l; JNum off]) as (p & Hp & Hext).
  rewrite Hp. cbn.
  assert ((0 <=? l) && (0 <=? off) = false) as ->; [| reflexivity].
  apply andb_false_iff. destruct Hneg; [left | right]; apply Z.leb_gt; assumption.
Qed.

Lemma run_unparsable `{SqlOrder} ps db : run_prepared Unparsable ps db = None.
Proof. unfold run_prepared. destruct (scalars ps); reflexivity. Qed.

#[local] Opaque run_prepared.

Section PaginateEdges.
Context `{SqlOrder}.

(** [paginate] does not clamp what the caller supplies (store raising
    no fault).  With [limit = 0] it returns no rows, [totalPages] is
    [Infinity] as soon as a row matches (so [hasNext] is true on every
    page) and [NaN] when none does.  With a negative limit, or a page below
    1 with a positive limit, the window statement is refused and the call
    is rejected after the count has run.  With an empty [where] object the
    WHERE clause has no condition and the call is rejected. *)
Theorem paginate_does_not_clamp (table : string) (page limit : Z)
  (options : PaginateOptions) (db : Store) (fs : list bool) :
  quiet fs ->
  let matching := List.filter (matches (where_object (where_ options))) (rows_of db table) in
  let out := paginate table page limit options (fresh_world db fs) in
  (where_ok (where_ options) -> limit = 0 -> 1 <= page ->
   exists pg, out.1 = inr pg /\ data pg = []
     /\ (matching <> [] -> totalPages (pagination pg) = Infinity
                           /\ hasNext (pagination pg) = true)
     /\ (matching = [] -> totalPages (pagination pg) = NaN
                          /\ hasNext (pagination pg) = false))
  /\ (where_ok (where_ options) -> limit < 0 \/ (page - 1) * limit < 0 ->
      out.1 = inl (StoreError "ER_PARSE_ERROR")
      /\ acquisitions out.2 = 2%nat)
  /\ (where_ options = Some [] -> out.1 = inl (StoreError "ER_PARSE_ERROR")).
Proof.
  intros Hq matching out. subst matching out. split; [| split].
  - intros Hw -> Hp.
    unfold paginate, executeQuery, fresh_world.
    rewrite (where_conditions_ok _ Hw), where_params_object.
    unfold_monad. cbn -[Z.mul Z.sub ceil_div lt_number]. use_quiet Hq.
    pose proof (where_defined (where_ options) [] Hw ltac:(constructor)) as Hd1.
    rewrite app_nil_r in Hd1. rewrite Hd1.
    rewrite run_count. cbn -[Z.mul Z.sub ceil_div lt_number]. use_quiet Hq.
    rewrite (where_defined (where_ options) [JNum 0; JNum ((page - 1) * 0)] Hw)
      by defined.
    rewrite run_window by lia.
    cbn -[Z.mul Z.sub ceil_div lt_number]. rewrite col_singleton.
    eexists. split; [reflexivity |]. cbn [data pagination totalPages hasNext].
    split; [reflexivity |].
    destruct (List.filter _ _) as [|r rs]; cbn; split; intros; try congruence; auto.
  - intros Hw Hneg.
    unfold paginate, executeQuery, fresh_world.
    rewrite (where_conditions_ok _ Hw), where_params_object.
    unfold_monad. cbn -[Z.mul Z.sub ceil_div lt_number]. use_quiet Hq.
    pose proof (where_defined (where_ options) [] Hw ltac:(constructor)) as Hd1.
    rewrite app_nil_r in Hd1. rewrite Hd1.
    rewrite run_count. cbn -[Z.mul Z.sub ceil_div lt_number]. use_quiet Hq.
    rewrite (where_defined (where_ options) [JNum limit; JNum ((page - 1) * limit)] Hw)
      by defined.
    rewrite run_window_negative by assumption.
    cbn. split; reflexivity.
  - intros Hempty.
    unfold paginate, executeQuery, fresh_world. rewrite Hempty.
    unfold_monad. cbn. use_quiet Hq.
    rewrite (has_undefined_false []) by constructor.
    rewrite run_unparsable. reflexivity.
Qed.

End PaginateEdges.

(* ===================================================================== *)
(** ** Routes, the gate and the error handler *)
(* ===================================================================== *)

Section InvalidId.
Context `{SqlOrder} `{Bcrypt} `{Jwt} `{ExpressValidator}.

Lemma invalid_id_stops (rest : list middleware) (handler : Request -> Async Response)
  (req : Request) (w : World) :
  isInt_min1 (req_param req "id") = false -> validation req = [] ->
  run_route (validateUserId ++ rest) handler req w = (inr invalid_id_response, w).
Proof.
  intros Hid Hv. unfold validateUserId. cbn [app run_route].
  unfold run_chain, apply_chain, user_id_chain. cbn [chain_optional andb chain_steps foldl
    chain_location chain_field].
  unfold run_step. cbn [read]. rewrite Hid. unfold next.
  unfold handleValidationErrors, add_error. cbn [validation]. rewrite Hv. reflexivity.
Qed.

(** On each of the six user-profile routes a path id that the
    validator does not accept as a positive integer is answered 400 by the
    first two middlewares: no token is read, no handler runs and the world
    (store, pool, console) is untouched. *)
Theorem invalid_id_is_rejected_first (route : Request -> Async Response) (req : Request)
  (w : World) :
  In route user_profile_routes ->
  isInt_min1 (req_param req "id") = false -> validation req = [] ->
  route req w = (inr invalid_id_response, w).
Proof.
  intros Hin Hid Hv. unfold user_profile_routes in Hin.
  repeat destruct Hin as [<-|Hin]; try contradiction.
  all: unfold get_profile_route, put_info_route, patch_password_route, put_services_route,
         put_areas_route, delete_profile_route.
  all: apply invalid_id_stops; assumption.
Qed.

End InvalidId.

Lemma digit_value_digit (a : ascii) :
  is_digit a = true -> digit_value 10 a = Some (Z.of_nat (nat_of_ascii a) - 48).
Proof.
  unfold is_digit, digit_value. intros Hd. rewrite Hd.
  apply andb_true_iff in Hd as [H1 H2]. apply Z.leb_le in H1, H2.
  rewrite (proj2 (Z.ltb_lt _ _)) by lia. reflexivity.
Qed.

Lemma digit_value_other (a : ascii) : is_digit a = false -> digit_value 10 a = None.
Proof.
  unfold is_digit, digit_value. intros Hd. rewrite Hd.
  repeat case_match; try reflexivity.
  all: repeat match goal with
         | E : (_ && _) = true |- _ => apply andb_true_iff in E as [? ?]
         | E : (_ <=? _) = true |- _ => apply Z.leb_le in E
         | E : (_ <? _) = true |- _ => apply Z.ltb_lt in E
         end; simplify_eq; lia.
Qed.

Lemma read_digits_app (s t : string) (acc : option Z) :
  all_digits s = true -> stops_digits t = true ->
  read_digits 10 (s +:+ t) acc = read_digits 10 s acc.
Proof.
  revert acc. induction s as [|a s IH]; intros acc Hs Ht.
  - change ("" +:+ t) with t. destruct t as [|b t]; [reflexivity |].
    cbn in Ht. apply negb_true_iff in Ht. cbn [read_digits].
    rewrite (digit_value_other b Ht). reflexivity.
  - cbn in Hs. apply andb_true_iff in Hs as [Ha Hs].
    change (String a s +:+ t) with (String a (s +:+ t)). cbn [read_digits].
    rewrite (digit_value_digit a Ha). apply IH; assumption.
Qed.

Lemma nonzero_digit_plain (a : ascii) (r : string) :
  is_nonzero_digit a = true ->
  skip_space (String a r) = String a r
  /\ read_sign (String a r) = (1, String a r)
  /\ read_radix (String a r) = (10, String a r).
Proof.
  destruct a as [[] [] [] [] [] [] [] []]; try discriminate; intros _; repeat split.
Qed.

(** [parseInt] reads the leading decimal digits and ignores what
    follows: for a string of digits that starts with a digit other than 0,
    followed by anything that does not start with a digit. *)
Lemma parseInt_leading_digits (a : ascii) (s t : string) :
  is_nonzero_digit a = true -> all_digits s = true -> stops_digits t = true ->
  parseInt (String a s +:+ t) = parseInt (String a s).
Proof.
  intros Ha Hs Ht. unfold parseInt.
  change (String a s +:+ t) with (String a (s +:+ t)).
  destruct (nonzero_digit_plain a (s +:+ t) Ha) as (-> & -> & ->).
  destruct (nonzero_digit_plain a s Ha) as (-> & -> & ->).
  f_equal.
  change (String a (s +:+ t)) with (String a s +:+ t).
  apply read_digits_app; [| assumption].
  cbn. rewrite Hs, andb_true_r.
  unfold is_nonzero_digit in Ha. unfold is_digit.
  apply andb_true_iff in Ha as [H1 H2]. apply andb_true_iff. split; [| assumption].
  apply Z.leb_le in H1. apply Z.leb_le. lia.
Qed.

(** [checkResourceOwnership] compares the identity with
    [parseInt(req.params.id)], which reads the leading digits only: the
    user [n] passes the gate for every path id made of the decimal digits of
    [n] followed by anything that is not a digit (on its own the gate takes
    [21abc] for 21; rejecting such an id is left to [validateUserId]). *)
Theorem gate_reads_leading_digits (req : Request) (w : World)
  (handler : Request -> Async Response) (a : ascii) (s t : string) (n : Z) (e : jsval) :
  is_nonzero_digit a = true -> all_digits s = true -> stops_digits t = true ->
  parseInt (String a s) = Some n ->
  req_user req = Some (JNum n, e) -> params req !! "id" = Some (String a s +:+ t) ->
  run_route [checkResourceOwnership] handler req w = handler req w.
Proof.
  intros Ha Hs Ht Hn Hu Hid. cbn [run_route].
  rewrite gate_admits; [reflexivity |].
  exists n. unfold token_id, path_id. rewrite Hu, Hid. split; [reflexivity |].
  rewrite parseInt_leading_digits by assumption. exact Hn.
Qed.

(** An instance of one of the five custom error classes carries the
    status of its class in [statusCode], but [errorHandler] reads
    [err.name], which the classes never set, and [err.code], which holds
    none of the four store codes: the answer is always 500 "Internal server
    error" with code INTERNAL_ERROR. *)
Theorem custom_errors_answer_500 (c : custom_error) (stack timestamp : string)
  (node_env : option string) (rl : RequestLine) (w : World) :
  err_statusCode (construct c stack) = JNum (class_status c)
  /\ class_status c <> 500
  /\ status (errorHandler node_env timestamp (construct c stack) rl w).1 = 500
  /\ message (errorHandler node_env timestamp (construct c stack) rl w).1
     = "Internal server error"
  /\ In ("code", JStr "INTERNAL_ERROR")
        (properties (errorHandler node_env timestamp (construct c stack) rl w).1).
Proof.
  assert (classify (construct c stack) = (500, "Internal server error", "INTERNAL_ERROR"))
    as Hc by (destruct c; reflexivity).
  unfold errorHandler. rewrite Hc.
  split; [destruct c; reflexivity |]. split; [destruct c; discriminate |].
  destruct (bool_decide (node_env = Some "development")); cbn; auto.
Qed.

(** Outside development the answer of [errorHandler] carries nothing of
    the error but its validation errors: the status is one of seven, the
    message one of ten fixed texts, and the properties are [code],
    [timestamp] and [path], whatever [err.message] and [err.stack] hold.  The
    error is reported on the console and the store is not touched. *)
Theorem error_handler_hides_details (node_env : option string) (timestamp : string)
  (err : JsError) (rl : RequestLine) (w : World) :
  node_env <> Some "development" ->
  let res := (errorHandler node_env timestamp err rl w).1 in
  status res ∈ error_statuses
  /\ message res ∈ error_messages
  /\ (exists code, properties res
        = [("code", JStr code); ("timestamp", JStr timestamp); ("path", JStr (req_url rl))])
  /\ (errorHandler node_env timestamp err rl w).2 = log (ConsoleError "Error occurred:") w.
Proof.
  intros Hdev res. subst res. unfold errorHandler.
  rewrite (bool_decide_eq_false_2 _ Hdev).
  unfold classify, error_statuses, error_messages.
  repeat case_match; simplify_eq; cbn [fst snd status message properties].
  all: repeat split; eauto.
  all: repeat first [apply list_elem_of_here | apply list_elem_of_further].
Qed.

(* ===================================================================== *)
(** ** Worked examples *)
(* ===================================================================== *)

#[local] Existing Instances table_order prefix_bcrypt toy_jwt lenient_validator.

Lemma quiet_nil : quiet [].
Proof. constructor. Qed.

Lemma ann_is_registered : rows_with_email db1 (JStr "ann@example.org") <> [].
Proof. intros E. apply (f_equal length) in E. vm_compute in E. discriminate. Qed.

Lemma ann_has_id_21 : rows_with_id db1 (JStr "21") <> [].
Proof. intros E. apply (f_equal length) in E. vm_compute in E. discriminate. Qed.

Lemma failed_replace_is_rolled_back :
  (step_failed_in_transaction
     (run_writer ReplaceServices services_request
        (fresh_world db1 [false; false; false; false; true])).2 = true
   /\ rolled_back db1
        (run_writer ReplaceServices services_request
           (fresh_world db1 [false; false; false; false; true])))
  /\ (step_failed_in_transaction
        (run_writer PasswordChange numeric_password_change (fresh_world db1 [])).2 = true
      /\ rolled_back db1
           (run_writer PasswordChange numeric_password_change (fresh_world db1 [])))
  /\ (step_failed_in_transaction
        (run_writer PasswordChange numeric_new_password (fresh_world db1 [])).2 = true
      /\ rolled_back db1
           (run_writer PasswordChange numeric_new_password (fresh_world db1 [])))
  /\ (step_failed_in_transaction
        (run_writer Registration numeric_registration (fresh_world db1 [])).2 = true
      /\ rolled_back db1
           (run_writer Registration numeric_registration (fresh_world db1 []))).
Proof.
  split; [| split; [| split]].
  - split; [vm_compute; reflexivity |].
    apply (failed_write_is_rolled_back ReplaceServices). vm_compute. reflexivity.
  - split; [vm_compute; reflexivity |].
    apply (failed_write_is_rolled_back PasswordChange). vm_compute. reflexivity.
  - split; [vm_compute; reflexivity |].
    apply (failed_write_is_rolled_back PasswordChange). vm_compute. reflexivity.
  - split; [vm_compute; reflexivity |].
    apply (failed_write_is_rolled_back Registration). vm_compute. reflexivity.
Defined.

Lemma replace_services_drops_unknown_name :
  status_of (replace_associations Services services_request (fresh_world db1 [])).1 = Some 200
  /\ (fun r : row => col r "subcategory_id")
       <$> associations_of
             (committed (replace_associations Services services_request (fresh_world db1 [])).2)
             "surveyors_services" 21
     = [JNum 62].
Proof.
  pose proof (replace_associations_exact Services services_request db1 [] "21" quiet_nil
                eq_refl ltac:(discriminate)) as H.
  cbv zeta in H. destruct H as (H1 & H2 & _).
  split; [exact H1 |].
  change (sql_int "21") with 21 in H2.
  change (assoc_table Services) with "surveyors_services" in H2. rewrite H2. vm_compute. reflexivity.
Defined.

Lemma second_registration_conflicts :
  rows_with_email db1 (field (registration "ann@example.org" "Secret123" "Secret123") "email")
    <> []
  /\ status_of (registerUser (registration "ann@example.org" "Secret123" "Secret123")
                  (fresh_world db1 [])).1 = Some 409
  /\ length (rows_with_email
               (committed (registerUser (registration "ann@example.org" "Secret123" "Secret123")
                             (fresh_world db1 [])).2)
               (JStr "ann@example.org")) = 1%nat.
Proof.
  split; [exact ann_is_registered |].
  pose proof (duplicate_email_conflict (registration "ann@example.org" "Secret123" "Secret123")
                db1 [] quiet_nil eq_refl ann_is_registered) as H.
  cbv zeta in H. destruct H as (H1 & _ & _ & _ & H5).
  split; [exact H1 |]. apply H5. vm_compute. reflexivity.
Defined.

Lemma mismatched_registration_rejected :
  field (registration "bo@example.org" "Secret123" "Secret124") "password"
    <> field (registration "bo@example.org" "Secret123" "Secret124") "confirmPassword"
  /\ (exists res,
        register_user_route (registration "bo@example.org" "Secret123" "Secret124")
          (fresh_world db1 [])
        = (inr res, fresh_world db1 []) /\ status res = 400).
Proof.
  assert (field (registration "bo@example.org" "Secret123" "Secret124") "password"
          <> field (registration "bo@example.org" "Secret123" "Secret124") "confirmPassword")
    as Hne by (vm_compute; discriminate).
  split; [exact Hne |].
  exact (proj2 (mismatched_passwords_rejected _ (fresh_world db1 []) Hne)).
Defined.

Lemma second_page_of_25_rows :
  exists pg,
    (paginate "counties" 2 10 no_options (fresh_world db25 [])).1 = inr pg
    /\ length (data pg) = 10%nat
    /\ totalPages (pagination pg) = Int 3
    /\ hasNext (pagination pg) = true
    /\ hasPrev (pagination pg) = true.
Proof.
  destruct (paginate_metadata "counties" 2 10 no_options db25 [] quiet_nil
              ltac:(lia) ltac:(lia) I)
    as (pg & n & Hpg & _ & Hn & _ & _ & _ & _ & H25).
  destruct (H25 ltac:(vm_compute; reflexivity) eq_refl eq_refl eq_refl)
    as (Hlen & -> & Hnext & Hprev).
  exists pg. repeat split; assumption.
Defined.

Lemma nil_of_length {A} (l : list A) : length l = 0%nat -> l = [].
Proof. destruct l; [reflexivity | discriminate]. Qed.

Lemma bo_is_new : rows_with_email db_no_defaults (JStr "bo@example.org") = [].
Proof. apply nil_of_length. vm_compute. reflexivity. Qed.

Lemma no_defaults_in_db_no_defaults : no_default_county db_no_defaults.
Proof. apply nil_of_length. vm_compute. reflexivity. Qed.

Lemma registration_without_defaults_succeeds :
  no_default_county db_no_defaults
  /\ status_of (registerUser (registration "bo@example.org" "Secret123" "Secret123")
                  (fresh_world db_no_defaults [])).1 = Some 201
  /\ (fun r : row => col r "email")
       <$> rows_of (committed (registerUser (registration "bo@example.org" "Secret123" "Secret123")
                                 (fresh_world db_no_defaults [])).2) "surveyors"
     = [JStr "ann@example.org"; JStr "bo@example.org"]
  /\ length (rows_of (committed (registerUser
                                   (registration "bo@example.org" "Secret123" "Secret123")
                                   (fresh_world db_no_defaults [])).2) "surveyors_counties")
     = 1%nat.
Proof.
  split; [exact no_defaults_in_db_no_defaults |].
  pose proof (proj1 (registration_without_default_counties
                       (registration "bo@example.org" "Secret123" "Secret123")
                       db_no_defaults [] "Secret123" quiet_nil eq_refl eq_refl
                       bo_is_new no_defaults_in_db_no_defaults)
                    ltac:(vm_compute; discriminate)) as H.
  cbv zeta in H. destruct H as (H1 & H2 & _ & _ & H5 & _).
  split; [exact H1 |]. split.
  - rewrite H2. vm_compute. reflexivity.
  - rewrite H5. vm_compute. reflexivity.
Defined.

Lemma registration_without_phone_or_defaults_is_500 :
  validation (apply_chains registration_chains registration_without_phone) = []
  /\ field registration_without_phone "phone" = JUndefined
  /\ length (resolved db_no_defaults "counties" defaultCountyNames) = 0%nat
  /\ status_of (register_user_route registration_without_phone
                  (fresh_world db_no_defaults [])).1 = Some 500
  /\ (fun r : row => col r "email")
       <$> rows_of (committed (register_user_route registration_without_phone
                                 (fresh_world db_no_defaults [])).2) "surveyors"
     = [JStr "ann@example.org"].
Proof.
  split; [vm_compute; reflexivity |].
  split; [vm_compute; reflexivity |].
  split; [vm_compute; reflexivity |].
  split; vm_compute; reflexivity.
Defined.

Lemma full_profile_update_succeeds :
  status_of (updateUserInfo put_info_full (fresh_world db1 [])).1 = Some 200
  /\ (fun r : row => col r "first_name")
       <$> rows_of (committed (updateUserInfo put_info_full (fresh_world db1 [])).2) "surveyors"
     = [JStr "Anna"].
Proof.
  pose proof (profile_update_binds_nine_columns put_info_full db1 [] "21" quiet_nil
                eq_refl ltac:(discriminate)) as H.
  cbv zeta in H. destruct H as (_ & H & _).
  destruct H as (H1 & H2 & _).
  - unfold mandatory_fields.
    repeat (apply Forall_cons_2; [vm_compute; discriminate |]). apply Forall_nil_2.
  - exact ann_has_id_21.
  - split; [exact H1 |]. rewrite H2. vm_compute. reflexivity.
Defined.

(** A profile update whose body omits [firstName], sent through the
    whole route with the owner's token: the validation lets it through,
    the answer is 500 and the row keeps all nine stored values. *)
Lemma omitted_first_name_is_retained :
  field put_info_request "firstName" = JUndefined
  /\ status_of (put_info_route put_info_request (fresh_world db1 [])).1 = Some 500
  /\ (fun r : row => col r <$> profile_columns)
       <$> rows_of (committed (put_info_route put_info_request (fresh_world db1 [])).2)
                   "surveyors"
     = [[JStr "Ann"; JStr "Lee"; JStr "Acme Surveying"; JStr "ann@example.org";
         JStr "3035550100"; JStr "1 Pearl St"; JStr "Boulder"; JStr "CO"; JStr "80302"]].
Proof. repeat split; vm_compute; reflexivity. Qed.


(** [insert('counties', {name: 'Jefferson'})] on a store that raises no
    fault: the row is stored with the generated id 4, and the call
    rejects with a TypeError instead of returning 4. *)
Lemma insert_county_rejects :
  (insert "counties" [("name", JStr "Jefferson")] (fresh_world db1 [])).1
    = inl (TypeError "object is not iterable")
  /\ (fun r : row => (col r "id", col r "name"))
       <$> rows_of (committed (insert "counties" [("name", JStr "Jefferson")]
                                 (fresh_world db1 [])).2) "counties"
     = [(JNum 1, JStr "Adams"); (JNum 2, JStr "Boulder"); (JNum 3, JStr "Gilpin");
        (JNum 4, JStr "Jefferson")]
  /\ (updateById "counties" (JNum 2) [("name", JStr "Boulder County")] (fresh_world db1 [])).1
     = inl (TypeError "object is not iterable")
  /\ (fun r : row => (col r "id", col r "name"))
       <$> rows_of (committed (updateById "counties" (JNum 2) [("name", JStr "Boulder County")]
                                 (fresh_world db1 [])).2) "counties"
     = [(JNum 1, JStr "Adams"); (JNum 2, JStr "Boulder County"); (JNum 3, JStr "Gilpin")].
Proof. repeat split; vm_compute; reflexivity. Qed.

Lemma anonymous_request_is_forbidden :
  ~ owner anonymous_request
  /\ run_route [checkResourceOwnership] getUserProfile anonymous_request (fresh_world db1 [])
     = (inr forbidden, fresh_world db1 []).
Proof.
  assert (~ owner anonymous_request) as Hno
    by (intros (n & Hn & _); vm_compute in Hn; discriminate).
  split; [exact Hno |].
  exact (proj1 (proj1 (ownership_gate_fails_closed anonymous_request (fresh_world db1 [])
                         getUserProfile getUserProfile []) Hno)).
Defined.

(** User 21's token on the profile path of user 22: 403, and the only
    store access is the lookup of user 21 by [authenticateToken]. *)
Lemma other_users_profile_is_forbidden :
  status_of (get_profile_route (request (Some "22") [] [] (Some "Bearer tok21"))
               (fresh_world db1 [])).1 = Some 403
  /\ trace (get_profile_route (request (Some "22") [] [] (Some "Bearer tok21"))
              (fresh_world db1 [])).2
     = [Call Release 0 true; Call Execute 0 true; Call GetConnection 0 true].
Proof. split; vm_compute; reflexivity. Qed.

Lemma unknown_user_update_is_not_found :
  rows_with_id db1 (JStr "99") = []
  /\ status_of (updateUserInfo unknown_user_request (fresh_world db1 [])).1 = Some 404.
Proof.
  assert (rows_with_id db1 (JStr "99") = []) as Hrow
    by (apply nil_of_length; vm_compute; reflexivity).
  split; [exact Hrow |].
  refine (proj1 (profile_update_unknown_user unknown_user_request db1 [] "99" quiet_nil
                   eq_refl ltac:(discriminate) _ Hrow)).
  unfold mandatory_fields.
  repeat (apply Forall_cons_2; [vm_compute; discriminate |]). apply Forall_nil_2.
Defined.

Lemma owner_reaches_profile_handler :
  owner owned_request
  /\ run_route [checkResourceOwnership] getUserProfile owned_request (fresh_world db1 [])
     = getUserProfile owned_request (fresh_world db1 []).
Proof.
  assert (owner owned_request) as Ho by (exists 21; split; vm_compute; reflexivity).
  split; [exact Ho |].
  exact (owner_passes_gate owned_request (fresh_world db1 []) getUserProfile Ho).
Defined.

Lemma ann_by_email : head (rows_with_email db1 (JStr "ann@example.org")) = Some ann.
Proof. reflexivity. Qed.

Lemma ann_by_id : head (rows_with_id db1 (JStr "21")) = Some ann.
Proof. reflexivity. Qed.

Lemma ann_password : col ann "password" = JStr "$2a$10$Secret123".
Proof. reflexivity. Qed.

Lemma production_error_is_opaque :
  Some "production" <> Some "development"
  /\ status (errorHandler (Some "production") "2026-01-01T00:00:00.000Z"
               (construct (NewNotFoundError None) "at getUserProfile") example_line
               (fresh_world db1 [])).1 ∈ error_statuses.
Proof.
  assert (Some "production" <> Some "development") as Hdev by discriminate.
  split; [exact Hdev |].
  exact (proj1 (error_handler_hides_details (Some "production") "2026-01-01T00:00:00.000Z"
                  (construct (NewNotFoundError None) "at getUserProfile") example_line
                  (fresh_world db1 []) Hdev)).
Defined.

Lemma faulty_login_keeps_store :
  read_operation (OpLoginUser (ann_login "Secret123")) = true
  /\ committed (run_operation (OpLoginUser (ann_login "Secret123"))
                  (fresh_world db1 [false; true])) = db1.
Proof.
  split; [reflexivity |].
  exact (proj1 (read_operations_keep_store (OpLoginUser (ann_login "Secret123")) db1
                  [false; true] eq_refl)).
Defined.

Lemma basic_scheme_carries_token :
  spaceless "Basic" = true /\ bearer_token (Some "Basic abc") = Some "abc".
Proof.
  split; [reflexivity |].
  exact (proj1 (bearer_token_is_second_word "Basic" "abc" "" eq_refl eq_refl
                  ltac:(discriminate))).
Defined.

Lemma ann_logs_in :
  bcrypt_compare "Secret123" "$2a$10$Secret123" = true
  /\ (loginUser (ann_login "Secret123") (fresh_world db1 [])).1
     = inr (mkResponse 200 "Login successful!"
              [("user.id", JNum 21); ("user.email", JStr "ann@example.org");
               ("token", JStr "tok"); ("expiresIn", JStr "24h")] [])
  /\ status_of (loginUser (ann_login "Secret124") (fresh_world db1 [])).1 = Some 401.
Proof.
  split; [reflexivity |]. split.
  - rewrite (proj2 (proj2 (login_decided_by_first_row (ann_login "Secret123") db1 []
                             "Secret123" quiet_nil eq_refl eq_refl ltac:(discriminate)))
               ann "$2a$10$Secret123" ann_by_email ann_password eq_refl).
    reflexivity.
  - rewrite (proj1 (proj2 (login_decided_by_first_row (ann_login "Secret124") db1 []
                             "Secret124" quiet_nil eq_refl eq_refl ltac:(discriminate)))
               ann "$2a$10$Secret123" ann_by_email ann_password eq_refl).
    reflexivity.
Defined.

Lemma ann_changes_password :
  status_of (changeUserPassword ann_password_change (fresh_world db1 [])).1 = Some 200
  /\ (fun r : row => col r "password")
       <$> rows_of (committed (changeUserPassword ann_password_change (fresh_world db1 [])).2)
                   "surveyors"
     = [JStr "$2a$10$Better456"].
Proof.
  destruct (proj2 (proj2 (password_change_outcomes ann_password_change db1 [] "21"
                            "Secret123" "Better456" quiet_nil eq_refl ltac:(discriminate)
                            eq_refl ltac:(discriminate) eq_refl ltac:(discriminate)))
              ann "$2a$10$Secret123" ann_by_id ann_password eq_refl) as [Hst Hdb].
  split; [exact Hst |]. rewrite Hdb. vm_compute. reflexivity.
Defined.

Lemma ann_logs_in_with_new_password :
  status_of (loginUser (ann_login "Better456")
               (fresh_world (committed (changeUserPassword ann_password_change
                                          (fresh_world db1 [])).2) [])).1 = Some 200.
Proof.
  exact (proj2 (password_change_then_login ann_password_change (ann_login "Better456") db1
                  [] [] "21" "Secret123" "Better456" "ann@example.org" "$2a$10$Secret123" ann
                  quiet_nil quiet_nil eq_refl ltac:(discriminate) eq_refl
                  ltac:(discriminate) eq_refl ltac:(discriminate) eq_refl
                  ltac:(discriminate) eq_refl ann_by_id ann_by_email ann_password eq_refl
                  eq_refl)).
Defined.

Lemma ann_account_is_deleted :
  rows_with_id db1 (JStr "21") <> []
  /\ status_of (deleteUser ann_request (fresh_world db1 [])).1 = Some 200
  /\ rows_with_id (committed (deleteUser ann_request (fresh_world db1 [])).2) (JStr "21") = []
  /\ associations_of (committed (deleteUser ann_request (fresh_world db1 [])).2)
                     "surveyors_counties" 21 = [].
Proof.
  split; [exact ann_has_id_21 |].
  destruct (proj2 (account_deletion_removes_user ann_request db1 [] "21" quiet_nil eq_refl
                     ltac:(discriminate)) ann_has_id_21) as (Hst & Hgone & _ & Hassoc & _).
  split; [exact Hst |]. split; [exact Hgone |].
  exact (proj1 (Hassoc Counties)).
Defined.

Lemma defaults_found_in_db1 : resolved db1 "counties" defaultCountyNames <> [].
Proof. intros E. apply (f_equal length) in E. vm_compute in E. discriminate. Qed.

Lemma bo_is_new_in_db1 : rows_with_email db1 (JStr "bo@example.org") = [].
Proof. apply nil_of_length. vm_compute. reflexivity. Qed.

Lemma bo_gets_default_counties :
  resolved db1 "counties" defaultCountyNames <> []
  /\ status_of (registerUser (registration "bo@example.org" "Secret123" "Secret123")
                  (fresh_world db1 [])).1 = Some 201
  /\ (fun r : row => (col r "surveyor_id", col r "county_id"))
       <$> rows_of (committed (registerUser
                                 (registration "bo@example.org" "Secret123" "Secret123")
                                 (fresh_world db1 [])).2) "surveyors_counties"
     = [(JNum 21, JNum 2); (JNum 22, JNum 2); (JNum 22, JNum 3)].
Proof.
  split; [exact defaults_found_in_db1 |].
  pose proof (registration_assigns_default_counties
                (registration "bo@example.org" "Secret123" "Secret123") db1 [] "Secret123"
                quiet_nil eq_refl eq_refl ltac:(vm_compute; discriminate) bo_is_new_in_db1
                defaults_found_in_db1) as Hreg.
  cbv zeta in Hreg. destruct Hreg as (Hst & _ & _ & Hlinks & _).
  split; [exact Hst |]. rewrite Hlinks. vm_compute. reflexivity.
Defined.

Lemma bo_registers_then_logs_in :
  status_of (loginUser
               (request None [("email", JStr "bo@example.org");
                              ("password", JStr "Secret123")] [] None)
               (fresh_world
                  (committed (registerUser
                                (registration "bo@example.org" "Secret123" "Secret123")
                                (fresh_world db1 [])).2) [])).1 = Some 200.
Proof.
  exact (proj1 (proj2 (registration_then_login
                         (registration "bo@example.org" "Secret123" "Secret123")
                         (request None [("email", JStr "bo@example.org");
                                        ("password", JStr "Secret123")] [] None)
                         db1 [] [] "bo@example.org" "Secret123" quiet_nil quiet_nil eq_refl
                         eq_refl eq_refl ltac:(vm_compute; discriminate) bo_is_new_in_db1
                         eq_refl eq_refl eq_refl))).
Defined.

Lemma registration_without_phone_is_500 :
  field registration_without_phone "phone" = JUndefined
  /\ status_of (registerUser registration_without_phone (fresh_world db1 [])).1 = Some 500.
Proof.
  split; [reflexivity |].
  exact (proj1 (proj2 (proj2 (registration_without_phone_fails registration_without_phone
                                db1 [] "Secret123" quiet_nil eq_refl eq_refl
                                bo_is_new_in_db1 eq_refl)))).
Defined.

Lemma ann_profile_page :
  exists res,
    (getUserProfile ann_request (fresh_world db1 [])).1 = inr res /\ status res = 200
    /\ array_property res "counties_provided" ≡ₚ [JStr "Boulder"].
Proof.
  destruct (proj2 (profile_page_content ann_request db1 [] "21" quiet_nil eq_refl
                     ltac:(discriminate)) ann ann_by_id)
    as (res & Hres & Hst & _ & _ & Hcounties & _).
  exists res. split; [exact Hres |]. split; [exact Hst |].
  rewrite Hcounties. vm_compute. reflexivity.
Defined.

Lemma put_info_full_defined :
  Forall (fun k => field put_info_full k <> JUndefined) mandatory_fields.
Proof.
  unfold mandatory_fields.
  repeat (apply Forall_cons_2; [vm_compute; discriminate |]). apply Forall_nil_2.
Qed.

Lemma ann_sees_updated_profile :
  exists res,
    (getUserProfile ann_request
       (fresh_world (committed (updateUserInfo put_info_full (fresh_world db1 [])).2) [])).1
    = inr res
    /\ In ("first_name", JStr "Anna") (properties res)
    /\ In ("company_name", JStr "Lee Surveying") (properties res).
Proof.
  destruct (proj2 (profile_update_then_page put_info_full ann_request db1 [] [] "21" ann
                     quiet_nil quiet_nil eq_refl eq_refl ltac:(discriminate)
                     put_info_full_defined ann_by_id))
    as (res & Hres & _ & _ & Hcols).
  exists res. split; [exact Hres |]. split.
  - exact (Hcols 0%nat "first_name" (JStr "Anna") eq_refl eq_refl).
  - exact (Hcols 2%nat "company_name" (JStr "Lee Surveying") eq_refl eq_refl).
Defined.

Lemma counties_of_db1_keyed : keyed_by_id (rows_of db1 "counties").
Proof.
  change (rows_of db1 "counties") with [county 1 "Adams"; county 2 "Boulder"; county 3 "Gilpin"].
  split.
  - intros c [<-|[<-|[<-|[]]]]; eexists; reflexivity.
  - intros c c' [<-|[<-|[<-|[]]]] [<-|[<-|[<-|[]]]] E; try reflexivity.
    all: vm_compute in E; discriminate.
Qed.

Lemma ann_sees_requested_counties :
  exists res,
    (getUserProfile ann_request
       (fresh_world (committed (updateUserServiceAreas ann_areas (fresh_world db1 [])).2)
                    [])).1 = inr res
    /\ In (JStr "Gilpin") (array_property res "counties_provided")
    /\ ~ In (JStr "Boulder") (array_property res "counties_provided")
    /\ ~ In (JStr "Atlantis") (array_property res "counties_provided").
Proof.
  assert (forall x, exists res,
            (getUserProfile ann_request
               (fresh_world (committed (updateUserServiceAreas ann_areas
                                          (fresh_world db1 [])).2) [])).1 = inr res
            /\ (In x (array_property res "counties_provided") <->
                exists c, In c (rows_of db1 "counties")
                          /\ named ["Gilpin"; "Atlantis"] c = true /\ x = col c "name"))
    as Hall.
  { intros x.
    destruct (areas_update_then_page ann_areas ann_request db1 [] [] "21" ann x quiet_nil
                quiet_nil eq_refl eq_refl ltac:(discriminate) ann_by_id
                counties_of_db1_keyed) as (res & Hres & _ & Hiff).
    exists res. split; [exact Hres | exact Hiff]. }
  destruct (Hall (JStr "Gilpin")) as (res & Hres & Hg).
  destruct (Hall (JStr "Boulder")) as (res' & Hres' & Hb).
  destruct (Hall (JStr "Atlantis")) as (res'' & Hres'' & Ha).
  rewrite Hres in Hres', Hres''. injection Hres' as <-. injection Hres'' as <-.
  exists res. split; [exact Hres |].
  change (rows_of db1 "counties")
    with [county 1 "Adams"; county 2 "Boulder"; county 3 "Gilpin"] in *.
  split; [| split].
  - apply Hg. exists (county 3 "Gilpin"). repeat split. cbn. auto.
  - intros Hin. apply Hb in Hin as (c & [<-|[<-|[<-|[]]]] & Hn & Hx);
      vm_compute in Hn, Hx; discriminate.
  - intros Hin. apply Ha in Hin as (c & [<-|[<-|[<-|[]]]] & Hn & Hx);
      vm_compute in Hn, Hx; discriminate.
Defined.

Lemma ann_is_locked_out :
  status_of (deleteUser ann_request (fresh_world db1 [])).1 = Some 200
  /\ (authenticateToken ann_request
        (fresh_world (committed (deleteUser ann_request (fresh_world db1 [])).2) [])).1
     = inr (inl (code_response 401 "User not found" "USER_NOT_FOUND")).
Proof.
  destruct (deleted_account_is_locked_out ann_request ann_request (ann_login "Secret123")
              db1 [] [] [] "21" "tok21" "Secret123" (JStr "user@example.org") quiet_nil
              quiet_nil quiet_nil eq_refl ltac:(discriminate) ann_has_id_21 eq_refl eq_refl
              eq_refl eq_refl ltac:(discriminate)) as (Hst & Hauth & _).
  split; [exact Hst | exact Hauth].
Defined.

Lemma ann_token_opens_her_profile :
  exists w',
    run_route (authenticateAndOwnResource (H0 := ann_jwt)) getUserProfile ann_token_request
              (fresh_world db1 [])
    = getUserProfile (set_user ann_token_request (JNum 21, JStr "ann@example.org")) w'
    /\ committed w' = db1.
Proof.
  destruct (proj2 (login_token_opens_own_resources (H1 := ann_jwt)
                     (ann_login "Secret123") ann_token_request getUserProfile db1 [] []
                     "Secret123" "$2a$10$Secret123" "ann.token" "21" ann 21
                     quiet_nil quiet_nil eq_refl eq_refl ltac:(discriminate) ann_by_email
                     ann_password eq_refl eq_refl eq_refl eq_refl ltac:(discriminate)
                     eq_refl eq_refl eq_refl eq_refl)) as (w' & Hroute & Hdb & _).
  exists w'. split; [exact Hroute | exact Hdb].
Defined.

Lemma boulder_exists :
  (existsByField "counties" "name" (JStr "Boulder") (fresh_world db1 [])).1 = inr true
  /\ (existsByField "counties" "name" (JStr "Atlantis") (fresh_world db1 [])).1 = inr false.
Proof.
  split.
  - rewrite (proj2 (proj2 (proj1 (lookups_by_value "counties" "name" (JStr "Boulder") ["*"]
                                    db1 [] quiet_nil) ltac:(discriminate)))).
    vm_compute. reflexivity.
  - rewrite (proj2 (proj2 (proj1 (lookups_by_value "counties" "name" (JStr "Atlantis") ["*"]
                                    db1 [] quiet_nil) ltac:(discriminate)))).
    vm_compute. reflexivity.
Defined.

Lemma limit_zero_never_ends :
  exists pg,
    (paginate "counties" 7 0 no_options (fresh_world db25 [])).1 = inr pg
    /\ data pg = [] /\ totalPages (pagination pg) = Infinity
    /\ hasNext (pagination pg) = true.
Proof.
  destruct (proj1 (paginate_does_not_clamp "counties" 7 0 no_options db25 [] quiet_nil)
              I eq_refl ltac:(lia)) as (pg & Hpg & Hdata & Hsome & _).
  exists pg. split; [exact Hpg |]. split; [exact Hdata |].
  apply Hsome. intros E. apply (f_equal length) in E. vm_compute in E. discriminate.
Defined.

Lemma textual_id_is_rejected :
  isInt_min1 (req_param (request (Some "abc") [] [] (Some "Bearer tok21")) "id") = false
  /\ delete_profile_route (request (Some "abc") [] [] (Some "Bearer tok21"))
       (fresh_world db1 [])
     = (inr invalid_id_response, fresh_world db1 []).
Proof.
  split; [reflexivity |].
  apply (invalid_id_is_rejected_first delete_profile_route); [| reflexivity | reflexivity].
  unfold user_profile_routes. cbn. auto 10.
Defined.

Lemma tailed_id_passes_gate :
  params tailed_request !! "id" = Some "21abc"
  /\ run_route [checkResourceOwnership] getUserProfile tailed_request (fresh_world db1 [])
     = getUserProfile tailed_request (fresh_world db1 []).
Proof.
  split; [reflexivity |].
  exact (gate_reads_leading_digits tailed_request (fresh_world db1 []) getUserProfile
           "2" "1" "abc" 21 (JStr "ann@example.org") eq_refl eq_refl eq_refl eq_refl
           eq_refl eq_refl).
Defined.
